(** * UTF-8 BOM tools: [utf-8+bom.py] (add) and [utf-8-bom.py] (remove)

    A shallow embedding of the two scripts.  The scripts are thin layers
    over the Python runtime, so the development has three parts:

    - the runtime pieces the scripts call: the [utf-8] and [utf-8-sig]
      codecs, text-mode newline translation, and [open]/[read]/[write] on
      a file store, with the exceptions they raise;
    - the scripts themselves, one module per file, written in a small
      state-and-exception monad so that [try]/[except] reads as in the
      source;
    - the properties of the per-file procedures and of the batch walker.

    The modules of the two scripts leave console output out: [verbose]
    only guards prints, and a print that succeeds changes neither the
    files nor the values returned.  A print can fail, however, when
    [sys.stdout] cannot encode the line; module [Verbose] carries the
    per-file procedures with their prints, and agrees with the scripts'
    modules whenever no print fails.  Likewise the file store has one
    file per path; module [Links] carries the walker over a tree in
    which several names may lead to one file. *)

From Stdlib Require Import NArith ZArith List Lia Bool.
From Stdlib.Strings Require Import Byte.
From stdpp Require Import gmap strings list fin_maps.
Import ListNotations.

Local Open Scope N_scope.

(** [lia] is asked to reason about division by constants, which the
    codec arithmetic uses. *)
Ltac Zify.zify_post_hook ::= Z.to_euclidean_division_equations.

(* ===================================================================== *)
(** ** Bytes and Python strings *)
(* ===================================================================== *)

(** [bytes] objects are lists of bytes, [str] objects lists of code points. *)
Abbreviation bytes := (list byte).
Abbreviation pystr := (list N).

#[global] Instance byte_eq_decision : EqDecision byte := Byte.byte_eq_dec.

(** [codecs.BOM_UTF8] *)
Definition BOM_UTF8 : bytes := [xef; xbb; xbf].

Definition in_range (lo hi n : N) : bool := (lo <=? n) && (n <=? hi).

Definition byte_of_N (n : N) : byte := default x00 (Byte.of_N n).

(* ===================================================================== *)
(** ** The [utf-8] codec, strict error handling *)
(* ===================================================================== *)

(** Admissible range of the second byte of a three-byte sequence:
    [E0] excludes overlong forms, [ED] excludes surrogates. *)
Definition second3_lo (n0 : N) : N := if n0 =? 0xE0 then 0xA0 else 0x80.
Definition second3_hi (n0 : N) : N := if n0 =? 0xED then 0x9F else 0xBF.

(** Same for four-byte sequences: [F0] excludes overlong forms, [F4]
    excludes code points above U+10FFFF. *)
Definition second4_lo (n0 : N) : N := if n0 =? 0xF0 then 0x90 else 0x80.
Definition second4_hi (n0 : N) : N := if n0 =? 0xF4 then 0x8F else 0xBF.

(** [bytes.decode('utf-8')]: [None] stands for [UnicodeDecodeError]. *)
Fixpoint utf_8_decode (bs : bytes) : option pystr :=
  match bs with
  | [] => Some []
  | b0 :: r0 =>
    let n0 := Byte.to_N b0 in
    if n0 <? 0x80 then cons n0 <$> utf_8_decode r0
    else if in_range 0xC2 0xDF n0 then
      match r0 with
      | b1 :: r1 =>
        let n1 := Byte.to_N b1 in
        if in_range 0x80 0xBF n1
        then cons ((n0 - 0xC0) * 64 + (n1 - 0x80)) <$> utf_8_decode r1
        else None
      | _ => None
      end
    else if in_range 0xE0 0xEF n0 then
      match r0 with
      | b1 :: b2 :: r2 =>
        let n1 := Byte.to_N b1 in
        let n2 := Byte.to_N b2 in
        if in_range (second3_lo n0) (second3_hi n0) n1 && in_range 0x80 0xBF n2
        then cons ((n0 - 0xE0) * 4096 + (n1 - 0x80) * 64 + (n2 - 0x80))
               <$> utf_8_decode r2
        else None
      | _ => None
      end
    else if in_range 0xF0 0xF4 n0 then
      match r0 with
      | b1 :: b2 :: b3 :: r3 =>
        let n1 := Byte.to_N b1 in
        let n2 := Byte.to_N b2 in
        let n3 := Byte.to_N b3 in
        if in_range (second4_lo n0) (second4_hi n0) n1
           && in_range 0x80 0xBF n2 && in_range 0x80 0xBF n3
        then cons ((n0 - 0xF0) * 262144 + (n1 - 0x80) * 4096
                   + (n2 - 0x80) * 64 + (n3 - 0x80))
               <$> utf_8_decode r3
        else None
      | _ => None
      end
    else None
  end.

(** Encoding of one code point; [None] stands for [UnicodeEncodeError]
    (surrogates; values above U+10FFFF do not occur in a [str]). *)
Definition utf_8_encode_char (c : N) : option bytes :=
  if c <? 0x80 then Some [byte_of_N c]
  else if c <? 0x800 then
    Some [byte_of_N (0xC0 + c / 64); byte_of_N (0x80 + c mod 64)]
  else if c <? 0x10000 then
    if in_range 0xD800 0xDFFF c then None
    else Some [byte_of_N (0xE0 + c / 4096);
               byte_of_N (0x80 + (c / 64) mod 64);
               byte_of_N (0x80 + c mod 64)]
  else if c <? 0x110000 then
    Some [byte_of_N (0xF0 + c / 262144);
          byte_of_N (0x80 + (c / 4096) mod 64);
          byte_of_N (0x80 + (c / 64) mod 64);
          byte_of_N (0x80 + c mod 64)]
  else None.

(** [str.encode('utf-8')] *)
Fixpoint utf_8_encode (s : pystr) : option bytes :=
  match s with
  | [] => Some []
  | c :: r =>
    match utf_8_encode_char c, utf_8_encode r with
    | Some a, Some b => Some (a ++ b)
    | _, _ => None
    end
  end.

(** The [utf-8-sig] codec: decoding skips one leading BOM when there is
    one, encoding emits the BOM before the first chunk (also when that
    chunk is the empty string). *)
Definition utf_8_sig_decode (bs : bytes) : option pystr :=
  match bs with
  | b0 :: b1 :: b2 :: r =>
    if bool_decide ([b0; b1; b2] = BOM_UTF8) then utf_8_decode r
    else utf_8_decode bs
  | _ => utf_8_decode bs
  end.

Definition utf_8_sig_encode (s : pystr) : option bytes :=
  (fun b => BOM_UTF8 ++ b) <$> utf_8_encode s.

Inductive encoding := utf_8 | utf_8_sig.

Definition decode (enc : encoding) : bytes -> option pystr :=
  match enc with utf_8 => utf_8_decode | utf_8_sig => utf_8_sig_decode end.

Definition encode (enc : encoding) : pystr -> option bytes :=
  match enc with utf_8 => utf_8_encode | utf_8_sig => utf_8_sig_encode end.

(* ===================================================================== *)
(** ** Text-mode newline translation ([newline=None]) *)
(* ===================================================================== *)

(** [os.linesep] depends on the platform the script runs on. *)
Inductive platform := Posix | Windows.

Definition linesep (pf : platform) : pystr :=
  match pf with Posix => [10] | Windows => [13; 10] end.

(** On input, ["\r\n"] and a lone ["\r"] become ["\n"]. *)
Fixpoint universal_newlines (s : pystr) : pystr :=
  match s with
  | [] => []
  | c :: r =>
    if c =? 13 then
      10 :: match r with
            | c' :: r' =>
              if c' =? 10 then universal_newlines r' else universal_newlines r
            | [] => []
            end
    else c :: universal_newlines r
  end.

(** On output, every ["\n"] becomes [os.linesep]. *)
Definition write_newlines (pf : platform) (s : pystr) : pystr :=
  flat_map (fun c => if c =? 10 then linesep pf else [c]) s.

(* ===================================================================== *)
(** ** The file store and the exceptions of [open] *)
(* ===================================================================== *)

(** A path is its tuple of components, [Path.parts]. *)
Abbreviation path := (list string).

Record file := File { content : bytes; readable : bool; writable : bool }.

Inductive node := RegularFile (f : file) | Directory.

Abbreviation fsys := (gmap path node).

(** The exceptions that can arise; all are subclasses of [Exception]. *)
Inductive exn :=
| FileNotFoundError (p : path)
| IsADirectoryError (p : path)
| PermissionError (p : path)
| UnicodeDecodeError
| UnicodeEncodeError.

(** [str(path)] and [str(e)], up to the exact wording of the message. *)
Definition str_path (p : path) : string :=
  match p with
  | root :: rest => if String.eqb root "/" then "/" +:+ String.concat "/" rest
                    else String.concat "/" p
  | [] => "."
  end.

Definition str_exn (e : exn) : string :=
  match e with
  | FileNotFoundError p => "[Errno 2] No such file or directory: " +:+ str_path p
  | IsADirectoryError p => "[Errno 21] Is a directory: " +:+ str_path p
  | PermissionError p => "[Errno 13] Permission denied: " +:+ str_path p
  | UnicodeDecodeError => "'utf-8' codec can't decode byte"
  | UnicodeEncodeError => "'utf-8' codec can't encode character"
  end.

(* ===================================================================== *)
(** ** A monad for file-store state and exceptions *)
(* ===================================================================== *)

Inductive result (A : Type) := Ok (a : A) | Raise (e : exn).
Arguments Ok {A} a.
Arguments Raise {A} e.

(** Stores and results are compared when concrete runs are evaluated. *)
#[global] Instance file_eq_dec : EqDecision file.
Proof. solve_decision. Defined.

#[global] Instance node_eq_dec : EqDecision node.
Proof. solve_decision. Defined.

#[global] Instance exn_eq_dec : EqDecision exn.
Proof. solve_decision. Defined.

#[global] Instance result_eq_dec {A} `{EqDecision A} : EqDecision (result A).
Proof. solve_decision. Defined.

Definition io (A : Type) : Type := fsys -> fsys * result A.

Definition ret {A} (a : A) : io A := fun fs => (fs, Ok a).

Definition raise {A} (e : exn) : io A := fun fs => (fs, Raise e).

Definition bind {A B} (m : io A) (k : A -> io B) : io B :=
  fun fs =>
    match m fs with
    | (fs', Ok a) => k a fs'
    | (fs', Raise e) => (fs', Raise e)
    end.

(** [try: m  except Exception as e: h e] — what [m] wrote before raising
    stays written. *)
Definition try_except {A} (m : io A) (h : exn -> io A) : io A :=
  fun fs =>
    match m fs with
    | (fs', Ok a) => (fs', Ok a)
    | (fs', Raise e) => h e fs'
    end.

Declare Scope io_scope.
Delimit Scope io_scope with io.
Notation "x <- c ;; k" := (bind c (fun x => k))
  (at level 100, c at next level, right associativity) : io_scope.
Notation "c ;;; k" := (bind c (fun _ => k))
  (at level 100, right associativity) : io_scope.
Local Open Scope io_scope.

(** Monadic left fold: a [for] loop with an accumulator. *)
Fixpoint for_each {A B} (body : A -> B -> io A) (acc : A) (xs : list B) : io A :=
  match xs with
  | [] => ret acc
  | x :: xs' => acc' <- body acc x ;; for_each body acc' xs'
  end.

(* ===================================================================== *)
(** ** File operations *)
(* ===================================================================== *)

(** Opening for reading and taking the whole contents. *)
Definition open_read (p : path) : io bytes :=
  fun fs =>
    match fs !! p with
    | None => (fs, Raise (FileNotFoundError p))
    | Some Directory => (fs, Raise (IsADirectoryError p))
    | Some (RegularFile f) =>
      if readable f then (fs, Ok (content f))
      else (fs, Raise (PermissionError p))
    end.

(** [with open(p, 'rb') as f: f.read(n)] *)
Definition read_binary (p : path) (n : nat) : io bytes :=
  bs <- open_read p ;; ret (take n bs).

(** [with open(p, 'r', encoding=enc) as f: f.read()] *)
Definition read_text (enc : encoding) (p : path) : io pystr :=
  bs <- open_read p ;;
  match decode enc bs with
  | Some s => ret (universal_newlines s)
  | None => raise UnicodeDecodeError
  end.

(** [with open(p, 'w', encoding=enc) as f: f.write(s)].  Opening
    truncates, so a failing encoder leaves the file empty; a missing
    path is created (its directory is taken to exist), which the scripts
    never reach since they write only what they have just read. *)
Definition write_text (pf : platform) (enc : encoding) (p : path) (s : pystr)
  : io unit :=
  fun fs =>
    match fs !! p with
    | Some Directory => (fs, Raise (IsADirectoryError p))
    | Some (RegularFile f) =>
      if writable f then
        match encode enc (write_newlines pf s) with
        | Some bs =>
          (<[p := RegularFile (File bs (readable f) (writable f))]> fs, Ok tt)
        | None =>
          (<[p := RegularFile (File [] (readable f) (writable f))]> fs,
           Raise UnicodeEncodeError)
        end
      else (fs, Raise (PermissionError p))
    | None =>
      match encode enc (write_newlines pf s) with
      | Some bs => (<[p := RegularFile (File bs true true)]> fs, Ok tt)
      | None => (<[p := RegularFile (File [] true true)]> fs,
                 Raise UnicodeEncodeError)
      end
    end.

(** [Path.is_dir()] *)
Definition is_dir (p : path) : io bool :=
  fun fs =>
    match fs !! p with
    | Some Directory => (fs, Ok true)
    | _ => (fs, Ok false)
    end.

(* ===================================================================== *)
(** ** Helpers shared by the two scripts *)
(* ===================================================================== *)

(** Both scripts carry the same [has_utf8_bom] and [is_text_file]. *)

Definition has_utf8_bom (file_path : path) : io bool :=
  try_except
    (bom <- read_binary file_path 3 ;;
     ret (bool_decide (bom = BOM_UTF8)))
    (fun _ => ret false).

Definition is_text_file (file_path : path) : io bool :=
  try_except
    (chunk <- read_binary file_path 1024 ;;
     if bool_decide (x00 ∈ chunk) then ret false else ret true)
    (fun _ => ret false).

(** The [stats] dictionaries: [stats[key] += 1]. *)
Definition incr (key : string) (stats : gmap string nat) : gmap string nat :=
  <[key := S (stats !!! key)]> stats.

(** [any(exclude_dir in file_path.parts for exclude_dir in exclude_dirs)] *)
Definition in_excluded_dir (exclude_dirs : list string) (file_path : path) : bool :=
  existsb (fun exclude_dir => bool_decide (exclude_dir ∈ file_path)) exclude_dirs.

(** The calls made to the per-file procedure, in order, each with the
    tag it returned.  The scripts keep no such list; it is carried along
    to state which files the walker processed. *)
Abbreviation trace := (list (path * string)).

(* ===================================================================== *)
(** ** [utf-8+bom.py] *)
(* ===================================================================== *)

Module Utf8PlusBom.

Section Script.
(** The platform fixes [os.linesep]; [glob] is [Path.cwd().glob]: the
    paths matching a pattern, in traversal order.  The scripts create,
    delete and rename nothing, so the enumeration does not change
    during a run. *)
Variable pf : platform.
Variable glob : string -> list path.

Definition add_bom_to_file (file_path : path) (dry_run verbose : bool)
  : io (bool * string) :=
  try_except
    (has_bom <- has_utf8_bom file_path ;;
     if has_bom then ret (true, "already_has_bom"%string)
     else
       is_text <- is_text_file file_path ;;
       if negb is_text then ret (true, "not_text_file"%string)
       else
         content <- read_text utf_8 file_path ;;
         if dry_run then ret (true, "dry_run"%string)
         else
           write_text pf utf_8_sig file_path content ;;;
           ret (true, "bom_added"%string))
    (fun e =>
       match e with
       | UnicodeDecodeError => ret (false, "not_utf8"%string)
       | _ => ret (false, "error: " +:+ str_exn e)
       end).

Record args := Args {
  dry_run : bool;
  verbose : bool;
  extensions : list string;
  exclude_dirs : list string
}.

Definition default_extensions : list string :=
  ["cu"; "c"; "cpp"; "h"; "txt"; "md"; "mk"; "cuh"]%string.

Definition default_exclude_dirs : list string :=
  [".git"; "__pycache__"; "node_modules"; "venv"]%string.

Definition initial_stats : gmap string nat :=
  list_to_map [("total_found", 0); ("bom_added", 0); ("already_has_bom", 0);
               ("not_text_file", 0); ("not_utf8", 0); ("errors", 0)]%string%nat.

(** The [if]/[elif] chain updating the statistics. *)
Definition update_stats (stats : gmap string nat) (result : string)
  : gmap string nat :=
  if String.eqb result "bom_added" then incr "bom_added" stats
  else if String.eqb result "already_has_bom" then incr "already_has_bom" stats
  else if String.eqb result "not_text_file" then incr "not_text_file" stats
  else if String.prefix "not_utf8" result then incr "not_utf8" stats
  else if String.prefix "error" result then incr "errors" stats
  else stats.

(** Body of the inner [for] loop. *)
Definition visit (a : args) (acc : gmap string nat * trace) (file_path : path)
  : io (gmap string nat * trace) :=
  d <- is_dir file_path ;;
  if d then ret acc
  else if in_excluded_dir (exclude_dirs a) file_path then ret acc
  else
    let stats := incr "total_found" acc.1 in
    r <- add_bom_to_file file_path (dry_run a) (verbose a) ;;
    ret (update_stats stats r.2, acc.2 ++ [(file_path, r.2)]).

(** [main], after argument parsing: returns the statistics that the
    summary prints. *)
Definition main (a : args) : io (gmap string nat * trace) :=
  for_each
    (fun acc extension => for_each (visit a) acc (glob ("**/*." +:+ extension)))
    (initial_stats, []) (extensions a).

(** The number shown by the last line of a dry run
    ([stats['bom_added']]). *)
Definition dry_run_report (stats : gmap string nat) : nat :=
  stats !!! "bom_added"%string.
End Script.

End Utf8PlusBom.

(* ===================================================================== *)
(** ** [utf-8-bom.py] *)
(* ===================================================================== *)

Module Utf8MinusBom.

Section Script.
Variable pf : platform.
Variable glob : string -> list path.

Definition remove_bom_from_file (file_path : path) (dry_run verbose : bool)
  : io (bool * string) :=
  try_except
    (has_bom <- has_utf8_bom file_path ;;
     if negb has_bom then ret (true, "no_bom"%string)
     else
       is_text <- is_text_file file_path ;;
       if negb is_text then ret (true, "not_text_file"%string)
       else
         content <- read_text utf_8_sig file_path ;;
         if dry_run then ret (true, "dry_run"%string)
         else
           write_text pf utf_8 file_path content ;;;
           ret (true, "bom_removed"%string))
    (fun e =>
       match e with
       | UnicodeDecodeError => ret (false, "not_utf8"%string)
       | _ => ret (false, "error: " +:+ str_exn e)
       end).

(** [--extensions] has no default here: [None] when absent. *)
Record args := Args {
  dry_run : bool;
  verbose : bool;
  exclude_dirs : list string;
  extensions : option (list string)
}.

Definition default_exclude_dirs : list string :=
  [".git"; "__pycache__"; "node_modules"; "venv"]%string.

Definition initial_stats : gmap string nat :=
  list_to_map [("total_checked", 0); ("bom_removed", 0); ("no_bom", 0);
               ("not_text_file", 0); ("not_utf8", 0); ("errors", 0)]%string%nat.

Definition update_stats (stats : gmap string nat) (result : string)
  : gmap string nat :=
  if String.eqb result "bom_removed" then incr "bom_removed" stats
  else if String.eqb result "no_bom" then incr "no_bom" stats
  else if String.eqb result "not_text_file" then incr "not_text_file" stats
  else if String.prefix "not_utf8" result then incr "not_utf8" stats
  else if String.prefix "error" result then incr "errors" stats
  else stats.

(** [if args.extensions:] is false for [None] and for an empty list. *)
Definition patterns (a : args) : list string :=
  match extensions a with
  | Some (ext :: exts) => map (fun ext => "**/*." +:+ ext) (ext :: exts)
  | _ => ["**/*"%string]
  end.

Definition visit (a : args) (acc : gmap string nat * trace) (file_path : path)
  : io (gmap string nat * trace) :=
  d <- is_dir file_path ;;
  if d then ret acc
  else if in_excluded_dir (exclude_dirs a) file_path then ret acc
  else
    let stats := incr "total_checked" acc.1 in
    r <- remove_bom_from_file file_path (dry_run a) (verbose a) ;;
    ret (update_stats stats r.2, acc.2 ++ [(file_path, r.2)]).

Definition main (a : args) : io (gmap string nat * trace) :=
  for_each
    (fun acc pattern => for_each (visit a) acc (glob pattern))
    (initial_stats, []) (patterns a).

Definition dry_run_report (stats : gmap string nat) : nat :=
  stats !!! "bom_removed"%string.
End Script.

End Utf8MinusBom.

(* ===================================================================== *)
(** ** The per-file procedures with their console output *)
(* ===================================================================== *)

Module Verbose.

(** The lines the per-file procedures print, each with the path it
    names.  The first five are plain text; the last four begin with a
    mark, U+2713 for a rewrite done and U+2717 for a failure. *)
Inductive line :=
| Skipped_has_bom (file_path : path)
| Skipped_no_bom (file_path : path)
| Skipped_not_text (file_path : path)
| Would_add (file_path : path)
| Would_remove (file_path : path)
| Added (file_path : path)
| Removed (file_path : path)
| Decoding_failed (file_path : path)
| Failed (file_path : path) (message : string).

Section Script.
Variable pf : platform.
(** Whether [sys.stdout] can encode a line: [print] raises
    [UnicodeEncodeError] when it cannot. *)
Variable console : line -> bool.

Definition print (l : line) : io unit :=
  fun fs => if console l then (fs, Ok tt) else (fs, Raise UnicodeEncodeError).

(** [if b: m] *)
Definition when (b : bool) (m : io unit) : io unit :=
  if b then m else ret tt.

(** [add_bom_to_file] of [utf-8+bom.py].  The prints of the [try] block
    are covered by the handlers; those of the handlers are not. *)
Definition add_bom_to_file (file_path : path) (dry_run verbose : bool)
  : io (bool * string) :=
  try_except
    (has_bom <- has_utf8_bom file_path ;;
     if has_bom then
       when verbose (print (Skipped_has_bom file_path)) ;;;
       ret (true, "already_has_bom"%string)
     else
       is_text <- is_text_file file_path ;;
       if negb is_text then
         when verbose (print (Skipped_not_text file_path)) ;;;
         ret (true, "not_text_file"%string)
       else
         content <- read_text utf_8 file_path ;;
         if dry_run then
           when verbose (print (Would_add file_path)) ;;;
           ret (true, "dry_run"%string)
         else
           write_text pf utf_8_sig file_path content ;;;
           when verbose (print (Added file_path)) ;;;
           ret (true, "bom_added"%string))
    (fun e =>
       match e with
       | UnicodeDecodeError =>
         when verbose (print (Decoding_failed file_path)) ;;;
         ret (false, "not_utf8"%string)
       | _ =>
         when verbose (print (Failed file_path (str_exn e))) ;;;
         ret (false, "error: " +:+ str_exn e)
       end).

(** [remove_bom_from_file] of [utf-8-bom.py]. *)
Definition remove_bom_from_file (file_path : path) (dry_run verbose : bool)
  : io (bool * string) :=
  try_except
    (has_bom <- has_utf8_bom file_path ;;
     if negb has_bom then
       when verbose (print (Skipped_no_bom file_path)) ;;;
       ret (true, "no_bom"%string)
     else
       is_text <- is_text_file file_path ;;
       if negb is_text then
         when verbose (print (Skipped_not_text file_path)) ;;;
         ret (true, "not_text_file"%string)
       else
         content <- read_text utf_8_sig file_path ;;
         if dry_run then
           when verbose (print (Would_remove file_path)) ;;;
           ret (true, "dry_run"%string)
         else
           write_text pf utf_8 file_path content ;;;
           when verbose (print (Removed file_path)) ;;;
           ret (true, "bom_removed"%string))
    (fun e =>
       match e with
       | UnicodeDecodeError =>
         when verbose (print (Decoding_failed file_path)) ;;;
         ret (false, "not_utf8"%string)
       | _ =>
         when verbose (print (Failed file_path (str_exn e))) ;;;
         ret (false, "error: " +:+ str_exn e)
       end).
End Script.

End Verbose.

(* ===================================================================== *)
(** ** Vocabulary of the properties *)
(* ===================================================================== *)

(** Well-formed byte sequences, one constructor per sequence length. *)
Inductive decodes : bytes -> pystr -> Prop :=
| decodes_nil : decodes [] []
| decodes_1 b0 r s :
    Byte.to_N b0 < 0x80 ->
    decodes r s ->
    decodes (b0 :: r) (Byte.to_N b0 :: s)
| decodes_2 b0 b1 r s :
    0xC2 <= Byte.to_N b0 <= 0xDF ->
    0x80 <= Byte.to_N b1 <= 0xBF ->
    decodes r s ->
    decodes (b0 :: b1 :: r)
            ((Byte.to_N b0 - 0xC0) * 64 + (Byte.to_N b1 - 0x80) :: s)
| decodes_3 b0 b1 b2 r s :
    0xE0 <= Byte.to_N b0 <= 0xEF ->
    second3_lo (Byte.to_N b0) <= Byte.to_N b1 <= second3_hi (Byte.to_N b0) ->
    0x80 <= Byte.to_N b2 <= 0xBF ->
    decodes r s ->
    decodes (b0 :: b1 :: b2 :: r)
            ((Byte.to_N b0 - 0xE0) * 4096 + (Byte.to_N b1 - 0x80) * 64
             + (Byte.to_N b2 - 0x80) :: s)
| decodes_4 b0 b1 b2 b3 r s :
    0xF0 <= Byte.to_N b0 <= 0xF4 ->
    second4_lo (Byte.to_N b0) <= Byte.to_N b1 <= second4_hi (Byte.to_N b0) ->
    0x80 <= Byte.to_N b2 <= 0xBF ->
    0x80 <= Byte.to_N b3 <= 0xBF ->
    decodes r s ->
    decodes (b0 :: b1 :: b2 :: b3 :: r)
            ((Byte.to_N b0 - 0xF0) * 262144 + (Byte.to_N b1 - 0x80) * 4096
             + (Byte.to_N b2 - 0x80) * 64 + (Byte.to_N b3 - 0x80) :: s).

(** Scalar values: what the encoder accepts. *)
Definition scalar (c : N) : Prop := c < 0xD800 \/ 0xE000 <= c < 0x110000.

(** All line endings of a byte string are [os.linesep]: on POSIX no CR
    occurs; on Windows CR and LF occur only as the pair CR LF. *)
Fixpoint native_newlines (pf : platform) (bs : bytes) : bool :=
  match bs with
  | [] => true
  | b :: r =>
    if bool_decide (b = x0d) then
      match pf, r with
      | Windows, b' :: r' => bool_decide (b' = x0a) && native_newlines pf r'
      | _, _ => false
      end
    else if bool_decide (b = x0a) then
      match pf with Posix => native_newlines pf r | Windows => false end
    else native_newlines pf r
  end.

(** The outcomes of processing one file, and the tag each is returned as. *)
Inductive FileOutcome :=
| BomAdded | BomRemoved | AlreadyHasBom | NoBom
| NotTextFile | NotUtf8 | DryRun | Error (message : string).

Definition tag_of_outcome (o : FileOutcome) : string :=
  match o with
  | BomAdded => "bom_added"
  | BomRemoved => "bom_removed"
  | AlreadyHasBom => "already_has_bom"
  | NoBom => "no_bom"
  | NotTextFile => "not_text_file"
  | NotUtf8 => "not_utf8"
  | DryRun => "dry_run"
  | Error message => "error: " +:+ message
  end.

Definition is_outcome_tag (tag : string) : Prop :=
  exists o, tag = tag_of_outcome o.

(** What the file holds after a successful add. *)
Definition added (pf : platform) (s : pystr) : option bytes :=
  utf_8_sig_encode (write_newlines pf (universal_newlines s)).

(** What the file holds after a successful remove. *)
Definition removed (pf : platform) (s : pystr) : option bytes :=
  utf_8_encode (write_newlines pf (universal_newlines s)).

(** What a per-file procedure may do to the store: nothing, or (in a
    real run only) replace the contents found at its own path. *)
Definition touches_only (p : path) (d : bool) (fs fs' : fsys) : Prop :=
  fs' = fs
  \/ (d = false /\ fs !! p <> Some Directory
      /\ exists f', fs' = <[p := RegularFile f']> fs).

(** The loop body of either script, with what differs between the two
    as parameters: [proc] is the per-file procedure with its flags
    applied, [key] the counter of visited files, [upd] the [if]/[elif]
    chain and [excl] the excluded directory names. *)
Definition step (proc : path -> io (bool * string)) (key : string)
    (upd : gmap string nat -> string -> gmap string nat) (excl : list string)
    (acc : gmap string nat * trace) (file_path : path)
  : io (gmap string nat * trace) :=
  bind (is_dir file_path) (fun dir =>
    if dir then ret acc
    else if in_excluded_dir excl file_path then ret acc
    else
      let stats := incr key acc.1 in
      bind (proc file_path) (fun r =>
        ret (upd stats r.2, acc.2 ++ [(file_path, r.2)]))).

(** The candidates that reach the per-file procedure: those that are
    not directories and have no excluded component. *)
Definition survives (excl : list string) (fs : fsys) (file_path : path) : bool :=
  match fs !! file_path with
  | Some Directory => false
  | _ => negb (in_excluded_dir excl file_path)
  end.

(** The paths [main] iterates over, in order. *)
Definition add_candidates (glob : string -> list path) (a : Utf8PlusBom.args)
  : list path :=
  flat_map (fun extension => glob ("**/*." +:+ extension))
           (Utf8PlusBom.extensions a).

Definition remove_candidates (glob : string -> list path) (a : Utf8MinusBom.args)
  : list path :=
  flat_map glob (Utf8MinusBom.patterns a).

(** The walkers on a tree with links.  Several names can lead to one
    file (symbolic links, hard links): [file_of] gives the key under
    which the store holds the file a name leads to.  [Path.is_dir] and
    [open] follow the name to the file; [Path.parts] are those of the
    name, and so is the path kept in the trace.  With the identity for
    [file_of] these are the walkers of the two scripts. *)
Module Links.

Section Walk.
Variable file_of : path -> path.

Definition step (proc : path -> io (bool * string)) (key : string)
    (upd : gmap string nat -> string -> gmap string nat) (excl : list string)
    (acc : gmap string nat * trace) (file_path : path)
  : io (gmap string nat * trace) :=
  bind (is_dir (file_of file_path)) (fun dir =>
    if dir then ret acc
    else if in_excluded_dir excl file_path then ret acc
    else
      let stats := incr key acc.1 in
      bind (proc (file_of file_path)) (fun r =>
        ret (upd stats r.2, acc.2 ++ [(file_path, r.2)]))).

(** [main] of [utf-8+bom.py] *)
Definition add_main (pf : platform) (glob : string -> list path)
    (a : Utf8PlusBom.args) : io (gmap string nat * trace) :=
  for_each
    (fun acc extension =>
       for_each
         (step (fun p => Utf8PlusBom.add_bom_to_file pf p (Utf8PlusBom.dry_run a)
                           (Utf8PlusBom.verbose a))
               "total_found" Utf8PlusBom.update_stats (Utf8PlusBom.exclude_dirs a))
         acc (glob ("**/*." +:+ extension)))
    (Utf8PlusBom.initial_stats, []) (Utf8PlusBom.extensions a).

(** [main] of [utf-8-bom.py] *)
Definition remove_main (pf : platform) (glob : string -> list path)
    (a : Utf8MinusBom.args) : io (gmap string nat * trace) :=
  for_each
    (fun acc pattern =>
       for_each
         (step (fun p => Utf8MinusBom.remove_bom_from_file pf p
                           (Utf8MinusBom.dry_run a) (Utf8MinusBom.verbose a))
               "total_checked" Utf8MinusBom.update_stats
               (Utf8MinusBom.exclude_dirs a))
         acc (glob pattern))
    (Utf8MinusBom.initial_stats, []) (Utf8MinusBom.patterns a).
End Walk.

End Links.

(** The statistics after the reports [tags], replayed from [stats]:
    each report counts one visited file under [key] and goes through
    the [if]/[elif] chain [upd]. *)
Definition tally (key : string)
    (upd : gmap string nat -> string -> gmap string nat)
    (tags : list string) (stats : gmap string nat) : gmap string nat :=
  fold_left (fun st tag => upd (incr key st) tag) tags stats.

(** How many of the reports satisfy [test]. *)
Definition count_tags (test : string -> bool) (tags : list string) : nat :=
  length (List.filter test tags).

(** How the report of a dry run relates to the report of the real run
    on the same file: [dry_run] stands for the rewrite ([changed]) or
    its failure, any other report is one of [passed] and is the same
    in both runs. *)
Definition predicts (changed : string) (passed : list string)
    (t_dry t_real : string) : Prop :=
  (t_dry = "dry_run"%string
   /\ (t_real = changed \/ exists message, t_real = "error: " +:+ message))
  \/ (t_dry ∈ passed /\ t_real = t_dry).

(** The tests of the [if]/[elif] chains: [result == t] and
    [result.startswith(t)]. *)
Definition is_tag (t : string) : string -> bool := fun result => String.eqb result t.

Definition starts_with (t : string) : string -> bool := fun result => String.prefix t result.

(** The reports a run of the add procedure can make, by kind of run. *)
Definition add_report (dry : bool) (tag : string) : Prop :=
  if dry
  then tag ∈ ["already_has_bom"; "not_text_file"; "not_utf8"; "dry_run"]%string
  else tag ∈ ["bom_added"; "already_has_bom"; "not_text_file"; "not_utf8"]%string
       \/ exists message, tag = "error: " +:+ message.

(** The same for the remove procedure. *)
Definition remove_report (dry : bool) (tag : string) : Prop :=
  if dry
  then tag ∈ ["no_bom"; "not_text_file"; "not_utf8"; "dry_run"]%string
  else tag ∈ ["bom_removed"; "no_bom"; "not_text_file"; "not_utf8"]%string
       \/ exists message, tag = "error: " +:+ message.

(** What an entry of the store is apart from a file's contents: absent,
    a directory, or a regular file with its permissions. *)
Definition shape (n : option node) : option (option (bool * bool)) :=
  match n with
  | None => None
  | Some Directory => Some None
  | Some (RegularFile f) => Some (Some (readable f, writable f))
  end.

(* ===================================================================== *)
(** ** Concrete trees used below *)
(* ===================================================================== *)

Module Examples.

Definition readme : path := ["/"; "w"; "readme.md"]%string.
Definition vendored : path := ["/"; "w"; "venv"; "notes.md"]%string.

(** ["hello"] *)
Definition hello : bytes := [x68; x65; x6c; x6c; x6f].

(** A tree with one accessible file [readme.md] holding [bs]. *)
Definition tree (bs : bytes) : fsys :=
  {[ readme := RegularFile (File bs true true) ]}.

(** The same with a second file under an excluded directory. *)
Definition tree_venv (bs : bytes) : fsys :=
  <[vendored := RegularFile (File bs true true)]> (tree bs).

Definition glob_md (pattern : string) : list path :=
  if String.eqb pattern "**/*.md" then [vendored; readme]
  else if String.eqb pattern "**/*" then [["/"; "w"; "venv"]%string; vendored; readme]
  else [].

Definition glob_readme (pattern : string) : list path :=
  if String.eqb pattern "**/*.md" then [readme] else [].

Definition add_args (dry : bool) : Utf8PlusBom.args :=
  Utf8PlusBom.Args dry false Utf8PlusBom.default_extensions
                   Utf8PlusBom.default_exclude_dirs.

Definition remove_args (dry : bool) : Utf8MinusBom.args :=
  Utf8MinusBom.Args dry false Utf8MinusBom.default_exclude_dirs None.

(** A second file next to [readme.md], and a tree holding both. *)
Definition notes : path := ["/"; "w"; "notes.md"]%string.

Definition tree_two (bs : bytes) : fsys :=
  <[notes := RegularFile (File bs true true)]> (tree bs).

(** A console whose encoding has the text of every line but not the
    marks U+2713 and U+2717, as the GBK code page. *)
Definition console_without_marks (l : Verbose.line) : bool :=
  match l with
  | Verbose.Added _ | Verbose.Removed _
  | Verbose.Decoding_failed _ | Verbose.Failed _ _ => false
  | _ => true
  end.

(** [latest.md] is a link to [readme.md]; every other name leads to
    itself. *)
Definition latest : path := ["/"; "w"; "latest.md"]%string.

Definition file_of_latest (p : path) : path :=
  if bool_decide (p = latest) then readme else p.

Definition glob_latest (pattern : string) : list path :=
  if String.eqb pattern "**/*.md" then [latest; readme] else [].

End Examples.

(* ===================================================================== *)
(** ** Codec facts *)
(* ===================================================================== *)

(** Case analysis on the lead byte when the range of the second byte
    depends on it. *)
Ltac second_ranges :=
  unfold second3_lo, second3_hi, second4_lo, second4_hi in *;
  repeat match goal with
         | H : context [N.eqb ?a ?b] |- _ => destruct (N.eqb_spec a b)
         end.

Section Codec.

Lemma byte_of_N_to_N (b : byte) (n : N) : n = Byte.to_N b -> byte_of_N n = b.
Proof. intros ->. unfold byte_of_N. now rewrite Byte.of_to_N. Qed.

Lemma in_range_spec lo hi n : in_range lo hi n = true <-> lo <= n <= hi.
Proof. unfold in_range. rewrite andb_true_iff, !N.leb_le. reflexivity. Qed.

Lemma fmap_cons_Some (c : N) (o : option pystr) (s : pystr) :
  cons c <$> o = Some s -> exists s', o = Some s' /\ s = c :: s'.
Proof. destruct o as [s'|]; [|discriminate]. intros [= <-]. eauto. Qed.

Lemma utf_8_decode_decodes_len (n : nat) :
  forall bs s, (length bs <= n)%nat -> utf_8_decode bs = Some s -> decodes bs s.
Proof.
  induction n as [|n IH]; intros bs s Hlen.
  - destruct bs; [|simpl in Hlen; lia]. intros [= <-]. constructor.
  - destruct bs as [|b0 r0]; [intros [= <-]; constructor|].
    cbn [utf_8_decode]. cbn [length] in Hlen.
    destruct (N.ltb_spec (Byte.to_N b0) 0x80) as [H0|H0].
    { intros (s' & Hs' & ->)%fmap_cons_Some.
      constructor; [assumption|]. apply IH; [lia|assumption]. }
    destruct (in_range 0xC2 0xDF (Byte.to_N b0)) eqn:R2.
    { apply in_range_spec in R2.
      destruct r0 as [|b1 r1]; [discriminate|].
      destruct (in_range 0x80 0xBF (Byte.to_N b1)) eqn:C1; [|discriminate].
      apply in_range_spec in C1.
      intros (s' & Hs' & ->)%fmap_cons_Some.
      constructor; try assumption. apply IH; [cbn [length] in Hlen; lia|assumption]. }
    destruct (in_range 0xE0 0xEF (Byte.to_N b0)) eqn:R3.
    { apply in_range_spec in R3.
      destruct r0 as [|b1 [|b2 r2]]; try discriminate.
      destruct (in_range _ _ (Byte.to_N b1)) eqn:C1; [|discriminate].
      destruct (in_range 0x80 0xBF (Byte.to_N b2)) eqn:C2; [|discriminate].
      apply in_range_spec in C1, C2. cbn [andb].
      intros (s' & Hs' & ->)%fmap_cons_Some.
      constructor; try assumption. apply IH; [cbn [length] in Hlen; lia|assumption]. }
    destruct (in_range 0xF0 0xF4 (Byte.to_N b0)) eqn:R4; [|discriminate].
    apply in_range_spec in R4.
    destruct r0 as [|b1 [|b2 [|b3 r3]]]; try discriminate.
    destruct (in_range _ _ (Byte.to_N b1)) eqn:C1; [|discriminate].
    destruct (in_range 0x80 0xBF (Byte.to_N b2)) eqn:C2; [|discriminate].
    destruct (in_range 0x80 0xBF (Byte.to_N b3)) eqn:C3; [|discriminate].
    apply in_range_spec in C1, C2, C3. cbn [andb].
    intros (s' & Hs' & ->)%fmap_cons_Some.
    constructor; try assumption. apply IH; [cbn [length] in Hlen; lia|assumption].
Qed.

Lemma utf_8_decode_decodes bs s : utf_8_decode bs = Some s -> decodes bs s.
Proof. apply (utf_8_decode_decodes_len (length bs)). lia. Qed.


Lemma encode_char_1 b0 :
  Byte.to_N b0 < 0x80 -> utf_8_encode_char (Byte.to_N b0) = Some [b0].
Proof.
  intros H. unfold utf_8_encode_char.
  destruct (N.ltb_spec (Byte.to_N b0) 0x80); [|lia].
  now rewrite (byte_of_N_to_N b0).
Qed.

Lemma encode_char_2 b0 b1 :
  0xC2 <= Byte.to_N b0 <= 0xDF -> 0x80 <= Byte.to_N b1 <= 0xBF ->
  utf_8_encode_char ((Byte.to_N b0 - 0xC0) * 64 + (Byte.to_N b1 - 0x80))
  = Some [b0; b1].
Proof.
  intros H0 H1. unfold utf_8_encode_char.
  set (c := (Byte.to_N b0 - 0xC0) * 64 + (Byte.to_N b1 - 0x80)).
  assert (Hc : 0x80 <= c < 0x800) by (subst c; lia).
  destruct (N.ltb_spec c 0x80); [lia|].
  destruct (N.ltb_spec c 0x800); [|lia].
  rewrite (byte_of_N_to_N b0), (byte_of_N_to_N b1); [reflexivity| |];
    subst c; lia.
Qed.

Lemma encode_char_3 b0 b1 b2 :
  0xE0 <= Byte.to_N b0 <= 0xEF ->
  second3_lo (Byte.to_N b0) <= Byte.to_N b1 <= second3_hi (Byte.to_N b0) ->
  0x80 <= Byte.to_N b2 <= 0xBF ->
  utf_8_encode_char ((Byte.to_N b0 - 0xE0) * 4096 + (Byte.to_N b1 - 0x80) * 64
                     + (Byte.to_N b2 - 0x80))
  = Some [b0; b1; b2].
Proof.
  intros H0 H1 H2. unfold utf_8_encode_char.
  set (c := (Byte.to_N b0 - 0xE0) * 4096 + (Byte.to_N b1 - 0x80) * 64
            + (Byte.to_N b2 - 0x80)).
  assert (Hb1 : 0x80 <= Byte.to_N b1 <= 0xBF) by (second_ranges; lia).
  assert (Hc : 0x800 <= c < 0x10000) by (subst c; second_ranges; lia).
  assert (Hs : ~ (0xD800 <= c <= 0xDFFF)) by (subst c; second_ranges; lia).
  destruct (N.ltb_spec c 0x80); [lia|].
  destruct (N.ltb_spec c 0x800); [lia|].
  destruct (N.ltb_spec c 0x10000); [|lia].
  destruct (in_range 0xD800 0xDFFF c) eqn:S; [apply in_range_spec in S; lia|].
  rewrite (byte_of_N_to_N b0), (byte_of_N_to_N b1), (byte_of_N_to_N b2);
    [reflexivity| | |]; subst c; lia.
Qed.

Lemma encode_char_4 b0 b1 b2 b3 :
  0xF0 <= Byte.to_N b0 <= 0xF4 ->
  second4_lo (Byte.to_N b0) <= Byte.to_N b1 <= second4_hi (Byte.to_N b0) ->
  0x80 <= Byte.to_N b2 <= 0xBF ->
  0x80 <= Byte.to_N b3 <= 0xBF ->
  utf_8_encode_char ((Byte.to_N b0 - 0xF0) * 262144 + (Byte.to_N b1 - 0x80) * 4096
                     + (Byte.to_N b2 - 0x80) * 64 + (Byte.to_N b3 - 0x80))
  = Some [b0; b1; b2; b3].
Proof.
  intros H0 H1 H2 H3. unfold utf_8_encode_char.
  set (c := (Byte.to_N b0 - 0xF0) * 262144 + (Byte.to_N b1 - 0x80) * 4096
            + (Byte.to_N b2 - 0x80) * 64 + (Byte.to_N b3 - 0x80)).
  assert (Hb1 : 0x80 <= Byte.to_N b1 <= 0xBF) by (second_ranges; lia).
  assert (Hc : 0x10000 <= c < 0x110000) by (subst c; second_ranges; lia).
  destruct (N.ltb_spec c 0x80); [lia|].
  destruct (N.ltb_spec c 0x800); [lia|].
  destruct (N.ltb_spec c 0x10000); [lia|].
  destruct (N.ltb_spec c 0x110000); [|lia].
  rewrite (byte_of_N_to_N b0), (byte_of_N_to_N b1), (byte_of_N_to_N b2),
    (byte_of_N_to_N b3); [reflexivity| | | |]; subst c; lia.
Qed.

(** Encoding undoes decoding. *)
Lemma decodes_encode bs s : decodes bs s -> utf_8_encode s = Some bs.
Proof.
  induction 1 as [|b0 r s H0 _ IH|b0 b1 r s H0 H1 _ IH
                  |b0 b1 b2 r s H0 H1 H2 _ IH|b0 b1 b2 b3 r s H0 H1 H2 H3 _ IH];
    [reflexivity|..]; cbn [utf_8_encode]; rewrite IH.
  - now rewrite encode_char_1.
  - now rewrite encode_char_2.
  - now rewrite encode_char_3.
  - now rewrite encode_char_4.
Qed.

Lemma utf_8_decode_encode bs s :
  utf_8_decode bs = Some s -> utf_8_encode s = Some bs.
Proof. intros H. now apply decodes_encode, utf_8_decode_decodes. Qed.

Lemma decodes_scalar bs s : decodes bs s -> Forall scalar s.
Proof.
  induction 1 as [|b0 r s H0 _ IH|b0 b1 r s H0 H1 _ IH
                  |b0 b1 b2 r s H0 H1 H2 _ IH|b0 b1 b2 b3 r s H0 H1 H2 H3 _ IH];
    constructor; try assumption; unfold scalar.
  - lia.
  - lia.
  - second_ranges; lia.
  - second_ranges; lia.
Qed.

Lemma encode_char_scalar c : scalar c -> is_Some (utf_8_encode_char c).
Proof.
  intros Hc. unfold utf_8_encode_char, scalar in *.
  destruct (N.ltb_spec c 0x80); [eauto|].
  destruct (N.ltb_spec c 0x800); [eauto|].
  destruct (N.ltb_spec c 0x10000).
  - destruct (in_range 0xD800 0xDFFF c) eqn:S; [|eauto].
    apply in_range_spec in S. lia.
  - destruct (N.ltb_spec c 0x110000); [eauto|lia].
Qed.

Lemma encode_scalar s : Forall scalar s -> is_Some (utf_8_encode s).
Proof.
  induction 1 as [|c s Hc _ [bs IH]]; [now exists []|].
  destruct (encode_char_scalar c Hc) as [b Hb].
  cbn [utf_8_encode]. rewrite Hb, IH. eauto.
Qed.

(** The BOM is the encoding of U+FEFF. *)
Lemma decode_BOM_cons rest :
  utf_8_decode (BOM_UTF8 ++ rest) = cons 0xFEFF <$> utf_8_decode rest.
Proof. reflexivity. Qed.

Lemma encode_FEFF_cons s :
  utf_8_encode (0xFEFF :: s) = (fun b => BOM_UTF8 ++ b) <$> utf_8_encode s.
Proof. cbn [utf_8_encode]. now destruct (utf_8_encode s). Qed.

End Codec.

(* ===================================================================== *)
(** ** Newline translation facts *)
(* ===================================================================== *)

Section Newlines.

Lemma universal_newlines_Forall_len (P : N -> Prop) (n : nat) :
  P 10 -> forall s, (length s <= n)%nat -> Forall P s ->
  Forall P (universal_newlines s).
Proof.
  intros P10. induction n as [|n IH]; intros s Hlen Hs.
  - destruct s; [constructor|simpl in Hlen; lia].
  - destruct Hs as [|c r Hc Hr]; [constructor|].
    cbn [universal_newlines]. cbn [length] in Hlen.
    destruct (c =? 13).
    + constructor; [assumption|].
      destruct Hr as [|c' r' Hc' Hr']; [constructor|].
      cbn [length] in Hlen.
      destruct (c' =? 10); apply IH; try (cbn [length]; lia);
        [assumption|now constructor].
    + constructor; [assumption|]. apply IH; [lia|assumption].
Qed.

Lemma universal_newlines_Forall (P : N -> Prop) s :
  P 10 -> Forall P s -> Forall P (universal_newlines s).
Proof. intros. now apply (universal_newlines_Forall_len P (length s)). Qed.

Lemma write_newlines_Forall (P : N -> Prop) pf s :
  P 10 -> P 13 -> Forall P s -> Forall P (write_newlines pf s).
Proof.
  intros P10 P13. induction 1 as [|c s Hc _ IH]; [constructor|].
  unfold write_newlines in *. cbn [flat_map].
  apply Forall_app. split; [|assumption].
  destruct (c =? 10); [|now repeat constructor].
  destruct pf; now repeat constructor.
Qed.

Lemma write_newlines_cons pf c s :
  c <> 10 -> write_newlines pf (c :: s) = c :: write_newlines pf s.
Proof.
  intros Hc. unfold write_newlines. cbn [flat_map].
  now destruct (N.eqb_spec c 10).
Qed.

End Newlines.


(* ===================================================================== *)
(** ** Files whose line endings survive a rewrite *)
(* ===================================================================== *)

Section NativeNewlines.
Variable pf : platform.

Lemma to_N_inj b b' : Byte.to_N b = Byte.to_N b' -> b = b'.
Proof.
  intros H. apply (f_equal Byte.of_N) in H. rewrite !Byte.of_to_N in H.
  now injection H.
Qed.

Lemma native_newlines_high b r :
  0x80 <= Byte.to_N b ->
  native_newlines pf (b :: r) = native_newlines pf r.
Proof.
  intros Hb. cbn [native_newlines].
  rewrite !bool_decide_eq_false_2; [reflexivity|..]; intros ->; cbn in Hb; lia.
Qed.

Lemma rewrite_high c s :
  0x80 <= c ->
  write_newlines pf (universal_newlines (c :: s))
  = c :: write_newlines pf (universal_newlines s).
Proof.
  intros Hc. cbn [universal_newlines].
  destruct (N.eqb_spec c 13); [lia|].
  apply write_newlines_cons. lia.
Qed.

(** Decoding, translating newlines in and out, then encoding again
    gives back a byte string whose line endings are native. *)
Lemma native_newlines_stable_len (n : nat) :
  forall bs s, (length bs <= n)%nat -> decodes bs s ->
               native_newlines pf bs = true ->
               write_newlines pf (universal_newlines s) = s.
Proof.
  induction n as [|n IH]; intros bs s Hlen D Hn.
  { destruct D; cbn [length] in Hlen; try lia. reflexivity. }
  destruct D as [|b0 r s H0 D|b0 b1 r s H0 H1 D
                 |b0 b1 b2 r s H0 H1 H2 D|b0 b1 b2 b3 r s H0 H1 H2 H3 D];
    cbn [length] in Hlen.
  - reflexivity.
  - cbn [native_newlines] in Hn.
    destruct (decide (b0 = x0d)) as [->|Hcr].
    + rewrite bool_decide_eq_true_2 in Hn by reflexivity.
      destruct pf; [discriminate|]. destruct r as [|b1 r']; [discriminate|].
      apply andb_true_iff in Hn as [Hlf Hn].
      apply bool_decide_eq_true in Hlf as ->.
      inversion D as [|? ? s' H0' D'|? ? ? ? H0' |? ? ? ? ? H0'|? ? ? ? ? ? H0'];
        subst; try (cbn in H0'; lia).
      cbn [length] in Hlen.
      rewrite <- (IH r' s') at 2; [reflexivity|lia|assumption..].
    + rewrite (bool_decide_eq_false_2 _ Hcr) in Hn.
      assert (Hc : Byte.to_N b0 <> 13)
        by (intros E; apply Hcr, to_N_inj; exact E).
      cbn [universal_newlines]. destruct (N.eqb_spec (Byte.to_N b0) 13); [lia|].
      destruct (decide (b0 = x0a)) as [->|Hlf].
      * rewrite bool_decide_eq_true_2 in Hn by reflexivity.
        destruct pf; [|discriminate].
        change (Byte.to_N x0a) with 10.
        unfold write_newlines. cbn [flat_map N.eqb Pos.eqb linesep app].
        f_equal. apply (IH r s); [lia|assumption..].
      * rewrite (bool_decide_eq_false_2 _ Hlf) in Hn.
        rewrite write_newlines_cons
          by (intros E; apply Hlf, to_N_inj; exact E).
        f_equal. apply (IH r s); [lia|assumption..].
  - rewrite !native_newlines_high in Hn by lia.
    rewrite rewrite_high by lia. f_equal. apply (IH r s); [lia|assumption..].
  - assert (0x80 <= Byte.to_N b1) by (second_ranges; lia).
    rewrite !native_newlines_high in Hn by lia.
    rewrite rewrite_high by (second_ranges; lia).
    f_equal. apply (IH r s); [lia|assumption..].
  - assert (0x80 <= Byte.to_N b1) by (second_ranges; lia).
    rewrite !native_newlines_high in Hn by lia.
    rewrite rewrite_high by (second_ranges; lia).
    f_equal. apply (IH r s); [lia|assumption..].
Qed.

Lemma native_newlines_stable bs s :
  utf_8_decode bs = Some s -> native_newlines pf bs = true ->
  write_newlines pf (universal_newlines s) = s.
Proof.
  intros Hd. apply (native_newlines_stable_len (length bs)); [lia|].
  now apply utf_8_decode_decodes.
Qed.

Lemma native_newlines_posix bs :
  native_newlines Posix bs = true <-> x0d ∉ bs.
Proof.
  induction bs as [|b r IH]; [split; [intros _; apply not_elem_of_nil|reflexivity]|].
  cbn [native_newlines]. rewrite not_elem_of_cons.
  destruct (decide (b = x0d)) as [->|Hb].
  - rewrite bool_decide_eq_true_2 by reflexivity.
    split; [discriminate|]. now intros [[] _].
  - rewrite (bool_decide_eq_false_2 _ Hb).
    destruct (bool_decide (b = x0a)); rewrite IH; split; auto; now intros [].
Qed.

End NativeNewlines.

(* ===================================================================== *)
(** ** File operation facts *)
(* ===================================================================== *)

Section FileOps.

Lemma open_read_state p fs : (open_read p fs).1 = fs.
Proof.
  unfold open_read. destruct (fs !! p) as [[f|]|]; [|reflexivity..].
  now destruct (readable f).
Qed.

Lemma open_read_ok p fs f :
  fs !! p = Some (RegularFile f) -> readable f = true ->
  open_read p fs = (fs, Ok (content f)).
Proof. intros Hp Hr. unfold open_read. now rewrite Hp, Hr. Qed.

Lemma open_read_unreadable p fs f :
  fs !! p = Some (RegularFile f) -> readable f = false ->
  open_read p fs = (fs, Raise (PermissionError p)).
Proof. intros Hp Hr. unfold open_read. now rewrite Hp, Hr. Qed.

(** Reading succeeds exactly on readable regular files. *)
Lemma open_read_Ok_inv p fs fs' bs :
  open_read p fs = (fs', Ok bs) ->
  exists f, fs !! p = Some (RegularFile f) /\ readable f = true /\ content f = bs.
Proof.
  unfold open_read. destruct (fs !! p) as [[f|]|]; [|discriminate..].
  destruct (readable f) eqn:Hr; [|discriminate]. intros [= _ <-]. eauto.
Qed.

Lemma has_utf8_bom_ok p fs f :
  fs !! p = Some (RegularFile f) -> readable f = true ->
  has_utf8_bom p fs = (fs, Ok (bool_decide (take 3 (content f) = BOM_UTF8))).
Proof.
  intros Hp Hr. unfold has_utf8_bom, try_except, read_binary, bind.
  now rewrite (open_read_ok p fs f).
Qed.

Lemma has_utf8_bom_raise p fs e :
  open_read p fs = (fs, Raise e) -> has_utf8_bom p fs = (fs, Ok false).
Proof.
  intros H. unfold has_utf8_bom, try_except, read_binary, bind. now rewrite H.
Qed.

Lemma is_text_file_ok p fs f :
  fs !! p = Some (RegularFile f) -> readable f = true ->
  is_text_file p fs
  = (fs, Ok (negb (bool_decide (x00 ∈ take 1024 (content f))))).
Proof.
  intros Hp Hr. unfold is_text_file, try_except, read_binary, bind.
  rewrite (open_read_ok p fs f) by assumption. unfold ret.
  now destruct (bool_decide _).
Qed.

Lemma is_text_file_raise p fs e :
  open_read p fs = (fs, Raise e) -> is_text_file p fs = (fs, Ok false).
Proof.
  intros H. unfold is_text_file, try_except, read_binary, bind. now rewrite H.
Qed.

(** [open_read] either yields the bytes or raises, without touching
    the store. *)
Lemma open_read_cases p fs :
  (exists f, fs !! p = Some (RegularFile f) /\ readable f = true
             /\ open_read p fs = (fs, Ok (content f)))
  \/ (exists e, open_read p fs = (fs, Raise e)
                /\ forall f, fs !! p = Some (RegularFile f) -> readable f = false).
Proof.
  unfold open_read. destruct (fs !! p) as [[f|]|] eqn:Hp.
  - destruct (readable f) eqn:Hr; [left|right]; eauto 6.
    eexists. split; [reflexivity|]. now intros f' [= <-].
  - right. eexists. split; [reflexivity|]. discriminate.
  - right. eexists. split; [reflexivity|]. discriminate.
Qed.

Lemma read_text_ok enc p fs f s :
  fs !! p = Some (RegularFile f) -> readable f = true ->
  decode enc (content f) = Some s ->
  read_text enc p fs = (fs, Ok (universal_newlines s)).
Proof.
  intros Hp Hr Hd. unfold read_text, bind.
  now rewrite (open_read_ok p fs f), Hd.
Qed.

Lemma read_text_undecodable enc p fs f :
  fs !! p = Some (RegularFile f) -> readable f = true ->
  decode enc (content f) = None ->
  read_text enc p fs = (fs, Raise UnicodeDecodeError).
Proof.
  intros Hp Hr Hd. unfold read_text, bind.
  now rewrite (open_read_ok p fs f), Hd.
Qed.

Lemma write_text_ok pf enc p fs f s bs :
  fs !! p = Some (RegularFile f) -> writable f = true ->
  encode enc (write_newlines pf s) = Some bs ->
  write_text pf enc p s fs
  = (<[p := RegularFile (File bs (readable f) true)]> fs, Ok tt).
Proof. intros Hp Hw He. unfold write_text. now rewrite Hp, Hw, He. Qed.

Lemma write_text_unwritable pf enc p fs f s :
  fs !! p = Some (RegularFile f) -> writable f = false ->
  write_text pf enc p s fs = (fs, Raise (PermissionError p)).
Proof. intros Hp Hw. unfold write_text. now rewrite Hp, Hw. Qed.

(** What a write can do to the store: nothing, or replace the contents
    of the regular file (or missing entry) at [p]. *)
Lemma write_text_effect pf enc p s fs :
  (write_text pf enc p s fs).1 = fs
  \/ exists f', fs !! p <> Some Directory
                /\ (write_text pf enc p s fs).1 = <[p := RegularFile f']> fs.
Proof.
  unfold write_text. destruct (fs !! p) as [[f|]|] eqn:Hp.
  - destruct (writable f); [|now left].
    right. destruct (encode enc _); eexists; (split; [discriminate|reflexivity]).
  - now left.
  - right. destruct (encode enc _); eexists; (split; [discriminate|reflexivity]).
Qed.

(** The first 1024 bytes after a BOM was put in front. *)
Lemma no_zero_after_BOM (bs : bytes) :
  x00 ∉ take 1024 bs -> x00 ∉ take 1024 (BOM_UTF8 ++ bs).
Proof.
  intros Hz Hin. apply Hz.
  change (take 1024 (BOM_UTF8 ++ bs)) with (BOM_UTF8 ++ take 1021 bs) in Hin.
  apply elem_of_app in Hin as [Hin|Hin].
  - unfold BOM_UTF8 in Hin.
    repeat (apply elem_of_cons in Hin as [Hin|Hin]; [discriminate Hin|]).
    now apply elem_of_nil in Hin.
  - replace (take 1021 bs) with (take 1021 (take 1024 bs)) in Hin
      by (rewrite take_take; f_equal).
    revert Hin. apply subseteq_take.
Qed.

End FileOps.

(* ===================================================================== *)
(** ** The per-file procedures, branch by branch *)
(* ===================================================================== *)

Section PerFile.
Variable pf : platform.

Import Utf8PlusBom Utf8MinusBom.

(** Run the two probes on a readable file, given how they answer. *)
Ltac probe Hp Hr Hb :=
  rewrite (has_utf8_bom_ok _ _ _ Hp Hr);
  first [rewrite (bool_decide_eq_true_2 _ Hb)
        |rewrite (bool_decide_eq_false_2 _ Hb)];
  cbn [negb]; cbv beta iota.
Ltac classify Hp Hr Hz :=
  rewrite (is_text_file_ok _ _ _ Hp Hr);
  first [rewrite (bool_decide_eq_true_2 _ Hz)
        |rewrite (bool_decide_eq_false_2 _ Hz)];
  cbv beta iota; cbn [negb].

(** *** Add *)

Lemma add_already_has_bom p d v fs f :
  fs !! p = Some (RegularFile f) -> readable f = true ->
  take 3 (content f) = BOM_UTF8 ->
  add_bom_to_file pf p d v fs = (fs, Ok (true, "already_has_bom"%string)).
Proof.
  intros Hp Hr Hb. unfold add_bom_to_file, try_except, bind.
  now probe Hp Hr Hb.
Qed.

Lemma add_not_text_file p d v fs f :
  fs !! p = Some (RegularFile f) -> readable f = true ->
  take 3 (content f) <> BOM_UTF8 ->
  x00 ∈ take 1024 (content f) ->
  add_bom_to_file pf p d v fs = (fs, Ok (true, "not_text_file"%string)).
Proof.
  intros Hp Hr Hb Hz. unfold add_bom_to_file, try_except, bind.
  probe Hp Hr Hb. now classify Hp Hr Hz.
Qed.

Lemma add_unreadable p d v fs e :
  open_read p fs = (fs, Raise e) ->
  add_bom_to_file pf p d v fs = (fs, Ok (true, "not_text_file"%string)).
Proof.
  intros H. unfold add_bom_to_file, try_except, bind.
  rewrite (has_utf8_bom_raise _ _ _ H). cbv beta iota.
  now rewrite (is_text_file_raise _ _ _ H).
Qed.

Lemma add_not_utf8 p d v fs f :
  fs !! p = Some (RegularFile f) -> readable f = true ->
  take 3 (content f) <> BOM_UTF8 ->
  x00 ∉ take 1024 (content f) ->
  utf_8_decode (content f) = None ->
  add_bom_to_file pf p d v fs = (fs, Ok (false, "not_utf8"%string)).
Proof.
  intros Hp Hr Hb Hz Hd. unfold add_bom_to_file, try_except, bind.
  probe Hp Hr Hb. classify Hp Hr Hz.
  now rewrite (read_text_undecodable utf_8 _ _ _ Hp Hr Hd).
Qed.

Lemma add_dry_run p v fs f s :
  fs !! p = Some (RegularFile f) -> readable f = true ->
  take 3 (content f) <> BOM_UTF8 ->
  x00 ∉ take 1024 (content f) ->
  utf_8_decode (content f) = Some s ->
  add_bom_to_file pf p true v fs = (fs, Ok (true, "dry_run"%string)).
Proof.
  intros Hp Hr Hb Hz Hd. unfold add_bom_to_file, try_except, bind.
  probe Hp Hr Hb. classify Hp Hr Hz.
  now rewrite (read_text_ok utf_8 _ _ _ _ Hp Hr Hd).
Qed.

Lemma add_bom_added p v fs f s bs' :
  fs !! p = Some (RegularFile f) -> readable f = true -> writable f = true ->
  take 3 (content f) <> BOM_UTF8 ->
  x00 ∉ take 1024 (content f) ->
  utf_8_decode (content f) = Some s ->
  added pf s = Some bs' ->
  add_bom_to_file pf p false v fs
  = (<[p := RegularFile (File bs' true true)]> fs, Ok (true, "bom_added"%string)).
Proof.
  intros Hp Hr Hw Hb Hz Hd He. unfold add_bom_to_file, try_except, bind.
  probe Hp Hr Hb. classify Hp Hr Hz.
  rewrite (read_text_ok utf_8 _ _ _ _ Hp Hr Hd). cbv beta iota.
  rewrite (write_text_ok pf utf_8_sig _ _ _ _ _ Hp Hw He). now rewrite Hr.
Qed.

Lemma add_unwritable p v fs f s :
  fs !! p = Some (RegularFile f) -> readable f = true -> writable f = false ->
  take 3 (content f) <> BOM_UTF8 ->
  x00 ∉ take 1024 (content f) ->
  utf_8_decode (content f) = Some s ->
  add_bom_to_file pf p false v fs
  = (fs, Ok (false, "error: " +:+ str_exn (PermissionError p))).
Proof.
  intros Hp Hr Hw Hb Hz Hd. unfold add_bom_to_file, try_except, bind.
  probe Hp Hr Hb. classify Hp Hr Hz.
  rewrite (read_text_ok utf_8 _ _ _ _ Hp Hr Hd). cbv beta iota.
  now rewrite (write_text_unwritable pf utf_8_sig _ _ _ _ Hp Hw).
Qed.

(** Decoded text can always be written back. *)
Lemma added_is_Some bs s : utf_8_decode bs = Some s -> is_Some (added pf s).
Proof.
  intros Hd. unfold added, utf_8_sig_encode.
  apply fmap_is_Some, encode_scalar.
  apply write_newlines_Forall; [left; lia..|].
  apply universal_newlines_Forall; [left; lia|].
  eapply decodes_scalar, utf_8_decode_decodes, Hd.
Qed.

(** *** Remove *)

Lemma remove_no_bom p d v fs f :
  fs !! p = Some (RegularFile f) -> readable f = true ->
  take 3 (content f) <> BOM_UTF8 ->
  remove_bom_from_file pf p d v fs = (fs, Ok (true, "no_bom"%string)).
Proof.
  intros Hp Hr Hb. unfold remove_bom_from_file, try_except, bind.
  now probe Hp Hr Hb.
Qed.

Lemma remove_unreadable p d v fs e :
  open_read p fs = (fs, Raise e) ->
  remove_bom_from_file pf p d v fs = (fs, Ok (true, "no_bom"%string)).
Proof.
  intros H. unfold remove_bom_from_file, try_except, bind.
  now rewrite (has_utf8_bom_raise _ _ _ H).
Qed.

Lemma remove_not_text_file p d v fs f :
  fs !! p = Some (RegularFile f) -> readable f = true ->
  take 3 (content f) = BOM_UTF8 ->
  x00 ∈ take 1024 (content f) ->
  remove_bom_from_file pf p d v fs = (fs, Ok (true, "not_text_file"%string)).
Proof.
  intros Hp Hr Hb Hz. unfold remove_bom_from_file, try_except, bind.
  probe Hp Hr Hb. now classify Hp Hr Hz.
Qed.

Lemma remove_not_utf8 p d v fs f :
  fs !! p = Some (RegularFile f) -> readable f = true ->
  take 3 (content f) = BOM_UTF8 ->
  x00 ∉ take 1024 (content f) ->
  utf_8_sig_decode (content f) = None ->
  remove_bom_from_file pf p d v fs = (fs, Ok (false, "not_utf8"%string)).
Proof.
  intros Hp Hr Hb Hz Hd. unfold remove_bom_from_file, try_except, bind.
  probe Hp Hr Hb. classify Hp Hr Hz.
  now rewrite (read_text_undecodable utf_8_sig _ _ _ Hp Hr Hd).
Qed.

Lemma remove_dry_run p v fs f s :
  fs !! p = Some (RegularFile f) -> readable f = true ->
  take 3 (content f) = BOM_UTF8 ->
  x00 ∉ take 1024 (content f) ->
  utf_8_sig_decode (content f) = Some s ->
  remove_bom_from_file pf p true v fs = (fs, Ok (true, "dry_run"%string)).
Proof.
  intros Hp Hr Hb Hz Hd. unfold remove_bom_from_file, try_except, bind.
  probe Hp Hr Hb. classify Hp Hr Hz.
  now rewrite (read_text_ok utf_8_sig _ _ _ _ Hp Hr Hd).
Qed.

Lemma remove_bom_removed p v fs f s bs' :
  fs !! p = Some (RegularFile f) -> readable f = true -> writable f = true ->
  take 3 (content f) = BOM_UTF8 ->
  x00 ∉ take 1024 (content f) ->
  utf_8_sig_decode (content f) = Some s ->
  removed pf s = Some bs' ->
  remove_bom_from_file pf p false v fs
  = (<[p := RegularFile (File bs' true true)]> fs, Ok (true, "bom_removed"%string)).
Proof.
  intros Hp Hr Hw Hb Hz Hd He. unfold remove_bom_from_file, try_except, bind.
  probe Hp Hr Hb. classify Hp Hr Hz.
  rewrite (read_text_ok utf_8_sig _ _ _ _ Hp Hr Hd). cbv beta iota.
  rewrite (write_text_ok pf utf_8 _ _ _ _ _ Hp Hw He). now rewrite Hr.
Qed.

Lemma remove_unwritable p v fs f s :
  fs !! p = Some (RegularFile f) -> readable f = true -> writable f = false ->
  take 3 (content f) = BOM_UTF8 ->
  x00 ∉ take 1024 (content f) ->
  utf_8_sig_decode (content f) = Some s ->
  remove_bom_from_file pf p false v fs
  = (fs, Ok (false, "error: " +:+ str_exn (PermissionError p))).
Proof.
  intros Hp Hr Hw Hb Hz Hd. unfold remove_bom_from_file, try_except, bind.
  probe Hp Hr Hb. classify Hp Hr Hz.
  rewrite (read_text_ok utf_8_sig _ _ _ _ Hp Hr Hd). cbv beta iota.
  now rewrite (write_text_unwritable pf utf_8 _ _ _ _ Hp Hw).
Qed.

End PerFile.

(* ===================================================================== *)
(** ** The per-file procedures on an arbitrary store *)
(* ===================================================================== *)

Section Boundary.
Variable pf : platform.

Import Utf8PlusBom Utf8MinusBom.

Lemma add_bom_to_file_cases p d v fs :
  exists fs' ok tag,
    add_bom_to_file pf p d v fs = (fs', Ok (ok, tag))
    /\ is_outcome_tag tag
    /\ touches_only p d fs fs'
    /\ (d = true -> tag <> "bom_added"%string).
Proof.
  destruct (open_read_cases p fs) as [(f & Hp & Hr & _)|(e & He & _)].
  2:{ exists fs, true, "not_text_file"%string.
      split; [now apply add_unreadable with e|].
      split; [now exists NotTextFile|]. split; [now left|discriminate]. }
  destruct (decide (take 3 (content f) = BOM_UTF8)) as [Hb|Hb].
  { exists fs, true, "already_has_bom"%string.
    split; [now apply add_already_has_bom with f|].
    split; [now exists AlreadyHasBom|]. split; [now left|discriminate]. }
  destruct (decide (x00 ∈ take 1024 (content f))) as [Hz|Hz].
  { exists fs, true, "not_text_file"%string.
    split; [now apply add_not_text_file with f|].
    split; [now exists NotTextFile|]. split; [now left|discriminate]. }
  destruct (utf_8_decode (content f)) as [s|] eqn:Hd.
  2:{ exists fs, false, "not_utf8"%string.
      split; [now apply add_not_utf8 with f|].
      split; [now exists NotUtf8|]. split; [now left|discriminate]. }
  destruct d.
  { exists fs, true, "dry_run"%string.
    split; [now apply add_dry_run with f s|].
    split; [now exists DryRun|]. split; [now left|discriminate]. }
  destruct (writable f) eqn:Hw.
  - destruct (added_is_Some pf _ _ Hd) as [bs' Hbs'].
    eexists _, true, "bom_added"%string.
    split; [eapply add_bom_added; eassumption|].
    split; [now exists BomAdded|]. split; [|discriminate].
    right. split; [reflexivity|]. split; [congruence|eauto].
  - eexists fs, false, _.
    split; [now apply add_unwritable with f s|].
    split; [now eexists (Error _)|]. split; [now left|discriminate].
Qed.

(** A decoded text whose BOM was skipped can always be written back. *)
Lemma removed_is_Some bs s : utf_8_sig_decode bs = Some s -> is_Some (removed pf s).
Proof.
  intros Hd. unfold removed.
  apply encode_scalar.
  apply write_newlines_Forall; [left; lia..|].
  apply universal_newlines_Forall; [left; lia|].
  unfold utf_8_sig_decode in Hd.
  destruct bs as [|b0 [|b1 [|b2 r]]];
    try (eapply decodes_scalar, utf_8_decode_decodes, Hd).
  destruct (bool_decide _); eapply decodes_scalar, utf_8_decode_decodes, Hd.
Qed.

Lemma remove_bom_from_file_cases p d v fs :
  exists fs' ok tag,
    remove_bom_from_file pf p d v fs = (fs', Ok (ok, tag))
    /\ is_outcome_tag tag
    /\ touches_only p d fs fs'
    /\ (d = true -> tag <> "bom_removed"%string).
Proof.
  destruct (open_read_cases p fs) as [(f & Hp & Hr & _)|(e & He & _)].
  2:{ exists fs, true, "no_bom"%string.
      split; [now apply remove_unreadable with e|].
      split; [now exists NoBom|]. split; [now left|discriminate]. }
  destruct (decide (take 3 (content f) = BOM_UTF8)) as [Hb|Hb].
  2:{ exists fs, true, "no_bom"%string.
      split; [now apply remove_no_bom with f|].
      split; [now exists NoBom|]. split; [now left|discriminate]. }
  destruct (decide (x00 ∈ take 1024 (content f))) as [Hz|Hz].
  { exists fs, true, "not_text_file"%string.
    split; [now apply remove_not_text_file with f|].
    split; [now exists NotTextFile|]. split; [now left|discriminate]. }
  destruct (utf_8_sig_decode (content f)) as [s|] eqn:Hd.
  2:{ exists fs, false, "not_utf8"%string.
      split; [now apply remove_not_utf8 with f|].
      split; [now exists NotUtf8|]. split; [now left|discriminate]. }
  destruct d.
  { exists fs, true, "dry_run"%string.
    split; [now apply remove_dry_run with f s|].
    split; [now exists DryRun|]. split; [now left|discriminate]. }
  destruct (writable f) eqn:Hw.
  - destruct (removed_is_Some _ _ Hd) as [bs' Hbs'].
    eexists _, true, "bom_removed"%string.
    split; [eapply remove_bom_removed; eassumption|].
    split; [now exists BomRemoved|]. split; [|discriminate].
    right. split; [reflexivity|]. split; [congruence|eauto].
  - eexists fs, false, _.
    split; [now apply remove_unwritable with f s|].
    split; [now eexists (Error _)|]. split; [now left|discriminate].
Qed.

Lemma touches_only_frame p d fs fs' q :
  touches_only p d fs fs' -> q <> p -> fs' !! q = fs !! q.
Proof.
  intros [->|(_ & _ & f' & ->)] Hq; [reflexivity|].
  now apply lookup_insert_ne.
Qed.

Lemma touches_only_dirs p d fs fs' q :
  touches_only p d fs fs' ->
  fs' !! q = Some Directory <-> fs !! q = Some Directory.
Proof.
  intros [->|(_ & Hn & f' & ->)]; [reflexivity|].
  destruct (decide (p = q)) as [<-|Hq].
  - rewrite lookup_insert_eq. split; [discriminate|]. intros H. now destruct Hn.
  - now rewrite lookup_insert_ne.
Qed.

Lemma touches_only_dry_run p fs fs' : touches_only p true fs fs' -> fs' = fs.
Proof. now intros [->|([=] & _)]. Qed.

End Boundary.

(* ===================================================================== *)
(** ** The batch walker *)
(* ===================================================================== *)

Section Loops.
Context {A B C : Type}.

Lemma for_each_app (body : A -> B -> io A) acc xs ys fs :
  for_each body acc (xs ++ ys) fs
  = bind (for_each body acc xs) (fun acc' => for_each body acc' ys) fs.
Proof.
  revert acc fs. induction xs as [|x xs IH]; intros acc fs; [reflexivity|].
  cbn [for_each app]. unfold bind.
  destruct (body acc x fs) as [fs1 [acc1|e]]; [|reflexivity].
  now rewrite IH.
Qed.

(** Two nested [for] loops are one loop over the concatenation. *)
Lemma for_each_flat_map (body : A -> B -> io A) (g : C -> list B) acc zs fs :
  for_each (fun acc z => for_each body acc (g z)) acc zs fs
  = for_each body acc (flat_map g zs) fs.
Proof.
  revert acc fs. induction zs as [|z zs IH]; intros acc fs; [reflexivity|].
  cbn [for_each flat_map]. rewrite for_each_app. unfold bind.
  destruct (for_each body acc (g z) fs) as [fs1 [acc1|e]]; [|reflexivity].
  apply IH.
Qed.
End Loops.

Section Walker.
(** [d] is the dry-run flag, [ckey] the counter of changed files and
    [ctag] the tag it counts. *)
Variable proc : path -> io (bool * string).
Variable d : bool.
Variable key ckey ctag : string.
Variable upd : gmap string nat -> string -> gmap string nat.
Variable excl : list string.

Hypothesis proc_cases : forall p fs,
  exists fs' ok tag,
    proc p fs = (fs', Ok (ok, tag))
    /\ touches_only p d fs fs'
    /\ (d = true -> tag <> ctag).
Hypothesis upd_key : forall st tag, upd st tag !!! key = st !!! key.
Hypothesis upd_ckey : forall st tag, tag <> ctag -> upd st tag !!! ckey = st !!! ckey.
Hypothesis key_ckey : key <> ckey.

Local Abbreviation body := (step proc key upd excl).
Local Abbreviation alive := (survives excl).

Lemma survives_ext fs fs' :
  (forall q, fs' !! q = Some Directory <-> fs !! q = Some Directory) ->
  forall q, alive fs' q = alive fs q.
Proof.
  intros H q. unfold survives. specialize (H q).
  destruct (fs !! q) as [[|]|], (fs' !! q) as [[|]|]; try reflexivity;
    try (destruct H as [H1 H2]; (now specialize (H1 eq_refl))
                                || (now specialize (H2 eq_refl))).
Qed.

Lemma step_cases acc x fs :
  (alive fs x = false /\ body acc x fs = (fs, Ok acc))
  \/ (alive fs x = true
      /\ exists fs1 ok tag,
           proc x fs = (fs1, Ok (ok, tag))
           /\ touches_only x d fs fs1
           /\ (d = true -> tag <> ctag)
           /\ body acc x fs
              = (fs1, Ok (upd (incr key acc.1) tag, acc.2 ++ [(x, tag)]))).
Proof.
  destruct (proc_cases x fs) as (fs1 & ok & tag & Hp & Ht & Hd).
  unfold step, survives, bind, is_dir.
  destruct (fs !! x) as [[f|]|]; [|now left|];
    (destruct (in_excluded_dir excl x); [now left|right]);
    (split; [reflexivity|]); exists fs1, ok, tag; rewrite Hp; auto.
Qed.

Lemma walk xs : forall acc fs,
  exists fs' st tr,
    for_each body acc xs fs = (fs', Ok (st, tr))
    /\ tr.*1 = acc.2.*1 ++ List.filter (alive fs) xs
    /\ st !!! key = (acc.1 !!! key + length (List.filter (alive fs) xs))%nat
    /\ (forall q, fs' !! q = Some Directory <-> fs !! q = Some Directory)
    /\ (forall q, q ∉ List.filter (alive fs) xs -> fs' !! q = fs !! q)
    /\ (d = true -> fs' = fs /\ st !!! ckey = acc.1 !!! ckey).
Proof.
  induction xs as [|x xs IH]; intros acc fs.
  { destruct acc as [st tr]. exists fs, st, tr.
    cbn [for_each List.filter length fst snd].
    rewrite app_nil_r, Nat.add_0_r. repeat split; auto. }
  cbn [for_each List.filter]. unfold bind at 1.
  destruct (step_cases acc x fs)
    as [[Hs ->]|[Hs (fs1 & ok & tag & Hp & Ht & Hd & ->)]]; rewrite Hs.
  { apply IH. }
  destruct (IH (upd (incr key acc.1) tag, acc.2 ++ [(x, tag)]) fs1)
    as (fs' & st & tr & -> & Htr & Hst & Hdir & Hfr & Hdry).
  pose proof (survives_ext fs fs1 (fun q => touches_only_dirs x d fs fs1 q Ht))
    as Hsv.
  rewrite (filter_ext _ _ Hsv) in Htr, Hst, Hfr. cbn [fst snd] in *.
  exists fs', st, tr. split; [reflexivity|].
  split; [rewrite Htr, fmap_app, <- app_assoc; reflexivity|].
  split; [rewrite Hst, upd_key; unfold incr;
          rewrite lookup_total_insert_eq; cbn [length]; lia|].
  split; [intros q; rewrite Hdir; now apply touches_only_dirs with x d|].
  split.
  - intros q Hq. apply not_elem_of_cons in Hq as [Hqx Hq].
    rewrite (Hfr q Hq). now apply touches_only_frame with x d.
  - intros ->. destruct (Hdry eq_refl) as [-> ->].
    split; [now apply touches_only_dry_run with x|].
    rewrite upd_ckey by auto. unfold incr.
    now rewrite lookup_total_insert_ne.
Qed.

End Walker.

(* ===================================================================== *)
(** ** The two [main] functions *)
(* ===================================================================== *)

Section Mains.
Variable pf : platform.
Variable glob : string -> list path.

Lemma in_excluded_dir_spec excl p :
  in_excluded_dir excl p = true <-> exists name, name ∈ excl /\ name ∈ p.
Proof.
  unfold in_excluded_dir. rewrite existsb_exists. split.
  - intros (name & Hin & Hp). exists name.
    split; [now apply list_elem_of_In|]. now apply bool_decide_eq_true in Hp.
  - intros (name & Hin & Hp). exists name.
    split; [now apply list_elem_of_In|]. now apply bool_decide_eq_true.
Qed.

Lemma add_update_stats_total st tag :
  Utf8PlusBom.update_stats st tag !!! "total_found"%string
  = st !!! "total_found"%string.
Proof.
  unfold Utf8PlusBom.update_stats, incr.
  repeat case_match; try reflexivity; now rewrite lookup_total_insert_ne.
Qed.

Lemma add_update_stats_added st tag :
  tag <> "bom_added"%string ->
  Utf8PlusBom.update_stats st tag !!! "bom_added"%string
  = st !!! "bom_added"%string.
Proof.
  intros Ht. unfold Utf8PlusBom.update_stats, incr.
  destruct (String.eqb_spec tag "bom_added"); [contradiction|].
  repeat case_match; try reflexivity; now rewrite lookup_total_insert_ne.
Qed.

Lemma remove_update_stats_total st tag :
  Utf8MinusBom.update_stats st tag !!! "total_checked"%string
  = st !!! "total_checked"%string.
Proof.
  unfold Utf8MinusBom.update_stats, incr.
  repeat case_match; try reflexivity; now rewrite lookup_total_insert_ne.
Qed.

Lemma remove_update_stats_removed st tag :
  tag <> "bom_removed"%string ->
  Utf8MinusBom.update_stats st tag !!! "bom_removed"%string
  = st !!! "bom_removed"%string.
Proof.
  intros Ht. unfold Utf8MinusBom.update_stats, incr.
  destruct (String.eqb_spec tag "bom_removed"); [contradiction|].
  repeat case_match; try reflexivity; now rewrite lookup_total_insert_ne.
Qed.

(** The loop bodies of the two scripts are instances of [step]. *)
Lemma add_visit_step a :
  Utf8PlusBom.visit pf a
  = step (fun p => Utf8PlusBom.add_bom_to_file pf p (Utf8PlusBom.dry_run a)
                                               (Utf8PlusBom.verbose a))
         "total_found" Utf8PlusBom.update_stats (Utf8PlusBom.exclude_dirs a).
Proof. reflexivity. Qed.

Lemma remove_visit_step a :
  Utf8MinusBom.visit pf a
  = step (fun p => Utf8MinusBom.remove_bom_from_file pf p (Utf8MinusBom.dry_run a)
                                                     (Utf8MinusBom.verbose a))
         "total_checked" Utf8MinusBom.update_stats (Utf8MinusBom.exclude_dirs a).
Proof. reflexivity. Qed.

(** The add walker: it returns, it calls the procedure on exactly the
    surviving candidates, it counts each of those once, it leaves
    every other path alone, and a dry run changes no file and counts
    no added BOM. *)
Lemma add_main_walk a fs :
  exists fs' st tr,
    Utf8PlusBom.main pf glob a fs = (fs', Ok (st, tr))
    /\ tr.*1 = List.filter (survives (Utf8PlusBom.exclude_dirs a) fs)
                           (add_candidates glob a)
    /\ st !!! "total_found"%string = length tr
    /\ (forall q, q ∉ tr.*1 -> fs' !! q = fs !! q)
    /\ (Utf8PlusBom.dry_run a = true ->
        fs' = fs /\ Utf8PlusBom.dry_run_report st = 0%nat).
Proof.
  unfold Utf8PlusBom.main. rewrite for_each_flat_map, add_visit_step.
  destruct (walk
    (fun p => Utf8PlusBom.add_bom_to_file pf p (Utf8PlusBom.dry_run a)
                                          (Utf8PlusBom.verbose a))
    (Utf8PlusBom.dry_run a) "total_found" "bom_added" "bom_added"
    Utf8PlusBom.update_stats (Utf8PlusBom.exclude_dirs a))
    with (xs := add_candidates glob a) (acc := (Utf8PlusBom.initial_stats, @nil (path * string)))
         (fs := fs)
    as (fs' & st & tr & Hrun & Htr & Hst & _ & Hfr & Hdry).
  - intros p fs0.
    destruct (add_bom_to_file_cases pf p (Utf8PlusBom.dry_run a)
                (Utf8PlusBom.verbose a) fs0)
      as (fs1 & ok & tag & H1 & _ & H2 & H3). eauto 8.
  - apply add_update_stats_total.
  - apply add_update_stats_added.
  - discriminate.
  - exists fs', st, tr. split; [exact Hrun|]. cbn [fst snd fmap list_fmap app] in *.
    split; [exact Htr|].
    split; [rewrite Hst, <- Htr, length_fmap; reflexivity|].
    split; [intros q Hq; apply Hfr; now rewrite <- Htr|].
    intros Hd. destruct (Hdry Hd) as [-> Hc]. split; [reflexivity|].
    unfold Utf8PlusBom.dry_run_report. now rewrite Hc.
Qed.

Lemma remove_main_walk a fs :
  exists fs' st tr,
    Utf8MinusBom.main pf glob a fs = (fs', Ok (st, tr))
    /\ tr.*1 = List.filter (survives (Utf8MinusBom.exclude_dirs a) fs)
                           (remove_candidates glob a)
    /\ st !!! "total_checked"%string = length tr
    /\ (forall q, q ∉ tr.*1 -> fs' !! q = fs !! q)
    /\ (Utf8MinusBom.dry_run a = true ->
        fs' = fs /\ Utf8MinusBom.dry_run_report st = 0%nat).
Proof.
  unfold Utf8MinusBom.main. rewrite for_each_flat_map, remove_visit_step.
  destruct (walk
    (fun p => Utf8MinusBom.remove_bom_from_file pf p (Utf8MinusBom.dry_run a)
                                                (Utf8MinusBom.verbose a))
    (Utf8MinusBom.dry_run a) "total_checked" "bom_removed" "bom_removed"
    Utf8MinusBom.update_stats (Utf8MinusBom.exclude_dirs a))
    with (xs := remove_candidates glob a)
         (acc := (Utf8MinusBom.initial_stats, @nil (path * string)))
         (fs := fs)
    as (fs' & st & tr & Hrun & Htr & Hst & _ & Hfr & Hdry).
  - intros p fs0.
    destruct (remove_bom_from_file_cases pf p (Utf8MinusBom.dry_run a)
                (Utf8MinusBom.verbose a) fs0)
      as (fs1 & ok & tag & H1 & _ & H2 & H3). eauto 8.
  - apply remove_update_stats_total.
  - apply remove_update_stats_removed.
  - discriminate.
  - exists fs', st, tr. split; [exact Hrun|]. cbn [fst snd fmap list_fmap app] in *.
    split; [exact Htr|].
    split; [rewrite Hst, <- Htr, length_fmap; reflexivity|].
    split; [intros q Hq; apply Hfr; now rewrite <- Htr|].
    intros Hd. destruct (Hdry Hd) as [-> Hc]. split; [reflexivity|].
    unfold Utf8MinusBom.dry_run_report. now rewrite Hc.
Qed.

End Mains.

(* ===================================================================== *)
(** ** Properties *)
(* ===================================================================== *)

Import Utf8PlusBom Utf8MinusBom.

(** C1. At the tree holding the single file [readme.md] = "hello", the
    dry run of the add script leaves the tree as it is but its summary
    reports 0 files to change, while the real run on the same tree
    counts 1 file as [bom_added]: the dry-run tag ["dry_run"] matches no
    branch of the statistics update. *)
Theorem dry_run_report_diverges :
  let st_dry := incr "total_found" Utf8PlusBom.initial_stats in
  let st_real := incr "bom_added" (incr "total_found" Utf8PlusBom.initial_stats) in
  Utf8PlusBom.main Posix Examples.glob_readme (Examples.add_args true)
                   (Examples.tree Examples.hello)
  = (Examples.tree Examples.hello,
     Ok (st_dry, [(Examples.readme, "dry_run"%string)]))
  /\ Utf8PlusBom.main Posix Examples.glob_readme (Examples.add_args false)
                      (Examples.tree Examples.hello)
     = (Examples.tree (BOM_UTF8 ++ Examples.hello),
        Ok (st_real, [(Examples.readme, "bom_added"%string)]))
  /\ Utf8PlusBom.dry_run_report st_dry = 0%nat
  /\ Utf8PlusBom.dry_run_report st_real = 1%nat.
Proof. cbv zeta. repeat split; compute_done. Qed.

(** C2, as stated, fails: a file holding the single byte 0D has no BOM,
    no zero byte and is valid UTF-8, yet add followed by remove leaves
    0A on a POSIX platform and 0D 0A on Windows; on Windows the same
    happens to a file holding the single byte 0A. *)
Lemma roundtrip_fails_on_carriage_return :
  take 3 [x0d] <> BOM_UTF8
  /\ (x00 ∉ take 1024 [x0d])
  /\ utf_8_decode [x0d] = Some [13]
  /\ (remove_bom_from_file Posix Examples.readme false false
        (add_bom_to_file Posix Examples.readme false false
           (Examples.tree [x0d])).1).1
     = Examples.tree [x0a]
  /\ (remove_bom_from_file Windows Examples.readme false false
        (add_bom_to_file Windows Examples.readme false false
           (Examples.tree [x0d])).1).1
     = Examples.tree [x0d; x0a]
  /\ (remove_bom_from_file Windows Examples.readme false false
        (add_bom_to_file Windows Examples.readme false false
           (Examples.tree [x0a])).1).1
     = Examples.tree [x0d; x0a]
  /\ Examples.tree [x0a] <> Examples.tree [x0d]
  /\ Examples.tree [x0d; x0a] <> Examples.tree [x0d]
  /\ Examples.tree [x0d; x0a] <> Examples.tree [x0a].
Proof.
  split; [discriminate|]. split; [compute_done|]. split; [reflexivity|].
  repeat split; compute_done.
Qed.

(** C2, amended. For every file that does not begin with the BOM, has
    no zero byte in its first 1024 bytes, is valid UTF-8 and whose line
    endings are all the platform's [os.linesep] (on POSIX no CR byte
    occurs; on Windows CR and LF occur only as CR LF pairs), add
    followed by remove (both real) restores the store, hence the file's
    bytes; when the file is readable and writable the two runs report
    [bom_added] and [bom_removed], with the BOM in front of the original
    bytes in between. *)
Theorem add_then_remove_restores_native_newlines pf p v v' fs f s :
  fs !! p = Some (RegularFile f) ->
  take 3 (content f) <> BOM_UTF8 ->
  x00 ∉ take 1024 (content f) ->
  utf_8_decode (content f) = Some s ->
  native_newlines pf (content f) = true ->
  exists fs1 r1 r2,
    add_bom_to_file pf p false v fs = (fs1, r1)
    /\ remove_bom_from_file pf p false v' fs1 = (fs, r2)
    /\ (readable f = true -> writable f = true ->
        fs1 = <[p := RegularFile (File (BOM_UTF8 ++ content f) true true)]> fs
        /\ r1 = Ok (true, "bom_added"%string)
        /\ r2 = Ok (true, "bom_removed"%string)).
Proof.
  intros Hp Hb Hz Hd Hnl.
  destruct (readable f) eqn:Hr.
  2:{ pose proof (open_read_unreadable p fs f Hp Hr) as Ho.
      exists fs, (Ok (true, "not_text_file"%string)), (Ok (true, "no_bom"%string)).
      split; [now apply add_unreadable with (PermissionError p)|].
      split; [now apply remove_unreadable with (PermissionError p)|].
      discriminate. }
  destruct (writable f) eqn:Hw.
  2:{ eexists fs, _, (Ok (true, "no_bom"%string)).
      split; [now apply add_unwritable with f s|].
      split; [now apply remove_no_bom with f|]. discriminate. }
  pose proof (native_newlines_stable pf _ _ Hd Hnl) as Hs.
  assert (Ha : added pf s = Some (BOM_UTF8 ++ content f)).
  { unfold added, utf_8_sig_encode.
    now rewrite Hs, (utf_8_decode_encode _ _ Hd). }
  assert (Hrm : removed pf s = Some (content f)).
  { unfold removed. now rewrite Hs, (utf_8_decode_encode _ _ Hd). }
  set (f1 := File (BOM_UTF8 ++ content f) true true).
  exists (<[p := RegularFile f1]> fs),
    (Ok (true, "bom_added"%string)), (Ok (true, "bom_removed"%string)).
  split; [eapply add_bom_added; eassumption|].
  split; [|auto].
  rewrite (remove_bom_removed pf p v' _ f1 s (content f));
    try reflexivity; try assumption.
  - rewrite insert_insert_eq, insert_id; [reflexivity|].
    rewrite Hp. destruct f as [c r w]. cbn in Hr, Hw. now subst.
  - apply lookup_insert_eq.
  - now apply no_zero_after_BOM.
Qed.

(** ["hello"] on POSIX and ["a\r\nb"] on Windows. *)
Lemma add_then_remove_restores_native_newlines_witness :
  (exists fs1,
     add_bom_to_file Posix Examples.readme false false (Examples.tree Examples.hello)
     = (fs1, Ok (true, "bom_added"%string))
     /\ remove_bom_from_file Posix Examples.readme false false fs1
        = (Examples.tree Examples.hello, Ok (true, "bom_removed"%string)))
  /\ (exists fs1,
        add_bom_to_file Windows Examples.readme false false
          (Examples.tree [x61; x0d; x0a; x62])
        = (fs1, Ok (true, "bom_added"%string))
        /\ remove_bom_from_file Windows Examples.readme false false fs1
           = (Examples.tree [x61; x0d; x0a; x62], Ok (true, "bom_removed"%string))).
Proof.
  split.
  - destruct (add_then_remove_restores_native_newlines Posix
                Examples.readme false false (Examples.tree Examples.hello)
                (File Examples.hello true true) [104; 101; 108; 108; 111])
      as (fs1 & r1 & r2 & H1 & H2 & H3);
      [vm_compute; reflexivity|discriminate|compute_done|reflexivity..|].
    destruct (H3 eq_refl eq_refl) as (_ & -> & ->). exists fs1. split; assumption.
  - destruct (add_then_remove_restores_native_newlines Windows
                Examples.readme false false (Examples.tree [x61; x0d; x0a; x62])
                (File [x61; x0d; x0a; x62] true true) [97; 13; 10; 98])
      as (fs1 & r1 & r2 & H1 & H2 & H3);
      [vm_compute; reflexivity|discriminate|compute_done|reflexivity..|].
    destruct (H3 eq_refl eq_refl) as (_ & -> & ->). exists fs1. split; assumption.
Defined.

(** C3, as stated, fails in both procedures, because the BOM probe runs
    before the text check: the one-byte file 00 makes remove report
    [no_bom], and the file EF BB BF 00 makes add report
    [already_has_bom]. *)
Lemma zero_byte_not_always_not_text_file :
  x00 ∈ take 1024 [x00]
  /\ remove_bom_from_file Posix Examples.readme false false (Examples.tree [x00])
     = (Examples.tree [x00], Ok (true, "no_bom"%string))
  /\ x00 ∈ take 1024 (BOM_UTF8 ++ [x00])
  /\ add_bom_to_file Posix Examples.readme false false
       (Examples.tree (BOM_UTF8 ++ [x00]))
     = (Examples.tree (BOM_UTF8 ++ [x00]), Ok (true, "already_has_bom"%string))
  /\ "no_bom"%string <> "not_text_file"%string
  /\ "already_has_bom"%string <> "not_text_file"%string.
Proof. repeat split; compute_done. Qed.

(** C3, amended. For every file with a zero byte in its first 1024
    bytes, both procedures leave the store unchanged; add reports
    [already_has_bom] when the file is readable and begins with the BOM
    and [not_text_file] otherwise; remove reports [not_text_file] when
    the file is readable and begins with the BOM and [no_bom]
    otherwise. *)
Theorem zero_byte_file_is_left_alone pf p d v fs f :
  fs !! p = Some (RegularFile f) ->
  x00 ∈ take 1024 (content f) ->
  let seen_bom := readable f && bool_decide (take 3 (content f) = BOM_UTF8) in
  add_bom_to_file pf p d v fs
  = (fs, Ok (true, if seen_bom then "already_has_bom"%string
                   else "not_text_file"%string))
  /\ remove_bom_from_file pf p d v fs
     = (fs, Ok (true, if seen_bom then "not_text_file"%string
                      else "no_bom"%string)).
Proof.
  intros Hp Hz. cbv zeta. destruct (readable f) eqn:Hr; cbn [andb].
  2:{ pose proof (open_read_unreadable p fs f Hp Hr) as Ho. split.
      - now apply add_unreadable with (PermissionError p).
      - now apply remove_unreadable with (PermissionError p). }
  destruct (decide (take 3 (content f) = BOM_UTF8)) as [Hb|Hb].
  - rewrite (bool_decide_eq_true_2 _ Hb). split.
    + now apply add_already_has_bom with f.
    + now apply remove_not_text_file with f.
  - rewrite (bool_decide_eq_false_2 _ Hb). split.
    + now apply add_not_text_file with f.
    + now apply remove_no_bom with f.
Qed.

Lemma zero_byte_file_is_left_alone_witness :
  (add_bom_to_file Posix Examples.readme false false (Examples.tree [x68; x00])
   = (Examples.tree [x68; x00], Ok (true, "not_text_file"%string))
   /\ remove_bom_from_file Posix Examples.readme false false
        (Examples.tree [x68; x00])
      = (Examples.tree [x68; x00], Ok (true, "no_bom"%string)))
  /\ (add_bom_to_file Posix Examples.readme false false
        (Examples.tree (BOM_UTF8 ++ [x00]))
      = (Examples.tree (BOM_UTF8 ++ [x00]), Ok (true, "already_has_bom"%string))
      /\ remove_bom_from_file Posix Examples.readme false false
           (Examples.tree (BOM_UTF8 ++ [x00]))
         = (Examples.tree (BOM_UTF8 ++ [x00]), Ok (true, "not_text_file"%string))).
Proof.
  split.
  - apply (zero_byte_file_is_left_alone Posix Examples.readme false false
             (Examples.tree [x68; x00]) (File [x68; x00] true true)).
    + vm_compute; reflexivity.
    + compute_done.
  - apply (zero_byte_file_is_left_alone Posix Examples.readme false false
             (Examples.tree (BOM_UTF8 ++ [x00]))
             (File (BOM_UTF8 ++ [x00]) true true)).
    + vm_compute; reflexivity.
    + compute_done.
Defined.

(** C4. The BOM prober never raises and never changes the store; it
    answers true exactly when the path is a readable regular file whose
    first three bytes are EF BB BF; a file of fewer than three bytes
    gives false; and whenever opening the file fails (missing path,
    directory, permission denied) it gives false. *)
Theorem has_utf8_bom_contract p fs :
  exists b,
    has_utf8_bom p fs = (fs, Ok b)
    /\ (b = true <->
        exists f, fs !! p = Some (RegularFile f) /\ readable f = true
                  /\ take 3 (content f) = BOM_UTF8)
    /\ (forall f, fs !! p = Some (RegularFile f) ->
                  (length (content f) < 3)%nat -> b = false)
    /\ (forall e, open_read p fs = (fs, Raise e) -> b = false).
Proof.
  destruct (open_read_cases p fs) as [(f & Hp & Hr & Ho)|(e & He & Hun)].
  - exists (bool_decide (take 3 (content f) = BOM_UTF8)).
    split; [now apply has_utf8_bom_ok|]. split; [|split].
    + rewrite bool_decide_eq_true. split; [eauto|].
      intros (f' & Hp' & _ & Hb). congruence.
    + intros f' Hp' Hlen. assert (f' = f) as -> by congruence.
      apply bool_decide_eq_false. intros Hb.
      apply (f_equal length) in Hb. rewrite length_take in Hb.
      cbn [length BOM_UTF8] in Hb. lia.
    + intros e' He'. rewrite Ho in He'. discriminate.
  - exists false. split; [now apply has_utf8_bom_raise with e|].
    split; [|split]; [|reflexivity..].
    split; [discriminate|]. intros (f & Hp & Hr & _).
    rewrite (Hun f Hp) in Hr. discriminate.
Qed.

(** C5. For every readable file that already begins with EF BB BF, add
    (dry run or not) leaves the store unchanged and reports
    [already_has_bom]. *)
Theorem add_skips_file_with_bom pf p d v fs rest w :
  fs !! p = Some (RegularFile (File (BOM_UTF8 ++ rest) true w)) ->
  add_bom_to_file pf p d v fs = (fs, Ok (true, "already_has_bom"%string)).
Proof.
  intros Hp. now apply add_already_has_bom with (File (BOM_UTF8 ++ rest) true w).
Qed.

Lemma add_skips_file_with_bom_witness :
  add_bom_to_file Posix Examples.readme false false
    (Examples.tree (BOM_UTF8 ++ Examples.hello))
  = (Examples.tree (BOM_UTF8 ++ Examples.hello),
     Ok (true, "already_has_bom"%string)).
Proof.
  apply (add_skips_file_with_bom Posix Examples.readme false false
           (Examples.tree (BOM_UTF8 ++ Examples.hello)) Examples.hello true).
  vm_compute; reflexivity.
Defined.

(** C6. For every readable file without a BOM, with no zero byte in its
    first 1024 bytes, whose contents the UTF-8 decoder rejects, add (dry
    run or not) reports [not_utf8] and leaves the store unchanged. *)
Theorem add_rejects_invalid_utf8 pf p d v fs bs w :
  fs !! p = Some (RegularFile (File bs true w)) ->
  take 3 bs <> BOM_UTF8 ->
  x00 ∉ take 1024 bs ->
  utf_8_decode bs = None ->
  add_bom_to_file pf p d v fs = (fs, Ok (false, "not_utf8"%string)).
Proof.
  intros Hp Hb Hz Hd. now apply add_not_utf8 with (File bs true w).
Qed.

(** The lone byte FF of the scenario. *)
Lemma add_rejects_invalid_utf8_witness :
  utf_8_decode [xff] = None
  /\ add_bom_to_file Posix Examples.readme false false (Examples.tree [xff])
     = (Examples.tree [xff], Ok (false, "not_utf8"%string)).
Proof.
  split; [reflexivity|].
  apply (add_rejects_invalid_utf8 Posix Examples.readme false false
           (Examples.tree [xff]) [xff] true).
  - vm_compute; reflexivity.
  - discriminate.
  - compute_done.
  - reflexivity.
Defined.

(** C7. A candidate one of whose path components equals a configured
    excluded directory name is never passed to the per-file procedure,
    in either script: it is absent from the calls made, the counter of
    visited files counts exactly the calls made, and its entry in the
    store is untouched. *)
Theorem excluded_paths_are_never_processed pf glob name p fs
    (a : Utf8PlusBom.args) (a' : Utf8MinusBom.args) :
  name ∈ p ->
  name ∈ Utf8PlusBom.exclude_dirs a ->
  name ∈ Utf8MinusBom.exclude_dirs a' ->
  (exists fs' st tr,
     Utf8PlusBom.main pf glob a fs = (fs', Ok (st, tr))
     /\ (p ∉ tr.*1)
     /\ st !!! "total_found"%string = length tr
     /\ fs' !! p = fs !! p)
  /\ (exists fs' st tr,
        Utf8MinusBom.main pf glob a' fs = (fs', Ok (st, tr))
        /\ (p ∉ tr.*1)
        /\ st !!! "total_checked"%string = length tr
        /\ fs' !! p = fs !! p).
Proof.
  intros Hp Ha Ha'.
  assert (Hout : forall excl cands, name ∈ excl ->
                   p ∉ List.filter (survives excl fs) cands).
  { intros excl cands Hex Hin.
    apply list_elem_of_In, filter_In in Hin as [_ Hs].
    unfold survives in Hs.
    assert (He : in_excluded_dir excl p = true)
      by (apply in_excluded_dir_spec; eauto).
    rewrite He in Hs. now destruct (fs !! p) as [[|]|]. }
  split.
  - destruct (add_main_walk pf glob a fs)
      as (fs' & st & tr & Hrun & Htr & Hst & Hfr & _).
    exists fs', st, tr. rewrite Htr in *. repeat split; auto.
  - destruct (remove_main_walk pf glob a' fs)
      as (fs' & st & tr & Hrun & Htr & Hst & Hfr & _).
    exists fs', st, tr. rewrite Htr in *. repeat split; auto.
Qed.

Lemma excluded_paths_are_never_processed_witness :
  (exists fs' st tr,
     Utf8PlusBom.main Posix Examples.glob_md (Examples.add_args false)
                      (Examples.tree_venv Examples.hello)
     = (fs', Ok (st, tr))
     /\ (Examples.vendored ∉ tr.*1)
     /\ st !!! "total_found"%string = length tr
     /\ fs' !! Examples.vendored
        = Examples.tree_venv Examples.hello !! Examples.vendored)
  /\ (exists fs' st tr,
        Utf8MinusBom.main Posix Examples.glob_md (Examples.remove_args false)
                          (Examples.tree_venv Examples.hello)
        = (fs', Ok (st, tr))
        /\ (Examples.vendored ∉ tr.*1)
        /\ st !!! "total_checked"%string = length tr
        /\ fs' !! Examples.vendored
           = Examples.tree_venv Examples.hello !! Examples.vendored).
Proof.
  apply (excluded_paths_are_never_processed Posix Examples.glob_md "venv"
           Examples.vendored (Examples.tree_venv Examples.hello)
           (Examples.add_args false) (Examples.remove_args false));
    compute_done.
Defined.

(** When no print fails (a run without [--verbose], or a console that
    takes every line) the procedures with their prints are those of the
    scripts' modules. *)
Lemma verbose_add_agrees pf console p d v fs :
  v = false \/ (forall l, console l = true) ->
  Verbose.add_bom_to_file pf console p d v fs = add_bom_to_file pf p d v fs.
Proof.
  intros Hq.
  assert (Hp : forall l fs0,
             Verbose.when v (Verbose.print console l) fs0 = (fs0, Ok tt)).
  { intros l fs0. unfold Verbose.when, Verbose.print.
    destruct Hq as [->|Hc]; [reflexivity|]. destruct v; [|reflexivity].
    now rewrite Hc. }
  unfold Verbose.add_bom_to_file, add_bom_to_file, try_except, bind.
  destruct (has_utf8_bom p fs) as [fs1 [[|]|e]];
    [now rewrite Hp| |destruct e; now rewrite Hp].
  destruct (is_text_file p fs1) as [fs2 [[|]|e]]; cbn [negb];
    [|now rewrite Hp|destruct e; now rewrite Hp].
  destruct (read_text utf_8 p fs2) as [fs3 [content|e]];
    [|destruct e; now rewrite Hp].
  destruct d; [now rewrite Hp|].
  destruct (write_text pf utf_8_sig p content fs3) as [fs4 [[]|e]];
    [now rewrite Hp|destruct e; now rewrite Hp].
Qed.

Lemma verbose_remove_agrees pf console p d v fs :
  v = false \/ (forall l, console l = true) ->
  Verbose.remove_bom_from_file pf console p d v fs
  = remove_bom_from_file pf p d v fs.
Proof.
  intros Hq.
  assert (Hp : forall l fs0,
             Verbose.when v (Verbose.print console l) fs0 = (fs0, Ok tt)).
  { intros l fs0. unfold Verbose.when, Verbose.print.
    destruct Hq as [->|Hc]; [reflexivity|]. destruct v; [|reflexivity].
    now rewrite Hc. }
  unfold Verbose.remove_bom_from_file, remove_bom_from_file, try_except, bind.
  destruct (has_utf8_bom p fs) as [fs1 [[|]|e]]; cbn [negb];
    [|now rewrite Hp|destruct e; now rewrite Hp].
  destruct (is_text_file p fs1) as [fs2 [[|]|e]]; cbn [negb];
    [|now rewrite Hp|destruct e; now rewrite Hp].
  destruct (read_text utf_8_sig p fs2) as [fs3 [content|e]];
    [|destruct e; now rewrite Hp].
  destruct d; [now rewrite Hp|].
  destruct (write_text pf utf_8 p content fs3) as [fs4 [[]|e]];
    [now rewrite Hp|destruct e; now rewrite Hp].
Qed.

(** C8. Not every failure stays within its file: a failing print
    leaves the procedure as an exception.  With [--verbose] on a
    console that cannot encode the marks, a file that
    add rewrites makes [add_bom_to_file] raise instead of returning a
    tag: the print after the rewrite raises inside the [try], the
    catch-all handler runs, and the handler's own print raises outside
    any [try]; the file has been rewritten by then.  A file that is not
    UTF-8 gives the same through the print of the decoding handler, and
    remove behaves alike.  The walker's loop ends there: a second file
    is never opened and no statistics are returned. *)
Theorem verbose_print_failure_aborts_the_batch :
  Verbose.add_bom_to_file Posix Examples.console_without_marks
    Examples.readme false true (Examples.tree Examples.hello)
  = (Examples.tree (BOM_UTF8 ++ Examples.hello), Raise UnicodeEncodeError)
  /\ Verbose.add_bom_to_file Posix Examples.console_without_marks
       Examples.readme false true (Examples.tree [xff])
     = (Examples.tree [xff], Raise UnicodeEncodeError)
  /\ Verbose.remove_bom_from_file Posix Examples.console_without_marks
       Examples.readme false true (Examples.tree (BOM_UTF8 ++ Examples.hello))
     = (Examples.tree Examples.hello, Raise UnicodeEncodeError)
  /\ for_each
       (step (fun p => Verbose.add_bom_to_file Posix
                         Examples.console_without_marks p false true)
             "total_found" Utf8PlusBom.update_stats
             Utf8PlusBom.default_exclude_dirs)
       (Utf8PlusBom.initial_stats, []) [Examples.readme; Examples.notes]
       (Examples.tree_two Examples.hello)
     = (<[Examples.readme := RegularFile (File (BOM_UTF8 ++ Examples.hello)
                                               true true)]>
          (Examples.tree_two Examples.hello),
        Raise UnicodeEncodeError).
Proof.
  repeat split; compute_done.
Qed.

(** C9. On an accessible empty file the BOM probe answers false, the
    text check answers true, the empty contents decode to the empty
    string, and a real add reports [bom_added] and leaves exactly the
    three bytes EF BB BF in the file. *)
Theorem add_to_empty_file pf p v fs :
  fs !! p = Some (RegularFile (File [] true true)) ->
  has_utf8_bom p fs = (fs, Ok false)
  /\ is_text_file p fs = (fs, Ok true)
  /\ utf_8_decode [] = Some []
  /\ add_bom_to_file pf p false v fs
     = (<[p := RegularFile (File [xef; xbb; xbf] true true)]> fs,
        Ok (true, "bom_added"%string)).
Proof.
  intros Hp. set (f := File [] true true) in *.
  split; [now rewrite (has_utf8_bom_ok p fs f)|].
  split; [now rewrite (is_text_file_ok p fs f)|].
  split; [reflexivity|].
  apply add_bom_added with f []; try reflexivity; try assumption.
  - discriminate.
  - cbn. apply not_elem_of_nil.
Qed.

Lemma add_to_empty_file_witness :
  add_bom_to_file Posix Examples.readme false false (Examples.tree [])
  = (Examples.tree [xef; xbb; xbf], Ok (true, "bom_added"%string)).
Proof.
  destruct (add_to_empty_file Posix Examples.readme false (Examples.tree []))
    as (_ & _ & _ & ->).
  - vm_compute; reflexivity.
  - compute_done.
Defined.

(** C10, as stated, fails: the zero byte is valid UTF-8, and a file
    holding two BOMs followed by 00 is reported [not_text_file], not
    [bom_removed]. *)
Lemma double_bom_then_zero_byte_is_skipped :
  utf_8_decode [x00] = Some [0]
  /\ remove_bom_from_file Posix Examples.readme false false
       (Examples.tree (BOM_UTF8 ++ BOM_UTF8 ++ [x00]))
     = (Examples.tree (BOM_UTF8 ++ BOM_UTF8 ++ [x00]),
        Ok (true, "not_text_file"%string))
  /\ "not_text_file"%string <> "bom_removed"%string.
Proof. repeat split; compute_done. Qed.

(** C10, amended. For every accessible file that begins with two BOMs
    followed by valid UTF-8 and has no zero byte in its first 1024
    bytes, one real remove reports [bom_removed] and leaves a file that
    still begins with EF BB BF (followed by the re-encoded text), on
    which the BOM probe answers true. *)
Theorem remove_strips_only_the_first_bom pf p v fs rest s :
  fs !! p = Some (RegularFile (File (BOM_UTF8 ++ BOM_UTF8 ++ rest) true true)) ->
  utf_8_decode rest = Some s ->
  x00 ∉ take 1024 (BOM_UTF8 ++ BOM_UTF8 ++ rest) ->
  exists rest' fs',
    remove_bom_from_file pf p false v fs = (fs', Ok (true, "bom_removed"%string))
    /\ fs' = <[p := RegularFile (File ([xef; xbb; xbf] ++ rest') true true)]> fs
    /\ utf_8_encode (write_newlines pf (universal_newlines s)) = Some rest'
    /\ has_utf8_bom p fs' = (fs', Ok true).
Proof.
  intros Hp Hd Hz.
  set (f := File (BOM_UTF8 ++ BOM_UTF8 ++ rest) true true) in *.
  assert (Hsig : utf_8_sig_decode (content f) = Some (0xFEFF :: s)).
  { change (utf_8_sig_decode (content f)) with (utf_8_decode (BOM_UTF8 ++ rest)).
    now rewrite decode_BOM_cons, Hd. }
  destruct (encode_scalar (write_newlines pf (universal_newlines s)))
    as [rest' Hrest'].
  { apply write_newlines_Forall; [left; lia..|].
    apply universal_newlines_Forall; [left; lia|].
    eapply decodes_scalar, utf_8_decode_decodes, Hd. }
  assert (Hrm : removed pf (0xFEFF :: s) = Some (BOM_UTF8 ++ rest')).
  { unfold removed.
    change (universal_newlines (0xFEFF :: s)) with (0xFEFF :: universal_newlines s).
    rewrite write_newlines_cons by discriminate.
    now rewrite encode_FEFF_cons, Hrest'. }
  eexists rest', _. split; [|split; [reflexivity|split; [assumption|]]].
  - now apply remove_bom_removed with f (0xFEFF :: s).
  - erewrite has_utf8_bom_ok; [|apply lookup_insert_eq|reflexivity].
    reflexivity.
Qed.

Lemma remove_strips_only_the_first_bom_witness :
  remove_bom_from_file Posix Examples.readme false false
    (Examples.tree (BOM_UTF8 ++ BOM_UTF8 ++ Examples.hello))
  = (Examples.tree (BOM_UTF8 ++ Examples.hello), Ok (true, "bom_removed"%string)).
Proof.
  destruct (remove_strips_only_the_first_bom Posix Examples.readme false
              (Examples.tree (BOM_UTF8 ++ BOM_UTF8 ++ Examples.hello))
              Examples.hello [104; 101; 108; 108; 111])
    as (rest' & fs' & -> & -> & He & _).
  - vm_compute; reflexivity.
  - reflexivity.
  - compute_done.
  - vm_compute in He. injection He as <-. compute_done.
Defined.

(* ===================================================================== *)
(** ** Further properties of the per-file procedures *)
(* ===================================================================== *)

(** The ways opening a path for reading fails. *)
Lemma open_read_raises p fs :
  fs !! p = None \/ fs !! p = Some Directory
  \/ (exists f, fs !! p = Some (RegularFile f) /\ readable f = false) ->
  exists e, open_read p fs = (fs, Raise e).
Proof.
  unfold open_read. intros [->|[->|(f & -> & ->)]]; eauto.
Qed.

(** Case analysis on what the procedures find at a path: an unopenable
    path, or a readable file with or without BOM, zero bytes, valid
    text and write permission. *)
Ltac file_cases p fs :=
  let f := fresh "f" in
  let e := fresh "e" in
  let Hp := fresh "Hp" in
  let Hr := fresh "Hr" in
  let He := fresh "He" in
  let Hb := fresh "Hb" in
  let Hz := fresh "Hz" in
  let Hd := fresh "Hd" in
  let Hw := fresh "Hw" in
  let s := fresh "s" in
  destruct (open_read_cases p fs) as [(f & Hp & Hr & _)|(e & He & _)];
  [destruct (decide (take 3 (content f) = BOM_UTF8)) as [Hb|Hb];
   destruct (decide (x00 ∈ take 1024 (content f))) as [Hz|Hz];
   [| | |destruct (utf_8_decode (content f)) as [s|] eqn:Hd;
         [destruct (writable f) eqn:Hw|]]
  |].

(** X1. The text check never raises and never changes the store; it
    answers true exactly when the path is a readable regular file with
    no zero byte among its first 1024 bytes, so zero bytes further on
    are not seen; whenever opening fails it answers false. *)
Theorem is_text_file_contract p fs :
  exists b,
    is_text_file p fs = (fs, Ok b)
    /\ (b = true <->
        exists f, fs !! p = Some (RegularFile f) /\ readable f = true
                  /\ x00 ∉ take 1024 (content f))
    /\ (forall f pre rest,
          fs !! p = Some (RegularFile f) -> readable f = true ->
          content f = pre ++ rest -> length pre = 1024%nat -> x00 ∉ pre ->
          b = true)
    /\ (forall e, open_read p fs = (fs, Raise e) -> b = false).
Proof.
  destruct (open_read_cases p fs) as [(f & Hp & Hr & Ho)|(e & He & Hun)].
  - exists (negb (bool_decide (x00 ∈ take 1024 (content f)))).
    split; [now apply is_text_file_ok|].
    assert (Hiff : negb (bool_decide (x00 ∈ take 1024 (content f))) = true
                   <-> x00 ∉ take 1024 (content f)).
    { rewrite negb_true_iff, bool_decide_eq_false. reflexivity. }
    split; [|split].
    + rewrite Hiff. split; [eauto|].
      intros (f' & Hp' & _ & Hz). congruence.
    + intros f' pre rest Hp' _ Hc Hlen Hz.
      assert (f' = f) as -> by congruence.
      apply Hiff. rewrite Hc, <- Hlen, take_app_length. exact Hz.
    + intros e' He'. rewrite Ho in He'. discriminate.
  - exists false. split; [now apply is_text_file_raise with e|].
    split; [|split]; [| |reflexivity].
    + split; [discriminate|]. intros (f & Hp & Hr & _).
      rewrite (Hun f Hp) in Hr. discriminate.
    + intros f pre rest Hp Hr. rewrite (Hun f Hp) in Hr. discriminate.
Qed.

(** X2. A path that cannot be opened for reading (missing, a directory,
    or a file without read permission) is never reported as an error:
    add reports [not_text_file], remove reports [no_bom], dry run or
    not, and the store is unchanged. *)
Theorem unopenable_path_is_skipped pf p d v fs :
  fs !! p = None \/ fs !! p = Some Directory
  \/ (exists f, fs !! p = Some (RegularFile f) /\ readable f = false) ->
  add_bom_to_file pf p d v fs = (fs, Ok (true, "not_text_file"%string))
  /\ remove_bom_from_file pf p d v fs = (fs, Ok (true, "no_bom"%string)).
Proof.
  intros H. destruct (open_read_raises p fs H) as [e He]. split.
  - now apply add_unreadable with e.
  - now apply remove_unreadable with e.
Qed.

Lemma unopenable_path_is_skipped_witness :
  add_bom_to_file Posix Examples.vendored false false (Examples.tree Examples.hello)
  = (Examples.tree Examples.hello, Ok (true, "not_text_file"%string))
  /\ remove_bom_from_file Posix Examples.vendored false false
       (Examples.tree Examples.hello)
     = (Examples.tree Examples.hello, Ok (true, "no_bom"%string)).
Proof.
  apply (unopenable_path_is_skipped Posix Examples.vendored false false
           (Examples.tree Examples.hello)).
  left. vm_compute; reflexivity.
Defined.

(** X3. For every readable file that does not begin with EF BB BF
    (files shorter than three bytes included), remove, dry run or not,
    leaves the store unchanged and reports [no_bom], whatever else the
    file holds. *)
Theorem remove_skips_file_without_bom pf p d v fs bs w :
  fs !! p = Some (RegularFile (File bs true w)) ->
  take 3 bs <> BOM_UTF8 ->
  remove_bom_from_file pf p d v fs = (fs, Ok (true, "no_bom"%string)).
Proof.
  intros Hp Hb. now apply remove_no_bom with (File bs true w).
Qed.

Lemma remove_skips_file_without_bom_witness :
  remove_bom_from_file Posix Examples.readme false false (Examples.tree [xef; xbb])
  = (Examples.tree [xef; xbb], Ok (true, "no_bom"%string)).
Proof.
  apply (remove_skips_file_without_bom Posix Examples.readme false false
           (Examples.tree [xef; xbb]) [xef; xbb] true).
  - vm_compute; reflexivity.
  - discriminate.
Defined.

Section Outcomes.
Variable pf : platform.

(** The three kinds of run of add on a path: the file is rewritten, the
    rewrite is refused, or the file is passed over on both kinds of
    run. *)
Lemma add_outcomes p v fs :
  (exists f s bs',
      fs !! p = Some (RegularFile f) /\ readable f = true /\ writable f = true
      /\ take 3 (content f) <> BOM_UTF8 /\ (x00 ∉ take 1024 (content f))
      /\ utf_8_decode (content f) = Some s /\ added pf s = Some bs'
      /\ add_bom_to_file pf p false v fs
         = (<[p := RegularFile (File bs' true true)]> fs,
            Ok (true, "bom_added"%string))
      /\ add_bom_to_file pf p true v fs = (fs, Ok (true, "dry_run"%string)))
  \/ (exists f s,
        fs !! p = Some (RegularFile f) /\ readable f = true /\ writable f = false
        /\ take 3 (content f) <> BOM_UTF8 /\ (x00 ∉ take 1024 (content f))
        /\ utf_8_decode (content f) = Some s
        /\ add_bom_to_file pf p false v fs
           = (fs, Ok (false, "error: " +:+ str_exn (PermissionError p)))
        /\ add_bom_to_file pf p true v fs = (fs, Ok (true, "dry_run"%string)))
  \/ (exists r,
        r ∈ [(true, "already_has_bom"); (true, "not_text_file");
             (false, "not_utf8")]%string
        /\ forall d, add_bom_to_file pf p d v fs = (fs, Ok r)).
Proof.
  file_cases p fs.
  - do 2 right. eexists. split; [|intros d; now apply add_already_has_bom with f].
    repeat constructor.
  - do 2 right. eexists. split; [|intros d; now apply add_already_has_bom with f].
    repeat constructor.
  - do 2 right. eexists. split; [|intros d; now apply add_not_text_file with f].
    repeat constructor.
  - left. destruct (added_is_Some pf _ _ Hd) as [bs' Hbs'].
    exists f, s, bs'. repeat split; try assumption.
    + eapply add_bom_added; eassumption.
    + now apply add_dry_run with f s.
  - right; left. exists f, s. repeat split; try assumption.
    + now apply add_unwritable with f s.
    + now apply add_dry_run with f s.
  - do 2 right. eexists. split; [|intros d; now apply add_not_utf8 with f].
    repeat constructor.
  - do 2 right. eexists. split; [|intros d; now apply add_unreadable with e].
    repeat constructor.
Qed.

Lemma remove_outcomes p v fs :
  (exists f s bs',
      fs !! p = Some (RegularFile f) /\ readable f = true /\ writable f = true
      /\ take 3 (content f) = BOM_UTF8 /\ (x00 ∉ take 1024 (content f))
      /\ utf_8_sig_decode (content f) = Some s /\ removed pf s = Some bs'
      /\ remove_bom_from_file pf p false v fs
         = (<[p := RegularFile (File bs' true true)]> fs,
            Ok (true, "bom_removed"%string))
      /\ remove_bom_from_file pf p true v fs = (fs, Ok (true, "dry_run"%string)))
  \/ (exists f s,
        fs !! p = Some (RegularFile f) /\ readable f = true /\ writable f = false
        /\ take 3 (content f) = BOM_UTF8 /\ (x00 ∉ take 1024 (content f))
        /\ utf_8_sig_decode (content f) = Some s
        /\ remove_bom_from_file pf p false v fs
           = (fs, Ok (false, "error: " +:+ str_exn (PermissionError p)))
        /\ remove_bom_from_file pf p true v fs = (fs, Ok (true, "dry_run"%string)))
  \/ (exists r,
        r ∈ [(true, "no_bom"); (true, "not_text_file"); (false, "not_utf8")]%string
        /\ forall d, remove_bom_from_file pf p d v fs = (fs, Ok r)).
Proof.
  destruct (open_read_cases p fs) as [(f & Hp & Hr & _)|(e & He & _)].
  2:{ do 2 right. eexists. split; [|intros d; now apply remove_unreadable with e].
      repeat constructor. }
  destruct (decide (take 3 (content f) = BOM_UTF8)) as [Hb|Hb].
  2:{ do 2 right. eexists. split; [|intros d; now apply remove_no_bom with f].
      repeat constructor. }
  destruct (decide (x00 ∈ take 1024 (content f))) as [Hz|Hz].
  { do 2 right. eexists. split; [|intros d; now apply remove_not_text_file with f].
    repeat constructor. }
  destruct (utf_8_sig_decode (content f)) as [s|] eqn:Hd.
  2:{ do 2 right. eexists. split; [|intros d; now apply remove_not_utf8 with f].
      repeat constructor. }
  destruct (writable f) eqn:Hw.
  - left. destruct (removed_is_Some pf _ _ Hd) as [bs' Hbs'].
    exists f, s, bs'. repeat split; try assumption.
    + eapply remove_bom_removed; eassumption.
    + now apply remove_dry_run with f s.
  - right; left. exists f, s. repeat split; try assumption.
    + now apply remove_unwritable with f s.
    + now apply remove_dry_run with f s.
Qed.

End Outcomes.

(** X4. A second real add after one that reported [bom_added] finds
    the BOM: it reports [already_has_bom] and changes nothing.  After
    one that passed the file over ([already_has_bom], [not_text_file],
    [not_utf8]) the second run changes nothing and repeats the report.
    Nothing is said of a file whose first run reported an error. *)
Theorem add_twice_is_add_once pf p v v' fs fs1 ok tag :
  add_bom_to_file pf p false v fs = (fs1, Ok (ok, tag)) ->
  tag ∈ ["bom_added"; "already_has_bom"; "not_text_file"; "not_utf8"]%string ->
  add_bom_to_file pf p false v' fs1
  = (fs1, Ok (if String.eqb tag "bom_added"
              then (true, "already_has_bom"%string) else (ok, tag))).
Proof.
  intros H Htag.
  change (add_bom_to_file pf p false v') with (add_bom_to_file pf p false v).
  destruct (add_outcomes pf p v fs)
    as [(f & s & bs' & Hp & Hr & Hw & Hb & Hz & Hd & Ha & Hreal & _)
       |[(f & s & Hp & Hr & Hw & Hb & Hz & Hd & Hreal & _)
        |(r & Hin & Hall)]].
  - rewrite Hreal in H. injection H as <- <- <-. cbn [String.eqb Ascii.eqb].
    unfold added, utf_8_sig_encode in Ha.
    destruct (utf_8_encode _) as [text|]; [|discriminate].
    injection Ha as <-.
    apply add_already_has_bom with (File (BOM_UTF8 ++ text) true true);
      [apply lookup_insert_eq|reflexivity..].
  - rewrite Hreal in H. injection H as <- <- <-.
    repeat (apply elem_of_cons in Htag as [Htag|Htag]; [discriminate Htag|]).
    now apply elem_of_nil in Htag.
  - rewrite Hall in H. injection H as <- ->. rewrite Hall.
    repeat (apply elem_of_cons in Hin as [[= -> ->]|Hin]; [reflexivity|]).
    now apply elem_of_nil in Hin.
Qed.

Lemma add_twice_is_add_once_witness :
  add_bom_to_file Posix Examples.readme false false
    (Examples.tree (BOM_UTF8 ++ Examples.hello))
  = (Examples.tree (BOM_UTF8 ++ Examples.hello),
     Ok (true, "already_has_bom"%string)).
Proof.
  apply (add_twice_is_add_once Posix Examples.readme false false
           (Examples.tree Examples.hello)
           (Examples.tree (BOM_UTF8 ++ Examples.hello)) true "bom_added").
  - compute_done.
  - apply list_elem_of_here.
Defined.

(** X5. A dry run of add never changes the store and predicts the real
    run on the same store: it reports [dry_run] exactly when the real
    run attempts the rewrite, and the real run then reports [bom_added]
    or an error; in every other case both runs return the same report
    and the real run changes nothing either.  Nothing is said of what
    a real run that reports an error leaves in the file. *)
Theorem add_dry_run_predicts_real_run pf p v fs :
  exists r_dry fs_real r_real,
    add_bom_to_file pf p true v fs = (fs, r_dry)
    /\ add_bom_to_file pf p false v fs = (fs_real, r_real)
    /\ ((r_dry = Ok (true, "dry_run"%string)
         /\ (r_real = Ok (true, "bom_added"%string)
             \/ exists message, r_real = Ok (false, "error: " +:+ message)))
        \/ (r_dry <> Ok (true, "dry_run"%string)
            /\ r_real = r_dry /\ fs_real = fs)).
Proof.
  destruct (add_outcomes pf p v fs)
    as [(f & s & bs' & _ & _ & _ & _ & _ & _ & _ & Hreal & Hdry)
       |[(f & s & _ & _ & _ & _ & _ & _ & Hreal & Hdry)
        |(r & Hin & Hall)]].
  - eexists _, _, _. split; [exact Hdry|]. split; [exact Hreal|]. left. auto.
  - eexists _, _, _. split; [exact Hdry|]. split; [exact Hreal|]. left. eauto.
  - eexists _, _, _. split; [apply Hall|]. split; [apply Hall|]. right.
    split; [|auto]. intros [= ->].
    repeat (apply elem_of_cons in Hin as [Hin|Hin]; [discriminate Hin|]).
    now apply elem_of_nil in Hin.
Qed.

(** X6. The same for remove, with [bom_removed] as the report of a
    successful rewrite. *)
Theorem remove_dry_run_predicts_real_run pf p v fs :
  exists r_dry fs_real r_real,
    remove_bom_from_file pf p true v fs = (fs, r_dry)
    /\ remove_bom_from_file pf p false v fs = (fs_real, r_real)
    /\ ((r_dry = Ok (true, "dry_run"%string)
         /\ (r_real = Ok (true, "bom_removed"%string)
             \/ exists message, r_real = Ok (false, "error: " +:+ message)))
        \/ (r_dry <> Ok (true, "dry_run"%string)
            /\ r_real = r_dry /\ fs_real = fs)).
Proof.
  destruct (remove_outcomes pf p v fs)
    as [(f & s & bs' & _ & _ & _ & _ & _ & _ & _ & Hreal & Hdry)
       |[(f & s & _ & _ & _ & _ & _ & _ & Hreal & Hdry)
        |(r & Hin & Hall)]].
  - eexists _, _, _. split; [exact Hdry|]. split; [exact Hreal|]. left. auto.
  - eexists _, _, _. split; [exact Hdry|]. split; [exact Hreal|]. left. eauto.
  - eexists _, _, _. split; [apply Hall|]. split; [apply Hall|]. right.
    split; [|auto]. intros [= ->].
    repeat (apply elem_of_cons in Hin as [Hin|Hin]; [discriminate Hin|]).
    now apply elem_of_nil in Hin.
Qed.

(** X7. What a report of add says about the file.  After [bom_added]
    (never in a dry run) the file at the path keeps its permissions and
    holds EF BB BF followed by the re-encoding of its decoded,
    newline-translated text.  After [already_has_bom], [not_text_file],
    [not_utf8] or [dry_run] nothing has been written: the store is
    unchanged.  Any other report is an error, of which nothing is
    said. *)
Theorem add_report_and_file_contents pf p d v fs fs' ok tag :
  add_bom_to_file pf p d v fs = (fs', Ok (ok, tag)) ->
  (tag = "bom_added"%string /\ d = false
   /\ exists f s text,
        fs !! p = Some (RegularFile f)
        /\ utf_8_decode (content f) = Some s
        /\ utf_8_encode (write_newlines pf (universal_newlines s)) = Some text
        /\ fs' !! p = Some (RegularFile (File ([xef; xbb; xbf] ++ text)
                                              (readable f) (writable f))))
  \/ (tag ∈ ["already_has_bom"; "not_text_file"; "not_utf8"; "dry_run"]%string
      /\ fs' = fs)
  \/ (exists message, tag = "error: " +:+ message).
Proof.
  intros H.
  destruct (add_outcomes pf p v fs)
    as [(f & s & bs' & Hp & Hr & Hw & _ & _ & Hd & Ha & Hreal & Hdry)
       |[(f & s & _ & _ & _ & _ & _ & _ & Hreal & Hdry)
        |(r & Hin & Hall)]].
  - destruct d.
    + rewrite Hdry in H. injection H as <- <- <-. right; left.
      split; [|reflexivity].
      repeat first [apply list_elem_of_here | apply list_elem_of_further].
    + rewrite Hreal in H. injection H as <- <- <-. left.
      split; [reflexivity|]. split; [reflexivity|].
      unfold added, utf_8_sig_encode in Ha.
      destruct (utf_8_encode _) as [text|] eqn:He; [|discriminate].
      injection Ha as <-. exists f, s, text. rewrite Hr, Hw.
      repeat split; try assumption. apply lookup_insert_eq.
  - destruct d.
    + rewrite Hdry in H. injection H as <- <- <-. right; left.
      split; [|reflexivity].
      repeat first [apply list_elem_of_here | apply list_elem_of_further].
    + rewrite Hreal in H. injection H as <- <- <-. right; right. eauto.
  - rewrite Hall in H. injection H as <- ->. right; left. split; [|reflexivity].
    repeat (apply elem_of_cons in Hin as [[= -> ->]|Hin];
            [repeat first [apply list_elem_of_here | apply list_elem_of_further]|]).
    now apply elem_of_nil in Hin.
Qed.

Lemma add_report_and_file_contents_witness :
  exists f s text,
    Examples.tree Examples.hello !! Examples.readme = Some (RegularFile f)
    /\ utf_8_decode (content f) = Some s
    /\ utf_8_encode (write_newlines Posix (universal_newlines s)) = Some text
    /\ Examples.tree (BOM_UTF8 ++ Examples.hello) !! Examples.readme
       = Some (RegularFile (File ([xef; xbb; xbf] ++ text)
                                 (readable f) (writable f))).
Proof.
  destruct (add_report_and_file_contents Posix Examples.readme false false
              (Examples.tree Examples.hello)
              (Examples.tree (BOM_UTF8 ++ Examples.hello)) true "bom_added")
    as [(_ & _ & H)|[[H _]|(message & H)]].
  - compute_done.
  - exact H.
  - exfalso.
    repeat (apply elem_of_cons in H as [H|H]; [discriminate H|]).
    now apply elem_of_nil in H.
  - discriminate H.
Defined.

(** X8. What a report of remove says about the file.  After
    [bom_removed] (never in a dry run) the file at the path keeps its
    permissions and holds the re-encoding of the text decoded after the
    first BOM, newline-translated, with nothing put in front.  After
    [no_bom], [not_text_file], [not_utf8] or [dry_run] nothing has been
    written: the store is unchanged.  Any other report is an error, of
    which nothing is said. *)
Theorem remove_report_and_file_contents pf p d v fs fs' ok tag :
  remove_bom_from_file pf p d v fs = (fs', Ok (ok, tag)) ->
  (tag = "bom_removed"%string /\ d = false
   /\ exists f rest s text,
        fs !! p = Some (RegularFile f)
        /\ content f = [xef; xbb; xbf] ++ rest
        /\ utf_8_decode rest = Some s
        /\ utf_8_encode (write_newlines pf (universal_newlines s)) = Some text
        /\ fs' !! p = Some (RegularFile (File text (readable f) (writable f))))
  \/ (tag ∈ ["no_bom"; "not_text_file"; "not_utf8"; "dry_run"]%string
      /\ fs' = fs)
  \/ (exists message, tag = "error: " +:+ message).
Proof.
  intros H.
  destruct (remove_outcomes pf p v fs)
    as [(f & s & bs' & Hp & Hr & Hw & Hb & _ & Hd & Ha & Hreal & Hdry)
       |[(f & s & _ & _ & _ & _ & _ & _ & Hreal & Hdry)
        |(r & Hin & Hall)]].
  - destruct d.
    + rewrite Hdry in H. injection H as <- <- <-. right; left.
      split; [|reflexivity].
      repeat first [apply list_elem_of_here | apply list_elem_of_further].
    + rewrite Hreal in H. injection H as <- <- <-. left.
      split; [reflexivity|]. split; [reflexivity|].
      destruct (content f) as [|b0 [|b1 [|b2 rest]]] eqn:Hc; try discriminate.
      injection Hb as -> -> ->.
      exists f, rest, s, bs'. rewrite Hr, Hw.
      repeat split; try assumption. apply lookup_insert_eq.
  - destruct d.
    + rewrite Hdry in H. injection H as <- <- <-. right; left.
      split; [|reflexivity].
      repeat first [apply list_elem_of_here | apply list_elem_of_further].
    + rewrite Hreal in H. injection H as <- <- <-. right; right. eauto.
  - rewrite Hall in H. injection H as <- ->. right; left. split; [|reflexivity].
    repeat (apply elem_of_cons in Hin as [[= -> ->]|Hin];
            [repeat first [apply list_elem_of_here | apply list_elem_of_further]|]).
    now apply elem_of_nil in Hin.
Qed.

Lemma remove_report_and_file_contents_witness :
  exists f rest s text,
    Examples.tree (BOM_UTF8 ++ Examples.hello) !! Examples.readme
    = Some (RegularFile f)
    /\ content f = [xef; xbb; xbf] ++ rest
    /\ utf_8_decode rest = Some s
    /\ utf_8_encode (write_newlines Posix (universal_newlines s)) = Some text
    /\ Examples.tree Examples.hello !! Examples.readme
       = Some (RegularFile (File text (readable f) (writable f))).
Proof.
  destruct (remove_report_and_file_contents Posix Examples.readme false false
              (Examples.tree (BOM_UTF8 ++ Examples.hello))
              (Examples.tree Examples.hello) true "bom_removed")
    as [(_ & _ & H)|[[H _]|(message & H)]].
  - compute_done.
  - exact H.
  - exfalso.
    repeat (apply elem_of_cons in H as [H|H]; [discriminate H|]).
    now apply elem_of_nil in H.
  - discriminate H.
Defined.

(** X9. A readable file without BOM that add would rewrite, but which
    has no write permission, is reported by a real run as an error (the
    first component of the result is false) and left unchanged, while
    the dry run reports [dry_run]: the dry run does not foresee the
    failure. *)
Theorem add_to_read_only_file_is_an_error pf p v fs bs s :
  fs !! p = Some (RegularFile (File bs true false)) ->
  take 3 bs <> BOM_UTF8 ->
  x00 ∉ take 1024 bs ->
  utf_8_decode bs = Some s ->
  (exists message,
      add_bom_to_file pf p false v fs = (fs, Ok (false, "error: " +:+ message)))
  /\ add_bom_to_file pf p true v fs = (fs, Ok (true, "dry_run"%string)).
Proof.
  intros Hp Hb Hz Hd. set (f := File bs true false) in *. split.
  - eexists. now apply add_unwritable with f s.
  - now apply add_dry_run with f s.
Qed.

Lemma add_to_read_only_file_is_an_error_witness :
  (exists message,
      add_bom_to_file Posix Examples.readme false false
        {[ Examples.readme := RegularFile (File Examples.hello true false) ]}
      = ({[ Examples.readme := RegularFile (File Examples.hello true false) ]},
         Ok (false, "error: " +:+ message)))
  /\ add_bom_to_file Posix Examples.readme true false
       {[ Examples.readme := RegularFile (File Examples.hello true false) ]}
     = ({[ Examples.readme := RegularFile (File Examples.hello true false) ]},
        Ok (true, "dry_run"%string)).
Proof.
  apply (add_to_read_only_file_is_an_error Posix Examples.readme false
           {[ Examples.readme := RegularFile (File Examples.hello true false) ]}
           Examples.hello [104; 101; 108; 108; 111]).
  - vm_compute; reflexivity.
  - discriminate.
  - compute_done.
  - reflexivity.
Defined.

(** X10. The round trip in the other direction. For every file that
    begins with exactly one BOM (what follows does not begin with a
    second one), whose remainder has no zero byte in its first 1024
    bytes, is valid UTF-8 and has native line endings, remove followed
    by add (both real) restores the store; when the file is readable
    and writable the two runs report [bom_removed] and [bom_added],
    the file holding the remainder alone in between. *)
Theorem remove_then_add_restores pf p v v' fs f rest s :
  fs !! p = Some (RegularFile f) ->
  content f = BOM_UTF8 ++ rest ->
  take 3 rest <> BOM_UTF8 ->
  x00 ∉ take 1024 rest ->
  utf_8_decode rest = Some s ->
  native_newlines pf rest = true ->
  exists fs1 r1 r2,
    remove_bom_from_file pf p false v fs = (fs1, r1)
    /\ add_bom_to_file pf p false v' fs1 = (fs, r2)
    /\ (readable f = true -> writable f = true ->
        fs1 = <[p := RegularFile (File rest true true)]> fs
        /\ r1 = Ok (true, "bom_removed"%string)
        /\ r2 = Ok (true, "bom_added"%string)).
Proof.
  intros Hp Hc Hb Hz Hd Hnl.
  destruct (readable f) eqn:Hr.
  2:{ pose proof (open_read_unreadable p fs f Hp Hr) as Ho.
      exists fs, (Ok (true, "no_bom"%string)), (Ok (true, "not_text_file"%string)).
      split; [now apply remove_unreadable with (PermissionError p)|].
      split; [now apply add_unreadable with (PermissionError p)|].
      discriminate. }
  assert (Hb0 : take 3 (content f) = BOM_UTF8) by now rewrite Hc.
  assert (Hz0 : x00 ∉ take 1024 (content f))
    by (rewrite Hc; now apply no_zero_after_BOM).
  assert (Hd0 : utf_8_sig_decode (content f) = Some s) by now rewrite Hc.
  destruct (writable f) eqn:Hw.
  2:{ eexists fs, _, (Ok (true, "already_has_bom"%string)).
      split; [now apply remove_unwritable with f s|].
      split; [now apply add_already_has_bom with f|]. discriminate. }
  pose proof (native_newlines_stable pf _ _ Hd Hnl) as Hs.
  assert (Hrm : removed pf s = Some rest).
  { unfold removed. now rewrite Hs, (utf_8_decode_encode _ _ Hd). }
  assert (Ha : added pf s = Some (BOM_UTF8 ++ rest)).
  { unfold added, utf_8_sig_encode.
    now rewrite Hs, (utf_8_decode_encode _ _ Hd). }
  set (f1 := File rest true true).
  exists (<[p := RegularFile f1]> fs),
    (Ok (true, "bom_removed"%string)), (Ok (true, "bom_added"%string)).
  split; [eapply remove_bom_removed; eassumption|].
  split; [|auto].
  rewrite (add_bom_added pf p v' _ f1 s (BOM_UTF8 ++ rest));
    try reflexivity; try assumption.
  - rewrite insert_insert_eq, insert_id; [reflexivity|].
    rewrite Hp. destruct f as [c r w]. cbn in Hr, Hw, Hc. now subst.
  - apply lookup_insert_eq.
Qed.

Lemma remove_then_add_restores_witness :
  exists fs1,
    remove_bom_from_file Windows Examples.readme false false
      (Examples.tree (BOM_UTF8 ++ [x61; x0d; x0a; x62]))
    = (fs1, Ok (true, "bom_removed"%string))
    /\ add_bom_to_file Windows Examples.readme false false fs1
       = (Examples.tree (BOM_UTF8 ++ [x61; x0d; x0a; x62]),
          Ok (true, "bom_added"%string)).
Proof.
  destruct (remove_then_add_restores Windows Examples.readme false false
              (Examples.tree (BOM_UTF8 ++ [x61; x0d; x0a; x62]))
              (File (BOM_UTF8 ++ [x61; x0d; x0a; x62]) true true)
              [x61; x0d; x0a; x62] [97; 13; 10; 98])
    as (fs1 & r1 & r2 & H1 & H2 & H3);
    [vm_compute; reflexivity|reflexivity|discriminate|compute_done
    |reflexivity..|].
  destruct (H3 eq_refl eq_refl) as (_ & -> & ->). exists fs1. split; assumption.
Defined.

(* ===================================================================== *)
(** ** Further properties of the batch walker *)
(* ===================================================================== *)

Section Tally.
Variable proc : path -> io (bool * string).
Variable key : string.
Variable upd : gmap string nat -> string -> gmap string nat.
Variable excl : list string.
Variable T : string -> Prop.

Hypothesis proc_ok : forall p fs,
  exists fs' ok tag, proc p fs = (fs', Ok (ok, tag)) /\ T tag.

(** The statistics are the replay of the reports made, and every report
    comes from the procedure. *)
Lemma walk_tally xs : forall acc fs fs' st tr,
  for_each (step proc key upd excl) acc xs fs = (fs', Ok (st, tr)) ->
  exists new,
    tr = acc.2 ++ new
    /\ Forall (fun e => T e.2) new
    /\ st = tally key upd new.*2 acc.1.
Proof.
  induction xs as [|x xs IH]; intros acc fs fs' st tr.
  { cbn [for_each]. unfold ret. intros [= <- Hacc]. exists [].
    rewrite app_nil_r. destruct acc; cbn in *.
    injection Hacc as <- <-. repeat split. constructor. }
  cbn [for_each]. unfold bind at 1, step at 1, bind at 1, is_dir.
  assert (Hskip : for_each (step proc key upd excl) acc xs fs = (fs', Ok (st, tr)) ->
                  exists new, tr = acc.2 ++ new /\ Forall (fun e => T e.2) new
                              /\ st = tally key upd new.*2 acc.1)
    by apply IH.
  destruct (fs !! x) as [[f|]|]; cbv beta iota; [|exact Hskip|];
    (destruct (in_excluded_dir excl x); [exact Hskip|]); clear Hskip;
    unfold bind at 1;
    destruct (proc_ok x fs) as (fs1 & ok & tag & -> & Ht);
    cbv beta iota; unfold ret at 1; cbn [fst snd];
    intros H; apply IH in H as (new & -> & Hnew & ->); cbn [fst snd];
    exists ((x, tag) :: new); rewrite <- app_assoc;
    (split; [reflexivity|]); (split; [now constructor|reflexivity]).
Qed.

End Tally.

Section Counters.

Lemma prefix_not_utf8_error tag :
  String.prefix "not_utf8" tag = true -> String.prefix "error" tag = false.
Proof.
  destruct tag as [|c tag]; [discriminate|]. cbn [String.prefix].
  match goal with
  | |- context [Ascii.ascii_dec ?a c] =>
    destruct (Ascii.ascii_dec a c) as [<-|]; [|discriminate]
  end.
  intros _. reflexivity.
Qed.

Ltac counters :=
  unfold incr;
  repeat first [rewrite lookup_total_insert_eq
               |rewrite lookup_total_insert_ne by discriminate];
  repeat match goal with
         | |- context [Nat.b2n ?b] =>
           let v := eval vm_compute in b in
           match v with
           | true => change b with true
           | false => change b with false
           end; cbn [Nat.b2n]
         end;
  lia.

(** One step of the add chain: the visited file is counted, and the
    counter whose test the report passes, if any, goes up by one. *)
Lemma add_update_counts st tag :
  let st' := Utf8PlusBom.update_stats (incr "total_found" st) tag in
  st' !!! "total_found"%string = S (st !!! "total_found"%string)
  /\ st' !!! "bom_added"%string
     = (st !!! "bom_added"%string + Nat.b2n (is_tag "bom_added" tag))%nat
  /\ st' !!! "already_has_bom"%string
     = (st !!! "already_has_bom"%string + Nat.b2n (is_tag "already_has_bom" tag))%nat
  /\ st' !!! "not_text_file"%string
     = (st !!! "not_text_file"%string + Nat.b2n (is_tag "not_text_file" tag))%nat
  /\ st' !!! "not_utf8"%string
     = (st !!! "not_utf8"%string + Nat.b2n (starts_with "not_utf8" tag))%nat
  /\ st' !!! "errors"%string
     = (st !!! "errors"%string + Nat.b2n (starts_with "error" tag))%nat.
Proof.
  cbv zeta. unfold Utf8PlusBom.update_stats, is_tag, starts_with.
  destruct (String.eqb_spec tag "bom_added") as [->|_];
    [repeat split; counters|].
  destruct (String.eqb_spec tag "already_has_bom") as [->|_];
    [repeat split; counters|].
  destruct (String.eqb_spec tag "not_text_file") as [->|_];
    [repeat split; counters|].
  destruct (String.prefix "not_utf8" tag) eqn:Hn;
    [rewrite (prefix_not_utf8_error _ Hn); repeat split; counters|].
  destruct (String.prefix "error" tag); repeat split; counters.
Qed.

Lemma remove_update_counts st tag :
  let st' := Utf8MinusBom.update_stats (incr "total_checked" st) tag in
  st' !!! "total_checked"%string = S (st !!! "total_checked"%string)
  /\ st' !!! "bom_removed"%string
     = (st !!! "bom_removed"%string + Nat.b2n (is_tag "bom_removed" tag))%nat
  /\ st' !!! "no_bom"%string
     = (st !!! "no_bom"%string + Nat.b2n (is_tag "no_bom" tag))%nat
  /\ st' !!! "not_text_file"%string
     = (st !!! "not_text_file"%string + Nat.b2n (is_tag "not_text_file" tag))%nat
  /\ st' !!! "not_utf8"%string
     = (st !!! "not_utf8"%string + Nat.b2n (starts_with "not_utf8" tag))%nat
  /\ st' !!! "errors"%string
     = (st !!! "errors"%string + Nat.b2n (starts_with "error" tag))%nat.
Proof.
  cbv zeta. unfold Utf8MinusBom.update_stats, is_tag, starts_with.
  destruct (String.eqb_spec tag "bom_removed") as [->|_];
    [repeat split; counters|].
  destruct (String.eqb_spec tag "no_bom") as [->|_];
    [repeat split; counters|].
  destruct (String.eqb_spec tag "not_text_file") as [->|_];
    [repeat split; counters|].
  destruct (String.prefix "not_utf8" tag) eqn:Hn;
    [rewrite (prefix_not_utf8_error _ Hn); repeat split; counters|].
  destruct (String.prefix "error" tag); repeat split; counters.
Qed.

Lemma count_tags_cons test tag tags :
  count_tags test (tag :: tags) = (Nat.b2n (test tag) + count_tags test tags)%nat.
Proof. unfold count_tags. cbn [List.filter]. now destruct (test tag). Qed.

Lemma add_tally_counts tags : forall st,
  let st' := tally "total_found" Utf8PlusBom.update_stats tags st in
  st' !!! "total_found"%string = (st !!! "total_found"%string + length tags)%nat
  /\ st' !!! "bom_added"%string
     = (st !!! "bom_added"%string + count_tags (is_tag "bom_added") tags)%nat
  /\ st' !!! "already_has_bom"%string
     = (st !!! "already_has_bom"%string
        + count_tags (is_tag "already_has_bom") tags)%nat
  /\ st' !!! "not_text_file"%string
     = (st !!! "not_text_file"%string
        + count_tags (is_tag "not_text_file") tags)%nat
  /\ st' !!! "not_utf8"%string
     = (st !!! "not_utf8"%string + count_tags (starts_with "not_utf8") tags)%nat
  /\ st' !!! "errors"%string
     = (st !!! "errors"%string + count_tags (starts_with "error") tags)%nat.
Proof.
  induction tags as [|tag tags IH]; intros st; cbv zeta.
  { unfold tally, count_tags. cbn. repeat split; lia. }
  unfold tally in *. cbn [fold_left].
  destruct (IH (Utf8PlusBom.update_stats (incr "total_found" st) tag))
    as (H0 & H1 & H2 & H3 & H4 & H5).
  destruct (add_update_counts st tag) as (G0 & G1 & G2 & G3 & G4 & G5).
  rewrite H0, H1, H2, H3, H4, H5, G0, G1, G2, G3, G4, G5, !count_tags_cons.
  cbn [length]. repeat split; lia.
Qed.

Lemma remove_tally_counts tags : forall st,
  let st' := tally "total_checked" Utf8MinusBom.update_stats tags st in
  st' !!! "total_checked"%string = (st !!! "total_checked"%string + length tags)%nat
  /\ st' !!! "bom_removed"%string
     = (st !!! "bom_removed"%string + count_tags (is_tag "bom_removed") tags)%nat
  /\ st' !!! "no_bom"%string
     = (st !!! "no_bom"%string + count_tags (is_tag "no_bom") tags)%nat
  /\ st' !!! "not_text_file"%string
     = (st !!! "not_text_file"%string
        + count_tags (is_tag "not_text_file") tags)%nat
  /\ st' !!! "not_utf8"%string
     = (st !!! "not_utf8"%string + count_tags (starts_with "not_utf8") tags)%nat
  /\ st' !!! "errors"%string
     = (st !!! "errors"%string + count_tags (starts_with "error") tags)%nat.
Proof.
  induction tags as [|tag tags IH]; intros st; cbv zeta.
  { unfold tally, count_tags. cbn. repeat split; lia. }
  unfold tally in *. cbn [fold_left].
  destruct (IH (Utf8MinusBom.update_stats (incr "total_checked" st) tag))
    as (H0 & H1 & H2 & H3 & H4 & H5).
  destruct (remove_update_counts st tag) as (G0 & G1 & G2 & G3 & G4 & G5).
  rewrite H0, H1, H2, H3, H4, H5, G0, G1, G2, G3, G4, G5, !count_tags_cons.
  cbn [length]. repeat split; lia.
Qed.

End Counters.

Section Reports.
Variable pf : platform.
Variable glob : string -> list path.

Ltac in_list := repeat first [apply list_elem_of_here | apply list_elem_of_further].

Lemma add_reports p d v fs :
  exists fs' ok tag,
    add_bom_to_file pf p d v fs = (fs', Ok (ok, tag)) /\ add_report d tag.
Proof.
  destruct (add_outcomes pf p v fs)
    as [(f & s & bs' & _ & _ & _ & _ & _ & _ & _ & Hreal & Hdry)
       |[(f & s & _ & _ & _ & _ & _ & _ & Hreal & Hdry)
        |([ok tag] & Hin & Hall)]].
  - destruct d; eexists _, _, _; (split; [eassumption|]); cbn; [|left]; in_list.
  - destruct d; eexists _, _, _; (split; [eassumption|]); cbn; [in_list|eauto].
  - exists fs, ok, tag. split; [apply Hall|].
    repeat (apply elem_of_cons in Hin as [[= -> ->]|Hin];
            [destruct d; cbn; [|left]; in_list|]).
    now apply elem_of_nil in Hin.
Qed.

Lemma remove_reports p d v fs :
  exists fs' ok tag,
    remove_bom_from_file pf p d v fs = (fs', Ok (ok, tag))
    /\ remove_report d tag.
Proof.
  destruct (remove_outcomes pf p v fs)
    as [(f & s & bs' & _ & _ & _ & _ & _ & _ & _ & Hreal & Hdry)
       |[(f & s & _ & _ & _ & _ & _ & _ & Hreal & Hdry)
        |([ok tag] & Hin & Hall)]].
  - destruct d; eexists _, _, _; (split; [eassumption|]); cbn; [|left]; in_list.
  - destruct d; eexists _, _, _; (split; [eassumption|]); cbn; [in_list|eauto].
  - exists fs, ok, tag. split; [apply Hall|].
    repeat (apply elem_of_cons in Hin as [[= -> ->]|Hin];
            [destruct d; cbn; [|left]; in_list|]).
    now apply elem_of_nil in Hin.
Qed.

(** The statistics [main] returns are the replay of the reports it
    collected, and each report is one the procedure can make. *)
Lemma add_main_replay a fs fs' st tr :
  Utf8PlusBom.main pf glob a fs = (fs', Ok (st, tr)) ->
  st = tally "total_found" Utf8PlusBom.update_stats tr.*2
             Utf8PlusBom.initial_stats
  /\ Forall (add_report (Utf8PlusBom.dry_run a)) tr.*2.
Proof.
  unfold Utf8PlusBom.main. rewrite for_each_flat_map, add_visit_step.
  intros H.
  apply (walk_tally _ _ _ _ (add_report (Utf8PlusBom.dry_run a))) in H
    as (new & -> & Hnew & ->).
  - cbn [fst snd app]. split; [reflexivity|].
    apply Forall_fmap. exact Hnew.
  - intros p fs0. apply add_reports.
Qed.

Lemma remove_main_replay a fs fs' st tr :
  Utf8MinusBom.main pf glob a fs = (fs', Ok (st, tr)) ->
  st = tally "total_checked" Utf8MinusBom.update_stats tr.*2
             Utf8MinusBom.initial_stats
  /\ Forall (remove_report (Utf8MinusBom.dry_run a)) tr.*2.
Proof.
  unfold Utf8MinusBom.main. rewrite for_each_flat_map, remove_visit_step.
  intros H.
  apply (walk_tally _ _ _ _ (remove_report (Utf8MinusBom.dry_run a))) in H
    as (new & -> & Hnew & ->).
  - cbn [fst snd app]. split; [reflexivity|].
    apply Forall_fmap. exact Hnew.
  - intros p fs0. apply remove_reports.
Qed.

End Reports.

Ltac tests :=
  repeat match goal with
         | |- context [Nat.b2n ?b] =>
           let v := eval vm_compute in b in
           match v with
           | true => change b with true
           | false => change b with false
           end; cbn [Nat.b2n]
         end.

(** Every report of a real add run passes exactly one of the five
    tests; a report of a dry run passes one of the three tests of the
    files passed over, or is [dry_run]. *)
Lemma add_report_partition d tags :
  Forall (add_report d) tags ->
  length tags
  = ((if d then count_tags (is_tag "dry_run") tags
      else count_tags (is_tag "bom_added") tags
           + count_tags (starts_with "error") tags)
     + count_tags (is_tag "already_has_bom") tags
     + count_tags (is_tag "not_text_file") tags
     + count_tags (starts_with "not_utf8") tags)%nat
  /\ (d = true -> count_tags (is_tag "bom_added") tags = 0%nat
                  /\ count_tags (starts_with "error") tags = 0%nat).
Proof.
  destruct d; unfold add_report.
  - induction 1 as [|tag tags Ht _ [IH1 IH2]].
    { split; [reflexivity|]. intros _. split; reflexivity. }
    destruct (IH2 eq_refl) as [IHa IHe].
    rewrite !count_tags_cons. cbn [length].
    repeat (apply elem_of_cons in Ht as [->|Ht];
            [tests; split; [lia|intros _; lia]|]).
    now apply elem_of_nil in Ht.
  - induction 1 as [|tag tags Ht _ [IH1 _]].
    { split; [reflexivity|discriminate]. }
    split; [|discriminate].
    rewrite !count_tags_cons. cbn [length].
    destruct Ht as [Ht|[message ->]]; [|tests; lia].
    repeat (apply elem_of_cons in Ht as [->|Ht];
            [tests; lia|]).
    now apply elem_of_nil in Ht.
Qed.

Lemma remove_report_partition d tags :
  Forall (remove_report d) tags ->
  length tags
  = ((if d then count_tags (is_tag "dry_run") tags
      else count_tags (is_tag "bom_removed") tags
           + count_tags (starts_with "error") tags)
     + count_tags (is_tag "no_bom") tags
     + count_tags (is_tag "not_text_file") tags
     + count_tags (starts_with "not_utf8") tags)%nat
  /\ (d = true -> count_tags (is_tag "bom_removed") tags = 0%nat
                  /\ count_tags (starts_with "error") tags = 0%nat).
Proof.
  destruct d; unfold remove_report.
  - induction 1 as [|tag tags Ht _ [IH1 IH2]].
    { split; [reflexivity|]. intros _. split; reflexivity. }
    destruct (IH2 eq_refl) as [IHa IHe].
    rewrite !count_tags_cons. cbn [length].
    repeat (apply elem_of_cons in Ht as [->|Ht];
            [tests; split; [lia|intros _; lia]|]).
    now apply elem_of_nil in Ht.
  - induction 1 as [|tag tags Ht _ [IH1 _]].
    { split; [reflexivity|discriminate]. }
    split; [|discriminate].
    rewrite !count_tags_cons. cbn [length].
    destruct Ht as [Ht|[message ->]]; [|tests; lia].
    repeat (apply elem_of_cons in Ht as [->|Ht];
            [tests; lia|]).
    now apply elem_of_nil in Ht.
Qed.

(** X11. The statistics of the add script count the reports made: the
    total is the number of calls of the procedure and every other
    counter is the number of reports passing its test.  In a real run
    the five categories partition the visited files.  In a dry run
    nothing is ever counted as added or as an error, and the files
    reported [dry_run] are counted in the total only. *)
Theorem add_statistics_count_the_reports pf glob a fs :
  exists fs' st tr,
    Utf8PlusBom.main pf glob a fs = (fs', Ok (st, tr))
    /\ st !!! "total_found"%string = length tr
    /\ st !!! "bom_added"%string = count_tags (is_tag "bom_added") tr.*2
    /\ st !!! "already_has_bom"%string
       = count_tags (is_tag "already_has_bom") tr.*2
    /\ st !!! "not_text_file"%string = count_tags (is_tag "not_text_file") tr.*2
    /\ st !!! "not_utf8"%string = count_tags (starts_with "not_utf8") tr.*2
    /\ st !!! "errors"%string = count_tags (starts_with "error") tr.*2
    /\ (Utf8PlusBom.dry_run a = false ->
        st !!! "total_found"%string
        = (st !!! "bom_added"%string + st !!! "already_has_bom"%string
           + st !!! "not_text_file"%string + st !!! "not_utf8"%string
           + st !!! "errors"%string)%nat)
    /\ (Utf8PlusBom.dry_run a = true ->
        st !!! "bom_added"%string = 0%nat /\ st !!! "errors"%string = 0%nat
        /\ st !!! "total_found"%string
           = (count_tags (is_tag "dry_run") tr.*2
              + st !!! "already_has_bom"%string
              + st !!! "not_text_file"%string + st !!! "not_utf8"%string)%nat).
Proof.
  destruct (add_main_walk pf glob a fs) as (fs' & st & tr & Hrun & _).
  exists fs', st, tr. split; [exact Hrun|].
  destruct (add_main_replay pf glob a fs fs' st tr Hrun) as [-> Hrep].
  destruct (add_tally_counts tr.*2 Utf8PlusBom.initial_stats)
    as (H0 & H1 & H2 & H3 & H4 & H5).
  destruct (add_report_partition _ _ Hrep) as [Hlen Hdry].
  assert (Hz : forall k, k ∈ ["total_found"; "bom_added"; "already_has_bom"; "not_text_file";
                        "not_utf8"; "errors"]%string ->
                 Utf8PlusBom.initial_stats !!! k = 0%nat).
  { intros k Hk.
    repeat (apply elem_of_cons in Hk as [->|Hk]; [reflexivity|]).
    now apply elem_of_nil in Hk. }
  rewrite !Hz in H0, H1, H2, H3, H4, H5
    by (repeat first [apply list_elem_of_here | apply list_elem_of_further]).
  rewrite length_fmap in H0, Hlen. cbn [Nat.add] in *.
  repeat (split; [assumption|]). split.
  - intros Hd. rewrite Hd in Hlen. lia.
  - intros Hd. rewrite Hd in Hlen. destruct (Hdry Hd) as [E1 E2]. lia.
Qed.

(** X12. The same for the remove script, with [bom_removed] and
    [no_bom] in place of [bom_added] and [already_has_bom]. *)
Theorem remove_statistics_count_the_reports pf glob a fs :
  exists fs' st tr,
    Utf8MinusBom.main pf glob a fs = (fs', Ok (st, tr))
    /\ st !!! "total_checked"%string = length tr
    /\ st !!! "bom_removed"%string = count_tags (is_tag "bom_removed") tr.*2
    /\ st !!! "no_bom"%string = count_tags (is_tag "no_bom") tr.*2
    /\ st !!! "not_text_file"%string = count_tags (is_tag "not_text_file") tr.*2
    /\ st !!! "not_utf8"%string = count_tags (starts_with "not_utf8") tr.*2
    /\ st !!! "errors"%string = count_tags (starts_with "error") tr.*2
    /\ (Utf8MinusBom.dry_run a = false ->
        st !!! "total_checked"%string
        = (st !!! "bom_removed"%string + st !!! "no_bom"%string
           + st !!! "not_text_file"%string + st !!! "not_utf8"%string
           + st !!! "errors"%string)%nat)
    /\ (Utf8MinusBom.dry_run a = true ->
        st !!! "bom_removed"%string = 0%nat /\ st !!! "errors"%string = 0%nat
        /\ st !!! "total_checked"%string
           = (count_tags (is_tag "dry_run") tr.*2
              + st !!! "no_bom"%string
              + st !!! "not_text_file"%string + st !!! "not_utf8"%string)%nat).
Proof.
  destruct (remove_main_walk pf glob a fs) as (fs' & st & tr & Hrun & _).
  exists fs', st, tr. split; [exact Hrun|].
  destruct (remove_main_replay pf glob a fs fs' st tr Hrun) as [-> Hrep].
  destruct (remove_tally_counts tr.*2 Utf8MinusBom.initial_stats)
    as (H0 & H1 & H2 & H3 & H4 & H5).
  destruct (remove_report_partition _ _ Hrep) as [Hlen Hdry].
  assert (Hz : forall k, k ∈ ["total_checked"; "bom_removed"; "no_bom"; "not_text_file";
                        "not_utf8"; "errors"]%string ->
                 Utf8MinusBom.initial_stats !!! k = 0%nat).
  { intros k Hk.
    repeat (apply elem_of_cons in Hk as [->|Hk]; [reflexivity|]).
    now apply elem_of_nil in Hk. }
  rewrite !Hz in H0, H1, H2, H3, H4, H5
    by (repeat first [apply list_elem_of_here | apply list_elem_of_further]).
  rewrite length_fmap in H0, Hlen. cbn [Nat.add] in *.
  repeat (split; [assumption|]). split.
  - intros Hd. rewrite Hd in Hlen. lia.
  - intros Hd. rewrite Hd in Hlen. destruct (Hdry Hd) as [E1 E2]. lia.
Qed.

Lemma open_read_local p fs fs_r e :
  fs_r !! p = fs !! p ->
  open_read p fs = (fs, Raise e) -> open_read p fs_r = (fs_r, Raise e).
Proof.
  unfold open_read. intros ->.
  destruct (fs !! p) as [[f|]|]; [destruct (readable f)|..];
    intros [= <-]; reflexivity.
Qed.

Section Predictions.
Variable pf : platform.
Variable glob : string -> list path.

Ltac in_list := repeat first [apply list_elem_of_here | apply list_elem_of_further].

(** The reports of the dry and of the real add on two stores holding
    the same file at [p]. *)
Lemma add_pair p v fs fs_r :
  fs_r !! p = fs !! p ->
  exists ok_d t_d fs_r' ok_r t_r,
    add_bom_to_file pf p true v fs = (fs, Ok (ok_d, t_d))
    /\ add_bom_to_file pf p false v fs_r = (fs_r', Ok (ok_r, t_r))
    /\ touches_only p false fs_r fs_r'
    /\ predicts "bom_added" ["already_has_bom"; "not_text_file"; "not_utf8"]
                t_d t_r.
Proof.
  intros Hsame.
  destruct (add_bom_to_file_cases pf p false v fs_r)
    as (fs_r' & ok_r & t_r & Hreal & _ & Ht & _).
  assert (Hgo : forall ok_d t_d ok t,
            add_bom_to_file pf p true v fs = (fs, Ok (ok_d, t_d)) ->
            (exists fs1, add_bom_to_file pf p false v fs_r = (fs1, Ok (ok, t))) ->
            predicts "bom_added" ["already_has_bom"; "not_text_file"; "not_utf8"]
                     t_d t ->
            exists ok_d t_d fs_r' ok_r t_r,
              add_bom_to_file pf p true v fs = (fs, Ok (ok_d, t_d))
              /\ add_bom_to_file pf p false v fs_r = (fs_r', Ok (ok_r, t_r))
              /\ touches_only p false fs_r fs_r'
              /\ predicts "bom_added"
                   ["already_has_bom"; "not_text_file"; "not_utf8"] t_d t_r).
  { intros ok_d t_d ok t Hd [fs1 Hr] HP. rewrite Hreal in Hr.
    injection Hr as <- <- <-. exists ok_d, t_d, fs_r', ok_r, t_r. auto. }
  clear Hreal Ht.
  file_cases p fs;
    try (assert (Hp' : fs_r !! p = Some (RegularFile f))
           by (rewrite Hsame; exact Hp)).
  - eapply Hgo; [now apply add_already_has_bom with f
                |eexists; now apply add_already_has_bom with f|].
    right. split; [in_list|reflexivity].
  - eapply Hgo; [now apply add_already_has_bom with f
                |eexists; now apply add_already_has_bom with f|].
    right. split; [in_list|reflexivity].
  - eapply Hgo; [now apply add_not_text_file with f
                |eexists; now apply add_not_text_file with f|].
    right. split; [in_list|reflexivity].
  - destruct (added_is_Some pf _ _ Hd) as [bs' Hbs'].
    eapply Hgo; [now apply add_dry_run with f s
                |eexists; eapply add_bom_added; eassumption|].
    left. auto.
  - eapply Hgo; [now apply add_dry_run with f s
                |eexists; now apply add_unwritable with f s|].
    left. eauto.
  - eapply Hgo; [now apply add_not_utf8 with f
                |eexists; now apply add_not_utf8 with f|].
    right. split; [in_list|reflexivity].
  - eapply Hgo; [now apply add_unreadable with e
                |eexists; apply add_unreadable with e;
                 now apply open_read_local with fs|].
    right. split; [in_list|reflexivity].
Qed.

(** The same for remove. *)
Lemma remove_pair p v fs fs_r :
  fs_r !! p = fs !! p ->
  exists ok_d t_d fs_r' ok_r t_r,
    remove_bom_from_file pf p true v fs = (fs, Ok (ok_d, t_d))
    /\ remove_bom_from_file pf p false v fs_r = (fs_r', Ok (ok_r, t_r))
    /\ touches_only p false fs_r fs_r'
    /\ predicts "bom_removed" ["no_bom"; "not_text_file"; "not_utf8"]
                t_d t_r.
Proof.
  intros Hsame.
  destruct (remove_bom_from_file_cases pf p false v fs_r)
    as (fs_r' & ok_r & t_r & Hreal & _ & Ht & _).
  assert (Hgo : forall ok_d t_d ok t,
            remove_bom_from_file pf p true v fs = (fs, Ok (ok_d, t_d)) ->
            (exists fs1, remove_bom_from_file pf p false v fs_r = (fs1, Ok (ok, t))) ->
            predicts "bom_removed" ["no_bom"; "not_text_file"; "not_utf8"]
                     t_d t ->
            exists ok_d t_d fs_r' ok_r t_r,
              remove_bom_from_file pf p true v fs = (fs, Ok (ok_d, t_d))
              /\ remove_bom_from_file pf p false v fs_r = (fs_r', Ok (ok_r, t_r))
              /\ touches_only p false fs_r fs_r'
              /\ predicts "bom_removed"
                   ["no_bom"; "not_text_file"; "not_utf8"] t_d t_r).
  { intros ok_d t_d ok t Hd [fs1 Hr] HP. rewrite Hreal in Hr.
    injection Hr as <- <- <-. exists ok_d, t_d, fs_r', ok_r, t_r. auto. }
  clear Hreal Ht.
  destruct (open_read_cases p fs) as [(f & Hp & Hr & _)|(e & He & _)].
  2:{ eapply Hgo; [now apply remove_unreadable with e
                  |eexists; apply remove_unreadable with e;
                   now apply open_read_local with fs|].
      right. split; [in_list|reflexivity]. }
  assert (Hp' : fs_r !! p = Some (RegularFile f)) by (rewrite Hsame; exact Hp).
  destruct (decide (take 3 (content f) = BOM_UTF8)) as [Hb|Hb].
  2:{ eapply Hgo; [now apply remove_no_bom with f
                  |eexists; now apply remove_no_bom with f|].
      right. split; [in_list|reflexivity]. }
  destruct (decide (x00 ∈ take 1024 (content f))) as [Hz|Hz].
  { eapply Hgo; [now apply remove_not_text_file with f
                |eexists; now apply remove_not_text_file with f|].
    right. split; [in_list|reflexivity]. }
  destruct (utf_8_sig_decode (content f)) as [s|] eqn:Hd.
  2:{ eapply Hgo; [now apply remove_not_utf8 with f
                  |eexists; now apply remove_not_utf8 with f|].
      right. split; [in_list|reflexivity]. }
  destruct (writable f) eqn:Hw.
  - destruct (removed_is_Some pf _ _ Hd) as [bs' Hbs'].
    eapply Hgo; [now apply remove_dry_run with f s
                |eexists; eapply remove_bom_removed; eassumption|].
    left. auto.
  - eapply Hgo; [now apply remove_dry_run with f s
                |eexists; now apply remove_unwritable with f s|].
    left. eauto.
Qed.

End Predictions.

(** Counting along two related lists of reports. *)
Lemma add_predicts_counts (new_d new_r : trace) :
  Forall2 (fun e_d e_r =>
             e_d.1 = e_r.1
             /\ predicts "bom_added"
                  ["already_has_bom"; "not_text_file"; "not_utf8"] e_d.2 e_r.2)
          new_d new_r ->
  count_tags (is_tag "dry_run") new_d.*2
  = (count_tags (is_tag "bom_added") new_r.*2
     + count_tags (starts_with "error") new_r.*2)%nat.
Proof.
  induction 1 as [|[p_d t_d] [p_r t_r] new_d new_r [_ HP] _ IH]; [reflexivity|].
  cbn [fmap list_fmap snd] in *. rewrite !count_tags_cons, IH.
  destruct HP as [[-> [->|[message ->]]]|[Hin ->]]; [tests; lia..|].
  repeat (apply elem_of_cons in Hin as [->|Hin]; [tests; lia|]).
  now apply elem_of_nil in Hin.
Qed.

Lemma remove_predicts_counts (new_d new_r : trace) :
  Forall2 (fun e_d e_r =>
             e_d.1 = e_r.1
             /\ predicts "bom_removed"
                  ["no_bom"; "not_text_file"; "not_utf8"] e_d.2 e_r.2)
          new_d new_r ->
  count_tags (is_tag "dry_run") new_d.*2
  = (count_tags (is_tag "bom_removed") new_r.*2
     + count_tags (starts_with "error") new_r.*2)%nat.
Proof.
  induction 1 as [|[p_d t_d] [p_r t_r] new_d new_r [_ HP] _ IH]; [reflexivity|].
  cbn [fmap list_fmap snd] in *. rewrite !count_tags_cons, IH.
  destruct HP as [[-> [->|[message ->]]]|[Hin ->]]; [tests; lia..|].
  repeat (apply elem_of_cons in Hin as [->|Hin]; [tests; lia|]).
  now apply elem_of_nil in Hin.
Qed.

Section LinkedWalk.
(** The dry and the real walk side by side on a tree with links: the
    two stores agree on the files the names still to come lead to, and
    no two of these names lead to one file. *)
Variable file_of : path -> path.
Variable proc_d proc_r : path -> io (bool * string).
Variable key : string.
Variable upd : gmap string nat -> string -> gmap string nat.
Variable excl : list string.
Variable R : string -> string -> Prop.

Hypothesis pair : forall p fs fs_r,
  fs_r !! p = fs !! p ->
  exists ok_d t_d fs_r' ok_r t_r,
    proc_d p fs = (fs, Ok (ok_d, t_d))
    /\ proc_r p fs_r = (fs_r', Ok (ok_r, t_r))
    /\ touches_only p false fs_r fs_r'
    /\ R t_d t_r.

Lemma linked_step_pair acc_d acc_r x fs fs_r :
  fs_r !! file_of x = fs !! file_of x ->
  (Links.step file_of proc_d key upd excl acc_d x fs = (fs, Ok acc_d)
   /\ Links.step file_of proc_r key upd excl acc_r x fs_r = (fs_r, Ok acc_r))
  \/ (exists t_d fs_r' t_r,
        Links.step file_of proc_d key upd excl acc_d x fs
        = (fs, Ok (upd (incr key acc_d.1) t_d, acc_d.2 ++ [(x, t_d)]))
        /\ Links.step file_of proc_r key upd excl acc_r x fs_r
           = (fs_r', Ok (upd (incr key acc_r.1) t_r, acc_r.2 ++ [(x, t_r)]))
        /\ touches_only (file_of x) false fs_r fs_r'
        /\ R t_d t_r).
Proof.
  intros Hlook.
  destruct (pair (file_of x) fs fs_r Hlook)
    as (ok_d & t_d & fs_r1 & ok_r & t_r & Hd & Hr & Ht & HR).
  unfold Links.step, bind, is_dir. rewrite Hlook.
  destruct (fs !! file_of x) as [[f|]|]; [|now left|];
    (destruct (in_excluded_dir excl x); [now left|right]);
    exists t_d, fs_r1, t_r; rewrite Hd, Hr; auto.
Qed.

Lemma linked_walk_pair xs :
  NoDup (file_of <$> xs) ->
  forall acc_d acc_r fs fs_r,
    (forall q, q ∈ xs -> fs_r !! file_of q = fs !! file_of q) ->
    exists new_d fs_r' new_r,
      for_each (Links.step file_of proc_d key upd excl) acc_d xs fs
      = (fs, Ok (tally key upd new_d.*2 acc_d.1, acc_d.2 ++ new_d))
      /\ for_each (Links.step file_of proc_r key upd excl) acc_r xs fs_r
         = (fs_r', Ok (tally key upd new_r.*2 acc_r.1, acc_r.2 ++ new_r))
      /\ Forall2 (fun e_d e_r => e_d.1 = e_r.1 /\ R e_d.2 e_r.2) new_d new_r.
Proof.
  induction xs as [|x xs IH]; intros Hnd acc_d acc_r fs fs_r Hsame.
  { exists [], fs_r, []. cbn [for_each]. unfold ret, tally.
    rewrite !app_nil_r. destruct acc_d, acc_r. repeat split. constructor. }
  rewrite fmap_cons in Hnd. apply NoDup_cons in Hnd as [Hx Hnd].
  cbn [for_each]. unfold bind.
  destruct (linked_step_pair acc_d acc_r x fs fs_r
              (Hsame x (list_elem_of_here _ _)))
    as [[-> ->]|(t_d & fs_r1 & t_r & -> & -> & Ht & HR)].
  { apply IH; [exact Hnd|]. intros q Hq. apply Hsame. now right. }
  destruct (IH Hnd
               (upd (incr key acc_d.1) t_d, acc_d.2 ++ [(x, t_d)])
               (upd (incr key acc_r.1) t_r, acc_r.2 ++ [(x, t_r)])
               fs fs_r1)
    as (new_d & fs_r' & new_r & -> & -> & HF).
  { intros q Hq. rewrite <- (Hsame q) by now right.
    apply touches_only_frame with (file_of x) false; [exact Ht|].
    intros Heq. apply Hx. rewrite <- Heq. now apply list_elem_of_fmap_2. }
  cbn [fst snd].
  exists ((x, t_d) :: new_d), fs_r', ((x, t_r) :: new_r).
  rewrite <- !app_assoc.
  split; [reflexivity|]. split; [reflexivity|]. constructor; auto.
Qed.

End LinkedWalk.

(** On a tree without links the walkers of [Links] are the two [main]. *)
Lemma links_add_main_without_links pf glob a :
  Links.add_main (fun p => p) pf glob a = Utf8PlusBom.main pf glob a.
Proof. reflexivity. Qed.

Lemma links_remove_main_without_links pf glob a :
  Links.remove_main (fun p => p) pf glob a = Utf8MinusBom.main pf glob a.
Proof. reflexivity. Qed.

(** X13. When no file is enumerated twice, under one name or under two
    names that lead to it, the dry run of the add script announces what
    the real run does: both visit the same names in the same order; a
    file reported [dry_run] is one the real run reports [bom_added] or
    as an error; every other file gets the same report in both runs.
    So the number of [dry_run] reports equals the real run's
    [bom_added] plus [errors]. *)
Theorem add_dry_run_announces_the_real_run file_of pf glob a fs :
  NoDup (file_of <$> add_candidates glob a) ->
  exists st_d tr_d fs_r st_r tr_r,
    Links.add_main file_of pf glob
      (Utf8PlusBom.Args true (Utf8PlusBom.verbose a) (Utf8PlusBom.extensions a)
                        (Utf8PlusBom.exclude_dirs a)) fs
    = (fs, Ok (st_d, tr_d))
    /\ Links.add_main file_of pf glob
         (Utf8PlusBom.Args false (Utf8PlusBom.verbose a)
                           (Utf8PlusBom.extensions a)
                           (Utf8PlusBom.exclude_dirs a)) fs
       = (fs_r, Ok (st_r, tr_r))
    /\ Forall2 (fun e_d e_r =>
                  e_d.1 = e_r.1
                  /\ predicts "bom_added"
                       ["already_has_bom"; "not_text_file"; "not_utf8"]
                       e_d.2 e_r.2)
               tr_d tr_r
    /\ count_tags (is_tag "dry_run") tr_d.*2
       = (st_r !!! "bom_added"%string + st_r !!! "errors"%string)%nat.
Proof.
  intros Hnd.
  destruct (linked_walk_pair file_of
              (fun p => add_bom_to_file pf p true (Utf8PlusBom.verbose a))
              (fun p => add_bom_to_file pf p false (Utf8PlusBom.verbose a))
              "total_found" Utf8PlusBom.update_stats (Utf8PlusBom.exclude_dirs a)
              (predicts "bom_added"
                        ["already_has_bom"; "not_text_file"; "not_utf8"])
              (fun p fs fs_r H => add_pair pf p (Utf8PlusBom.verbose a) fs fs_r H)
              (add_candidates glob a) Hnd
              (Utf8PlusBom.initial_stats, []) (Utf8PlusBom.initial_stats, [])
              fs fs (fun q _ => eq_refl))
    as (tr_d & fs_r & tr_r & Hd & Hr & HF).
  cbn [fst snd app] in Hd, Hr.
  eexists _, tr_d, fs_r, _, tr_r.
  split; [unfold Links.add_main; rewrite for_each_flat_map; exact Hd|].
  split; [unfold Links.add_main; rewrite for_each_flat_map; exact Hr|].
  split; [exact HF|].
  destruct (add_tally_counts tr_r.*2 Utf8PlusBom.initial_stats)
    as (_ & H1 & _ & _ & _ & H5).
  rewrite H1, H5. now apply add_predicts_counts.
Qed.

Lemma add_dry_run_announces_the_real_run_witness :
  exists st_d tr_d fs_r st_r tr_r,
    Links.add_main Examples.file_of_latest Posix Examples.glob_md
                   (Examples.add_args true) (Examples.tree_venv Examples.hello)
    = (Examples.tree_venv Examples.hello, Ok (st_d, tr_d))
    /\ Links.add_main Examples.file_of_latest Posix Examples.glob_md
                      (Examples.add_args false)
                      (Examples.tree_venv Examples.hello)
       = (fs_r, Ok (st_r, tr_r))
    /\ Forall2 (fun e_d e_r =>
                  e_d.1 = e_r.1
                  /\ predicts "bom_added"
                       ["already_has_bom"; "not_text_file"; "not_utf8"]
                       e_d.2 e_r.2)
               tr_d tr_r
    /\ count_tags (is_tag "dry_run") tr_d.*2
       = (st_r !!! "bom_added"%string + st_r !!! "errors"%string)%nat.
Proof.
  apply (add_dry_run_announces_the_real_run Examples.file_of_latest Posix
           Examples.glob_md (Examples.add_args false)
           (Examples.tree_venv Examples.hello)).
  compute_done.
Defined.

(** X14. The same for the remove script: with no file enumerated twice,
    the number of [dry_run] reports of the dry run equals the real
    run's [bom_removed] plus [errors], file by file. *)
Theorem remove_dry_run_announces_the_real_run file_of pf glob a fs :
  NoDup (file_of <$> remove_candidates glob a) ->
  exists st_d tr_d fs_r st_r tr_r,
    Links.remove_main file_of pf glob
      (Utf8MinusBom.Args true (Utf8MinusBom.verbose a)
                         (Utf8MinusBom.exclude_dirs a)
                         (Utf8MinusBom.extensions a)) fs
    = (fs, Ok (st_d, tr_d))
    /\ Links.remove_main file_of pf glob
         (Utf8MinusBom.Args false (Utf8MinusBom.verbose a)
                            (Utf8MinusBom.exclude_dirs a)
                            (Utf8MinusBom.extensions a)) fs
       = (fs_r, Ok (st_r, tr_r))
    /\ Forall2 (fun e_d e_r =>
                  e_d.1 = e_r.1
                  /\ predicts "bom_removed"
                       ["no_bom"; "not_text_file"; "not_utf8"] e_d.2 e_r.2)
               tr_d tr_r
    /\ count_tags (is_tag "dry_run") tr_d.*2
       = (st_r !!! "bom_removed"%string + st_r !!! "errors"%string)%nat.
Proof.
  intros Hnd.
  destruct (linked_walk_pair file_of
              (fun p => remove_bom_from_file pf p true (Utf8MinusBom.verbose a))
              (fun p => remove_bom_from_file pf p false (Utf8MinusBom.verbose a))
              "total_checked" Utf8MinusBom.update_stats
              (Utf8MinusBom.exclude_dirs a)
              (predicts "bom_removed" ["no_bom"; "not_text_file"; "not_utf8"])
              (fun p fs fs_r H =>
                 remove_pair pf p (Utf8MinusBom.verbose a) fs fs_r H)
              (remove_candidates glob a) Hnd
              (Utf8MinusBom.initial_stats, []) (Utf8MinusBom.initial_stats, [])
              fs fs (fun q _ => eq_refl))
    as (tr_d & fs_r & tr_r & Hd & Hr & HF).
  cbn [fst snd app] in Hd, Hr.
  eexists _, tr_d, fs_r, _, tr_r.
  split; [unfold Links.remove_main; rewrite for_each_flat_map; exact Hd|].
  split; [unfold Links.remove_main; rewrite for_each_flat_map; exact Hr|].
  split; [exact HF|].
  destruct (remove_tally_counts tr_r.*2 Utf8MinusBom.initial_stats)
    as (_ & H1 & _ & _ & _ & H5).
  rewrite H1, H5. now apply remove_predicts_counts.
Qed.

Lemma remove_dry_run_announces_the_real_run_witness :
  exists st_d tr_d fs_r st_r tr_r,
    Links.remove_main Examples.file_of_latest Posix Examples.glob_md
                      (Examples.remove_args true)
                      (Examples.tree_venv (BOM_UTF8 ++ Examples.hello))
    = (Examples.tree_venv (BOM_UTF8 ++ Examples.hello), Ok (st_d, tr_d))
    /\ Links.remove_main Examples.file_of_latest Posix Examples.glob_md
                         (Examples.remove_args false)
                         (Examples.tree_venv (BOM_UTF8 ++ Examples.hello))
       = (fs_r, Ok (st_r, tr_r))
    /\ Forall2 (fun e_d e_r =>
                  e_d.1 = e_r.1
                  /\ predicts "bom_removed"
                       ["no_bom"; "not_text_file"; "not_utf8"] e_d.2 e_r.2)
               tr_d tr_r
    /\ count_tags (is_tag "dry_run") tr_d.*2
       = (st_r !!! "bom_removed"%string + st_r !!! "errors"%string)%nat.
Proof.
  apply (remove_dry_run_announces_the_real_run Examples.file_of_latest Posix
           Examples.glob_md (Examples.remove_args false)
           (Examples.tree_venv (BOM_UTF8 ++ Examples.hello))).
  compute_done.
Defined.

(** The condition is needed: when [latest.md] is a link to [readme.md]
    and both are enumerated, the dry run announces two rewrites, while
    the real run rewrites the file once and then finds the BOM. *)
Example a_linked_file_is_announced_twice :
  Links.add_main Examples.file_of_latest Posix Examples.glob_latest
                 (Examples.add_args true) (Examples.tree Examples.hello)
  = (Examples.tree Examples.hello,
     Ok (<["total_found"%string := 2%nat]> Utf8PlusBom.initial_stats,
         [(Examples.latest, "dry_run"%string);
          (Examples.readme, "dry_run"%string)]))
  /\ Links.add_main Examples.file_of_latest Posix Examples.glob_latest
                    (Examples.add_args false) (Examples.tree Examples.hello)
     = (Examples.tree (BOM_UTF8 ++ Examples.hello),
        Ok (<["already_has_bom"%string := 1%nat]>
              (<["bom_added"%string := 1%nat]>
                 (<["total_found"%string := 2%nat]> Utf8PlusBom.initial_stats)),
            [(Examples.latest, "bom_added"%string);
             (Examples.readme, "already_has_bom"%string)])).
Proof.
  split; compute_done.
Qed.

Section Invariants.
(** A property of the store kept by the per-file procedure is kept by
    the whole walk. *)
Variable proc : path -> io (bool * string).
Variable key : string.
Variable upd : gmap string nat -> string -> gmap string nat.
Variable excl : list string.
Variable I : fsys -> Prop.

Hypothesis proc_inv : forall p fs, I fs -> I (proc p fs).1.

Lemma step_inv acc x fs : I fs -> I (step proc key upd excl acc x fs).1.
Proof.
  intros HI. specialize (proc_inv x fs HI). unfold step, bind, is_dir.
  destruct (fs !! x) as [[f|]|]; [|exact HI|];
    (destruct (in_excluded_dir excl x); [exact HI|]);
    destruct (proc x fs) as [fs1 [r|e]]; exact proc_inv.
Qed.

Lemma walk_inv xs : forall acc fs,
  I fs -> I (for_each (step proc key upd excl) acc xs fs).1.
Proof.
  induction xs as [|x xs IH]; intros acc fs HI; [exact HI|].
  cbn [for_each]. unfold bind.
  pose proof (step_inv acc x fs HI) as H1.
  destruct (step proc key upd excl acc x fs) as [fs1 [acc1|e]]; [|exact H1].
  now apply IH.
Qed.

End Invariants.

Lemma add_keeps_shape pf p d v fs q :
  shape ((add_bom_to_file pf p d v fs).1 !! q) = shape (fs !! q).
Proof.
  destruct (add_outcomes pf p v fs)
    as [(f & s & bs' & Hp & Hr & Hw & _ & _ & _ & _ & Hreal & Hdry)
       |[(f & s & _ & _ & _ & _ & _ & _ & Hreal & Hdry)
        |(r & _ & Hall)]].
  - destruct d; [now rewrite Hdry|]. rewrite Hreal. cbn [fst].
    destruct (decide (p = q)) as [<-|Hq].
    + rewrite lookup_insert_eq, Hp. cbn. now rewrite Hr, Hw.
    + now rewrite lookup_insert_ne.
  - destruct d; [now rewrite Hdry|now rewrite Hreal].
  - now rewrite Hall.
Qed.

Lemma remove_keeps_shape pf p d v fs q :
  shape ((remove_bom_from_file pf p d v fs).1 !! q) = shape (fs !! q).
Proof.
  destruct (remove_outcomes pf p v fs)
    as [(f & s & bs' & Hp & Hr & Hw & _ & _ & _ & _ & Hreal & Hdry)
       |[(f & s & _ & _ & _ & _ & _ & _ & Hreal & Hdry)
        |(r & _ & Hall)]].
  - destruct d; [now rewrite Hdry|]. rewrite Hreal. cbn [fst].
    destruct (decide (p = q)) as [<-|Hq].
    + rewrite lookup_insert_eq, Hp. cbn. now rewrite Hr, Hw.
    + now rewrite lookup_insert_ne.
  - destruct d; [now rewrite Hdry|now rewrite Hreal].
  - now rewrite Hall.
Qed.

(** X15. Neither script creates or deletes an entry, turns a file into
    a directory or a directory into a file, or changes permissions:
    after [main], every path is absent, a directory, or a regular file
    with the same permissions exactly as before.  Only the contents of
    regular files can differ. *)
Theorem main_keeps_the_shape_of_the_tree pf glob :
  (forall a fs q,
      shape ((Utf8PlusBom.main pf glob a fs).1 !! q) = shape (fs !! q))
  /\ (forall a fs q,
        shape ((Utf8MinusBom.main pf glob a fs).1 !! q) = shape (fs !! q)).
Proof.
  split; intros a fs q.
  - unfold Utf8PlusBom.main. rewrite for_each_flat_map, add_visit_step.
    apply (walk_inv _ _ _ _ (fun fs' => shape (fs' !! q) = shape (fs !! q)));
      [|reflexivity].
    intros p fs0 H. now rewrite add_keeps_shape.
  - unfold Utf8MinusBom.main. rewrite for_each_flat_map, remove_visit_step.
    apply (walk_inv _ _ _ _ (fun fs' => shape (fs' !! q) = shape (fs !! q)));
      [|reflexivity].
    intros p fs0 H. now rewrite remove_keeps_shape.
Qed.

(** X16. A directory returned by the enumeration (a directory whose
    name matches the pattern) is skipped by both scripts: it is never
    passed to the per-file procedure, and it is still a directory
    afterwards. *)
Theorem directories_are_never_processed pf glob p fs
    (a : Utf8PlusBom.args) (a' : Utf8MinusBom.args) :
  fs !! p = Some Directory ->
  (exists fs' st tr,
      Utf8PlusBom.main pf glob a fs = (fs', Ok (st, tr))
      /\ (p ∉ tr.*1) /\ st !!! "total_found"%string = length tr
      /\ fs' !! p = Some Directory)
  /\ (exists fs' st tr,
        Utf8MinusBom.main pf glob a' fs = (fs', Ok (st, tr))
        /\ (p ∉ tr.*1) /\ st !!! "total_checked"%string = length tr
        /\ fs' !! p = Some Directory).
Proof.
  intros Hp.
  assert (Hout : forall excl cands, p ∉ List.filter (survives excl fs) cands).
  { intros excl cands Hin.
    apply list_elem_of_In, filter_In in Hin as [_ Hs].
    unfold survives in Hs. rewrite Hp in Hs. discriminate. }
  split.
  - destruct (add_main_walk pf glob a fs)
      as (fs' & st & tr & Hrun & Htr & Hst & Hfr & _).
    exists fs', st, tr. rewrite Htr in *. repeat split; auto.
    rewrite <- Hp. auto.
  - destruct (remove_main_walk pf glob a' fs)
      as (fs' & st & tr & Hrun & Htr & Hst & Hfr & _).
    exists fs', st, tr. rewrite Htr in *. repeat split; auto.
    rewrite <- Hp. auto.
Qed.

Lemma directories_are_never_processed_witness :
  let fs := <[ ["/"; "w"; "venv"]%string := Directory ]>
              (Examples.tree_venv Examples.hello) in
  (exists fs' st tr,
      Utf8PlusBom.main Posix Examples.glob_md (Examples.add_args false) fs
      = (fs', Ok (st, tr))
      /\ (["/"; "w"; "venv"]%string ∉ tr.*1)
      /\ st !!! "total_found"%string = length tr
      /\ fs' !! ["/"; "w"; "venv"]%string = Some Directory)
  /\ (exists fs' st tr,
        Utf8MinusBom.main Posix Examples.glob_md
          (Utf8MinusBom.Args false false [] None) fs
        = (fs', Ok (st, tr))
        /\ (["/"; "w"; "venv"]%string ∉ tr.*1)
        /\ st !!! "total_checked"%string = length tr
        /\ fs' !! ["/"; "w"; "venv"]%string = Some Directory).
Proof.
  apply (directories_are_never_processed Posix Examples.glob_md
           ["/"; "w"; "venv"]%string
           (<[ ["/"; "w"; "venv"]%string := Directory ]>
              (Examples.tree_venv Examples.hello))
           (Examples.add_args false) (Utf8MinusBom.Args false false [] None)).
  vm_compute; reflexivity.
Defined.

(* ===================================================================== *)
(** ** What a rewrite leaves in the file *)
(* ===================================================================== *)

Section Rewritten.

Lemma to_N_byte_of_N n : n < 256 -> Byte.to_N (byte_of_N n) = n.
Proof.
  intros Hn. unfold byte_of_N.
  destruct (Byte.of_N n) as [b|] eqn:E.
  - now apply Byte.to_of_N.
  - apply Byte.of_N_None_iff in E. lia.
Qed.

(** Decoding undoes encoding, one code point at a time. *)
Lemma encode_char_decodes c cb r s :
  utf_8_encode_char c = Some cb -> decodes r s -> decodes (cb ++ r) (c :: s).
Proof.
  unfold utf_8_encode_char. intros He D.
  destruct (N.ltb_spec c 0x80).
  { injection He as <-. cbn [app].
    replace (c :: s) with (Byte.to_N (byte_of_N c) :: s)
      by (now rewrite to_N_byte_of_N by lia).
    constructor; [rewrite to_N_byte_of_N; lia|exact D]. }
  destruct (N.ltb_spec c 0x800).
  { injection He as <-. cbn [app].
    set (b0 := byte_of_N (0xC0 + c / 64)). set (b1 := byte_of_N (0x80 + c mod 64)).
    assert (E0 : Byte.to_N b0 = 0xC0 + c / 64) by (apply to_N_byte_of_N; lia).
    assert (E1 : Byte.to_N b1 = 0x80 + c mod 64) by (apply to_N_byte_of_N; lia).
    replace (c :: s)
      with ((Byte.to_N b0 - 0xC0) * 64 + (Byte.to_N b1 - 0x80) :: s)
      by (f_equal; rewrite E0, E1; lia).
    constructor; [rewrite E0; lia|rewrite E1; lia|exact D]. }
  destruct (N.ltb_spec c 0x10000).
  { destruct (in_range 0xD800 0xDFFF c) eqn:S; [discriminate|].
    assert (Hs : ~ (0xD800 <= c <= 0xDFFF))
      by (intros Hc; apply in_range_spec in Hc; congruence).
    injection He as <-. cbn [app].
    set (b0 := byte_of_N (0xE0 + c / 4096)).
    set (b1 := byte_of_N (0x80 + (c / 64) mod 64)).
    set (b2 := byte_of_N (0x80 + c mod 64)).
    assert (E0 : Byte.to_N b0 = 0xE0 + c / 4096) by (apply to_N_byte_of_N; lia).
    assert (E1 : Byte.to_N b1 = 0x80 + (c / 64) mod 64)
      by (apply to_N_byte_of_N; lia).
    assert (E2 : Byte.to_N b2 = 0x80 + c mod 64) by (apply to_N_byte_of_N; lia).
    replace (c :: s)
      with ((Byte.to_N b0 - 0xE0) * 4096 + (Byte.to_N b1 - 0x80) * 64
            + (Byte.to_N b2 - 0x80) :: s)
      by (f_equal; rewrite E0, E1, E2; lia).
    constructor; [rewrite E0; lia| |rewrite E2; lia|exact D].
    rewrite E0, E1. unfold second3_lo, second3_hi.
    destruct (N.eqb_spec (0xE0 + c / 4096) 0xE0),
             (N.eqb_spec (0xE0 + c / 4096) 0xED); lia. }
  destruct (N.ltb_spec c 0x110000); [|discriminate].
  injection He as <-. cbn [app].
  set (b0 := byte_of_N (0xF0 + c / 262144)).
  set (b1 := byte_of_N (0x80 + (c / 4096) mod 64)).
  set (b2 := byte_of_N (0x80 + (c / 64) mod 64)).
  set (b3 := byte_of_N (0x80 + c mod 64)).
  assert (E0 : Byte.to_N b0 = 0xF0 + c / 262144) by (apply to_N_byte_of_N; lia).
  assert (E1 : Byte.to_N b1 = 0x80 + (c / 4096) mod 64)
    by (apply to_N_byte_of_N; lia).
  assert (E2 : Byte.to_N b2 = 0x80 + (c / 64) mod 64)
    by (apply to_N_byte_of_N; lia).
  assert (E3 : Byte.to_N b3 = 0x80 + c mod 64) by (apply to_N_byte_of_N; lia).
  replace (c :: s)
    with ((Byte.to_N b0 - 0xF0) * 262144 + (Byte.to_N b1 - 0x80) * 4096
          + (Byte.to_N b2 - 0x80) * 64 + (Byte.to_N b3 - 0x80) :: s)
    by (f_equal; rewrite E0, E1, E2, E3; lia).
  constructor; [rewrite E0; lia| |rewrite E2; lia|rewrite E3; lia|exact D].
  rewrite E0, E1. unfold second4_lo, second4_hi.
  destruct (N.eqb_spec (0xF0 + c / 262144) 0xF0),
           (N.eqb_spec (0xF0 + c / 262144) 0xF4); lia.
Qed.

Lemma encode_decodes s : forall bs, utf_8_encode s = Some bs -> decodes bs s.
Proof.
  induction s as [|c s IH]; intros bs.
  { intros [= <-]. constructor. }
  cbn [utf_8_encode].
  destruct (utf_8_encode_char c) as [cb|] eqn:Ec; [|discriminate].
  destruct (utf_8_encode s) as [r|]; [|discriminate].
  intros [= <-]. apply encode_char_decodes; auto.
Qed.


(** The bytes of a code point other than CR and LF are not line
    endings. *)
Lemma encode_char_native pf c cb rest :
  c <> 10 -> c <> 13 -> utf_8_encode_char c = Some cb ->
  native_newlines pf (cb ++ rest) = native_newlines pf rest.
Proof.
  unfold utf_8_encode_char. intros H10 H13 He.
  destruct (N.ltb_spec c 0x80).
  { injection He as <-. cbn [app native_newlines].
    rewrite !bool_decide_eq_false_2; [reflexivity|..]; intros E;
      apply (f_equal Byte.to_N) in E; rewrite to_N_byte_of_N in E by lia;
      cbn in E; lia. }
  destruct (N.ltb_spec c 0x800).
  { injection He as <-. cbn [app].
    rewrite !native_newlines_high; [reflexivity|..];
      rewrite to_N_byte_of_N; lia. }
  destruct (N.ltb_spec c 0x10000).
  { destruct (in_range 0xD800 0xDFFF c); [discriminate|].
    injection He as <-. cbn [app].
    rewrite !native_newlines_high; [reflexivity|..];
      rewrite to_N_byte_of_N; lia. }
  destruct (N.ltb_spec c 0x110000); [|discriminate].
  injection He as <-. cbn [app].
  rewrite !native_newlines_high; [reflexivity|..];
    rewrite to_N_byte_of_N; lia.
Qed.

Lemma universal_newlines_no_cr_len (n : nat) :
  forall s, (length s <= n)%nat -> 13 ∉ universal_newlines s.
Proof.
  induction n as [|n IH]; intros s Hlen.
  { destruct s; [apply not_elem_of_nil|cbn in Hlen; lia]. }
  destruct s as [|c r]; [apply not_elem_of_nil|].
  cbn [universal_newlines]. cbn [length] in Hlen.
  destruct (N.eqb_spec c 13).
  - apply not_elem_of_cons. split; [discriminate|].
    destruct r as [|c' r']; [apply not_elem_of_nil|]. cbn [length] in Hlen.
    destruct (c' =? 10); apply IH; cbn [length]; lia.
  - apply not_elem_of_cons. split; [congruence|]. apply IH. lia.
Qed.

(** What is written has native line endings. *)
Lemma written_native pf u : forall bs,
  13 ∉ u -> utf_8_encode (write_newlines pf u) = Some bs ->
  native_newlines pf bs = true.
Proof.
  induction u as [|c u IH]; intros bs Hcr.
  { intros [= <-]. reflexivity. }
  apply not_elem_of_cons in Hcr as [Hc Hu].
  unfold write_newlines in *. cbn [flat_map].
  destruct (N.eqb_spec c 10) as [->|H10].
  - destruct pf; cbn [linesep app utf_8_encode];
      destruct (utf_8_encode (flat_map _ u)) as [r|] eqn:Er;
      try discriminate.
    + change (utf_8_encode_char 10) with (Some [x0a]). intros [= <-].
      cbn [app native_newlines].
      rewrite bool_decide_eq_false_2 by discriminate.
      rewrite bool_decide_eq_true_2 by reflexivity. now apply IH.
    + change (utf_8_encode_char 13) with (Some [x0d]).
      change (utf_8_encode_char 10) with (Some [x0a]). intros [= <-].
      cbn [app native_newlines].
      rewrite !bool_decide_eq_true_2 by reflexivity. cbn [andb]. now apply IH.
  - cbn [app utf_8_encode].
    destruct (utf_8_encode_char c) as [cb|] eqn:Ec; [|discriminate].
    destruct (utf_8_encode (flat_map _ u)) as [r|] eqn:Er; [|discriminate].
    intros [= <-]. rewrite (encode_char_native pf c cb r) by auto.
    now apply IH.
Qed.

Lemma rewritten_native pf s bs :
  utf_8_encode (write_newlines pf (universal_newlines s)) = Some bs ->
  native_newlines pf bs = true.
Proof.
  apply written_native. now apply (universal_newlines_no_cr_len (length s)).
Qed.

(** Newline translation does not bring U+FEFF to the front. *)
Lemma rewritten_head pf s t :
  write_newlines pf (universal_newlines s) = 0xFEFF :: t ->
  exists s', s = 0xFEFF :: s'.
Proof.
  destruct s as [|c s']; [discriminate|]. cbn [universal_newlines].
  destruct (N.eqb_spec c 13) as [->|H13].
  - unfold write_newlines. cbn [flat_map N.eqb Pos.eqb]. destruct pf; discriminate.
  - unfold write_newlines. cbn [flat_map].
    destruct (N.eqb_spec c 10) as [->|H10]; [destruct pf; discriminate|].
    intros [= -> _]. eauto.
Qed.

(** A well-formed byte string that begins with the BOM decodes to a
    text that begins with U+FEFF. *)
Lemma decodes_BOM t s :
  decodes (BOM_UTF8 ++ t) s -> exists s', s = 0xFEFF :: s' /\ decodes t s'.
Proof.
  intros D.
  inversion D as [|b0 r s' H0 D'|b0 b1 r s' H0 H1 D'
                  |b0 b1 b2 r s' H0 H1 H2 D'|b0 b1 b2 b3 r s' H0 H1 H2 H3 D'];
    subst; try (cbn in H0; lia).
  eexists. split; [reflexivity|exact D'].
Qed.

(** What remove writes for a file with a single BOM does not begin with
    a BOM. *)
Lemma removed_single_bom pf rest s text :
  utf_8_decode rest = Some s -> take 3 rest <> BOM_UTF8 ->
  removed pf s = Some text -> take 3 text <> BOM_UTF8.
Proof.
  intros Hd Hb Hrm Ht. unfold removed in Hrm.
  destruct text as [|b0 [|b1 [|b2 t]]]; try discriminate.
  cbn [take] in Ht. injection Ht as -> -> ->.
  destruct (decodes_BOM t _ (encode_decodes _ _ Hrm)) as (s0 & Hs0 & _).
  destruct (rewritten_head pf s s0 Hs0) as [s1 ->].
  apply utf_8_decode_encode in Hd. rewrite encode_FEFF_cons in Hd.
  destruct (utf_8_encode s1) as [r|]; [|discriminate].
  injection Hd as <-. now apply Hb.
Qed.

End Rewritten.

(** X17. For every accessible file that begins with exactly one BOM
    (what follows does not begin with a second one), has no zero byte
    in its first 1024 bytes and is valid UTF-8, one real remove reports
    [bom_removed] and leaves a file that no longer begins with
    EF BB BF: the probe answers false on it and a second remove reports
    [no_bom] and changes nothing. *)
Theorem remove_of_a_single_bom_leaves_none pf p v fs rest s :
  fs !! p = Some (RegularFile (File (BOM_UTF8 ++ rest) true true)) ->
  take 3 rest <> BOM_UTF8 ->
  x00 ∉ take 1024 (BOM_UTF8 ++ rest) ->
  utf_8_decode rest = Some s ->
  exists fs' text,
    remove_bom_from_file pf p false v fs = (fs', Ok (true, "bom_removed"%string))
    /\ fs' = <[p := RegularFile (File text true true)]> fs
    /\ take 3 text <> BOM_UTF8
    /\ has_utf8_bom p fs' = (fs', Ok false)
    /\ remove_bom_from_file pf p false v fs' = (fs', Ok (true, "no_bom"%string)).
Proof.
  intros Hp Hb Hz Hd.
  set (f := File (BOM_UTF8 ++ rest) true true) in *.
  assert (Hsig : utf_8_sig_decode (content f) = Some s) by exact Hd.
  destruct (removed_is_Some pf _ _ Hsig) as [text Htext].
  pose proof (removed_single_bom pf rest s text Hd Hb Htext) as Hnb.
  exists (<[p := RegularFile (File text true true)]> fs), text.
  split; [now apply remove_bom_removed with f s|].
  split; [reflexivity|]. split; [exact Hnb|].
  split.
  - erewrite has_utf8_bom_ok; [|apply lookup_insert_eq|reflexivity].
    cbn [content]. now rewrite (bool_decide_eq_false_2 _ Hnb).
  - apply remove_no_bom with (File text true true);
      [apply lookup_insert_eq|reflexivity|exact Hnb].
Qed.

Lemma remove_of_a_single_bom_leaves_none_witness :
  exists fs' text,
    remove_bom_from_file Posix Examples.readme false false
      (Examples.tree (BOM_UTF8 ++ Examples.hello))
    = (fs', Ok (true, "bom_removed"%string))
    /\ fs' = <[Examples.readme := RegularFile (File text true true)]>
               (Examples.tree (BOM_UTF8 ++ Examples.hello))
    /\ take 3 text <> BOM_UTF8
    /\ has_utf8_bom Examples.readme fs' = (fs', Ok false)
    /\ remove_bom_from_file Posix Examples.readme false false fs'
       = (fs', Ok (true, "no_bom"%string)).
Proof.
  apply (remove_of_a_single_bom_leaves_none Posix Examples.readme false
           (Examples.tree (BOM_UTF8 ++ Examples.hello)) Examples.hello
           [104; 101; 108; 108; 111]).
  - vm_compute; reflexivity.
  - discriminate.
  - compute_done.
  - reflexivity.
Defined.

(** X18. Whatever line endings the file had, after an add that reports
    [bom_added] the file holds EF BB BF followed by bytes whose line
    endings are all the platform's [os.linesep]: on POSIX no CR byte is
    left, on Windows CR and LF occur only as CR LF pairs. *)
Theorem add_leaves_native_line_endings pf p d v fs fs' ok :
  add_bom_to_file pf p d v fs = (fs', Ok (ok, "bom_added"%string)) ->
  exists text r w,
    fs' !! p = Some (RegularFile (File ([xef; xbb; xbf] ++ text) r w))
    /\ native_newlines pf text = true
    /\ (pf = Posix -> x0d ∉ text).
Proof.
  intros H.
  destruct (add_outcomes pf p v fs)
    as [(f & s & bs' & Hp & Hr & Hw & _ & _ & Hd & Ha & Hreal & Hdry)
       |[(f & s & _ & _ & _ & _ & _ & _ & Hreal & Hdry)
        |(r & Hin & Hall)]].
  - destruct d; [rewrite Hdry in H; discriminate|].
    rewrite Hreal in H. injection H as <- _.
    unfold added, utf_8_sig_encode in Ha.
    destruct (utf_8_encode _) as [text|] eqn:He; [|discriminate].
    injection Ha as <-. exists text, true, true.
    split; [apply lookup_insert_eq|].
    pose proof (rewritten_native pf s text He) as Hn.
    split; [exact Hn|]. intros ->. now apply native_newlines_posix.
  - destruct d; [rewrite Hdry in H|rewrite Hreal in H]; discriminate.
  - rewrite Hall in H. injection H as _ ->.
    repeat (apply elem_of_cons in Hin as [Hin|Hin]; [discriminate Hin|]).
    now apply elem_of_nil in Hin.
Qed.

(** A file with CR LF line endings, on POSIX. *)
Lemma add_leaves_native_line_endings_witness :
  exists text r w,
    Examples.tree (BOM_UTF8 ++ [x61; x0a; x62]) !! Examples.readme
    = Some (RegularFile (File ([xef; xbb; xbf] ++ text) r w))
    /\ native_newlines Posix text = true
    /\ (Posix = Posix -> x0d ∉ text).
Proof.
  apply (add_leaves_native_line_endings Posix Examples.readme false false
           (Examples.tree [x61; x0d; x0a; x62])
           (Examples.tree (BOM_UTF8 ++ [x61; x0a; x62])) true).
  compute_done.
Defined.

(** X19. Likewise, after a remove that reports [bom_removed] all line
    endings of the file are the platform's [os.linesep]. *)
Theorem remove_leaves_native_line_endings pf p d v fs fs' ok :
  remove_bom_from_file pf p d v fs = (fs', Ok (ok, "bom_removed"%string)) ->
  exists text r w,
    fs' !! p = Some (RegularFile (File text r w))
    /\ native_newlines pf text = true
    /\ (pf = Posix -> x0d ∉ text).
Proof.
  intros H.
  destruct (remove_outcomes pf p v fs)
    as [(f & s & bs' & Hp & Hr & Hw & _ & _ & Hd & Ha & Hreal & Hdry)
       |[(f & s & _ & _ & _ & _ & _ & _ & Hreal & Hdry)
        |(r & Hin & Hall)]].
  - destruct d; [rewrite Hdry in H; discriminate|].
    rewrite Hreal in H. injection H as <- _.
    exists bs', true, true. split; [apply lookup_insert_eq|].
    pose proof (rewritten_native pf s bs' Ha) as Hn.
    split; [exact Hn|]. intros ->. now apply native_newlines_posix.
  - destruct d; [rewrite Hdry in H|rewrite Hreal in H]; discriminate.
  - rewrite Hall in H. injection H as _ ->.
    repeat (apply elem_of_cons in Hin as [Hin|Hin]; [discriminate Hin|]).
    now apply elem_of_nil in Hin.
Qed.

(** A file with LF line endings, on Windows. *)
Lemma remove_leaves_native_line_endings_witness :
  exists text r w,
    Examples.tree [x61; x0d; x0a; x62] !! Examples.readme
    = Some (RegularFile (File text r w))
    /\ native_newlines Windows text = true
    /\ (Windows = Posix -> x0d ∉ text).
Proof.
  apply (remove_leaves_native_line_endings Windows Examples.readme false false
           (Examples.tree (BOM_UTF8 ++ [x61; x0a; x62]))
           (Examples.tree [x61; x0d; x0a; x62]) true).
  compute_done.
Defined.
